(** * radarsim: the transmitter configuration of [transmitter.py]

    A shallow embedding of the class [Transmitter]: its constructor
    [__init__], the two validators and the three [process_*] methods.

    Numbers are binary64 floats (numpy's [float64], which is also what a
    Python [float] is); Rocq's primitive floats are the same IEEE 754
    format with the same round-to-nearest-even arithmetic, so the float
    expressions of the source are transcribed operator for operator.
    Sequences ([list], [tuple], one-dimensional [ndarray]) are lists of
    floats: the arrays numpy makes of them have the type [float64].  An
    argument written with Python [int]s stands for the floats of the same
    values.  numpy keeps a sequence of [int]s as an [int64] array, whose
    sums and differences are exact and wrap around; they are the float
    ones as long as both are exact, which magnitudes up to 2^52 ensure:
    the statements on the sign of a difference ask for that range, and
    what is stated about rounding is stated for float arguments.
    A raised exception is a value of [exn]; a method that can raise
    returns a [result]. *)

From Stdlib Require Import String DecimalString Floats ZArith List Bool Lia.
Import ListNotations.

Set Warnings "-inexact-float".

(** ** Exceptions *)

Inductive exn : Type :=
| ValueError (msg : string)
| IndexError (msg : string)
| TypeError (msg : string).

Inductive result (A : Type) : Type :=
| Ok (a : A)
| Raise (e : exn).

Arguments Ok {A} a.
Arguments Raise {A} e.

Definition bind {A B : Type} (r : result A) (k : A -> result B) : result B :=
  match r with
  | Ok a => k a
  | Raise e => Raise e
  end.

Notation "x <- r ;; k" := (bind r (fun x => k))
  (at level 61, r at next level, right associativity).
Notation "r ;;; k" := (bind r (fun _ => k))
  (at level 61, right associativity).

Definition raises {A : Type} (r : result A) : Prop := exists e, r = Raise e.

(** ** Python values *)

(** An argument documented as "number or sequence". *)
Inductive pyval : Type :=
| PyNum (x : float)
| PySeq (l : list float).

(** A numpy array of dimension zero or one.  [np.ones_like] and
    [np.zeros_like] of a Python scalar return an array of dimension zero, an
    [ndarray] that has no [len]. *)
Inductive ndarray : Type :=
| Arr0 (x : float)
| Arr1 (l : list float).

(** What a local variable of [process_waveform_modulation] holds: the value
    the caller passed, or an array made by [np.ones_like]/[np.zeros_like]. *)
Inductive pyobj : Type :=
| Plain (v : pyval)
| Nd (a : ndarray).

(** [complex128]: real and imaginary part. *)
Definition complex : Type := (float * float)%type.

Definition of_real (x : float) : complex := (x, 0%float).
Definition j : complex := (0%float, 1%float).
Definition real (z : complex) : float := fst z.
Definition imag (z : complex) : float := snd z.

(** numpy's [complex128] loops for [*], [/] and [np.exp].  They are library
    code, not code of [transmitter.py]: the program is embedded over any
    implementation of them. *)
Class Complex128 : Type := {
  c_mul : complex -> complex -> complex;
  c_div : complex -> complex -> complex;
  c_exp : complex -> complex
}.

(** ** The numpy functions the module calls *)

Module np.

(** [np.pi] *)
Definition pi : float := 0x1.921fb54442d18p+1%float.

Definition zeros (n : Z) : result (list float) :=
  if (n <? 0)%Z then Raise (ValueError "negative dimensions are not allowed")
  else Ok (repeat 0%float (Z.to_nat n)).

Definition ones (n : Z) : result (list float) :=
  if (n <? 0)%Z then Raise (ValueError "negative dimensions are not allowed")
  else Ok (repeat 1%float (Z.to_nat n)).

Definition ones_like (v : pyval) : ndarray :=
  match v with
  | PyNum _ => Arr0 1%float
  | PySeq l => Arr1 (repeat 1%float (length l))
  end.

Definition zeros_like (v : pyval) : ndarray :=
  match v with
  | PyNum _ => Arr0 0%float
  | PySeq l => Arr1 (repeat 0%float (length l))
  end.

(** One step of the reductions [np.max] and [np.min], the accumulator
    first: a NaN operand wins, and of two operands that compare equal (the
    zeros of the two signs) the later one is kept. *)
Definition maximum (a b : float) : float :=
  if is_nan a then a
  else if (a <=? b)%float || is_nan b then b
  else a.

Definition minimum (a b : float) : float :=
  if is_nan a then a
  else if (b <=? a)%float || is_nan b then b
  else a.

(** [np.max] and [np.min]: the reduction of a non-empty array; an empty
    array has no maximum and numpy raises. *)
Definition max (a : list float) : result float :=
  match a with
  | [] => Raise (ValueError
      "zero-size array to reduction operation maximum which has no identity")
  | x :: r => Ok (fold_left maximum r x)
  end.

Definition min (a : list float) : result float :=
  match a with
  | [] => Raise (ValueError
      "zero-size array to reduction operation minimum which has no identity")
  | x :: r => Ok (fold_left minimum r x)
  end.

(** [np.cumsum]: the running sum, accumulated from left to right. *)
Fixpoint cumsum_from (acc : float) (a : list float) : list float :=
  match a with
  | [] => []
  | x :: r => (acc + x)%float :: cumsum_from (acc + x)%float r
  end.

Definition cumsum (a : list float) : list float :=
  match a with
  | [] => []
  | x :: r => x :: cumsum_from x r
  end.

End np.

(** [t[0]] on the argument [t], a Python sequence: the message is that of a
    [list] (a [tuple] names itself instead, an [ndarray] says what
    [getitem_first] says). *)
Definition sequence_first (t : list float) : result float :=
  match t with
  | [] => Raise (IndexError "list index out of range")
  | x :: _ => Ok x
  end.

(** [a[0]] and [a[-1]] on a one-dimensional array. *)
Definition getitem_first (a : list float) : result float :=
  match a with
  | [] => Raise (IndexError "index 0 is out of bounds for axis 0 with size 0")
  | x :: _ => Ok x
  end.

Definition getitem_last (a : list float) : result float :=
  match a with
  | [] => Raise (IndexError "index -1 is out of bounds for axis 0 with size 0")
  | x :: r => Ok (last r x)
  end.

(** [a[i] = v] on a preallocated array. *)
Fixpoint setitem {A : Type} (a : list A) (i : nat) (v : A) : result (list A) :=
  match a, i with
  | [], _ => Raise (IndexError "index is out of bounds for axis 0")
  | _ :: r, O => Ok (v :: r)
  | x :: r, S i' => r' <- setitem r i' v ;; Ok (x :: r')
  end.

(** [row[:] = value] for a row of three [float64]: the value is broadcast
    (a one-element array fills the row) and cast to [float64]. *)
Definition broadcast3 {A : Type} (v : list A) : result (list A) :=
  match v with
  | [x] => Ok [x; x; x]
  | [_; _; _] => Ok v
  | _ => Raise (ValueError
           ("could not broadcast input array from shape ("
            ++ NilZero.string_of_uint (Nat.to_uint (length v))
            ++ ",) into shape (3,)"))
  end.

(** The cast of a [complex128] to a [float64] that the assignment into a
    [float64] array does: numpy warns ([ComplexWarning]) and keeps the real
    part. *)
Definition cast_float64 (z : complex) : float := real z.

(** ** The records of the module *)

(** [rf_prop] *)
Record rf_prop : Type := {
  rf_tx_power : float;
  rf_pn_f : option (list float);
  rf_pn_power : option (list float)
}.

(** [waveform_prop] *)
Record waveform_prop : Type := {
  wf_f : list float;
  wf_t : list float;
  wf_bandwidth : float;
  wf_pulse_length : float;
  wf_pulses : Z;
  wf_f_offset : list float;
  wf_prp : list float;
  wf_pulse_start_time : list float
}.

(** One entry of [txchannel_prop["waveform_mod"]]: the keys [enabled],
    [var] and [t]. *)
Record waveform_mod : Type := {
  wm_enabled : bool;
  wm_var : option (list complex);
  wm_t : option (list float)
}.

(** A channel descriptor: the keys a channel dictionary may hold; [None] is
    an absent key. *)
Record channel : Type := {
  ch_location : option (list float);
  ch_polarization : option (list complex);
  ch_delay : option float;
  ch_grid : option float;
  ch_azimuth_angle : option (list float);
  ch_azimuth_pattern : option (list float);
  ch_elevation_angle : option (list float);
  ch_elevation_pattern : option (list float);
  ch_pulse_amp : option (list float);
  ch_pulse_phs : option (list float);
  ch_mod_t : option pyval;
  ch_amp : option pyval;
  ch_phs : option pyval
}.

(** [txchannel_prop] *)
Record txchannel_prop : Type := {
  tx_size : nat;
  tx_delay : list float;
  tx_grid : list float;
  tx_locations : list (list float);
  tx_polarization : list (list float);
  tx_waveform_mod : list waveform_mod;
  tx_pulse_mod : list (list complex);
  tx_az_patterns : list (list float);
  tx_az_angles : list (list float);
  tx_el_patterns : list (list float);
  tx_el_angles : list (list float);
  tx_antenna_gains : list float
}.

(** The constructed object. *)
Record Transmitter : Type := {
  rf : rf_prop;
  waveform : waveform_prop;
  txchannel : txchannel_prop
}.

(** The arguments of [Transmitter.__init__]. *)
Record init_args : Type := {
  arg_f : pyval;
  arg_t : pyval;
  arg_tx_power : float;
  arg_pulses : Z;
  arg_prp : option pyval;
  arg_f_offset : option pyval;
  arg_pn_f : option (list float);
  arg_pn_power : option (list float);
  arg_channels : option (list channel)
}.

(** [dict.get(key, default)] *)
Definition get {A : Type} (v : option A) (default : A) : A :=
  match v with
  | Some a => a
  | None => default
  end.

(** Elementwise combination of two arrays of the same length. *)
Fixpoint zip_with {A B C : Type} (f : A -> B -> C) (a : list A) (b : list B)
  : list C :=
  match a, b with
  | x :: a', y :: b' => f x y :: zip_with f a' b'
  | _, _ => []
  end.

(** ** The methods of [Transmitter] *)

Section Methods.

Context {numpy_complex : Complex128}.

(** [validate_rf_prop] (lines 254-270) *)
Definition validate_rf_prop (rf_prop : rf_prop) : result unit :=
  (match rf_pn_f rf_prop, rf_pn_power rf_prop with
   | Some _, None =>
       Raise (ValueError "Lengths of `pn_f` and `pn_power` should be the same")
   | _, _ => Ok tt
   end) ;;;
  (match rf_pn_f rf_prop, rf_pn_power rf_prop with
   | None, Some _ =>
       Raise (ValueError "Lengths of `pn_f` and `pn_power` should be the same")
   | _, _ => Ok tt
   end) ;;;
  (match rf_pn_f rf_prop, rf_pn_power rf_prop with
   | Some pn_f, Some pn_power =>
       if negb (length pn_f =? length pn_power)%nat
       then Raise
              (ValueError "Lengths of `pn_f` and `pn_power` should be the same")
       else Ok tt
   | _, _ => Ok tt
   end).

(** [validate_waveform_prop] (lines 272-293) *)
Definition validate_waveform_prop (waveform_prop : waveform_prop)
  : result unit :=
  (if negb (length (wf_f waveform_prop) =? length (wf_t waveform_prop))%nat
   then Raise (ValueError "Lengths of `f` and `t` should be the same")
   else Ok tt) ;;;
  (if negb (Z.of_nat (length (wf_f_offset waveform_prop))
            =? wf_pulses waveform_prop)%Z
   then Raise
          (ValueError "Lengths of `f_offset` and `pulses` should be the same")
   else Ok tt) ;;;
  (if negb (Z.of_nat (length (wf_prp waveform_prop))
            =? wf_pulses waveform_prop)%Z
   then Raise
          (ValueError "Length of `prp` should equal to the length of `pulses`")
   else Ok tt) ;;;
  min_prp <- np.min (wf_prp waveform_prop) ;;
  if (min_prp <? wf_pulse_length waveform_prop)%float
  then Raise (ValueError "`prp` should be larger than `pulse_length`")
  else Ok tt.

(** The record [process_waveform_modulation] returns when there is no
    modulation. *)
Definition waveform_mod_disabled : waveform_mod :=
  {| wm_enabled := false; wm_var := None; wm_t := None |}.

(** The first statement of [process_waveform_modulation] (lines 314-317):
    the default of [amp] when only [phs] is given, and of [phs] when only
    [amp] is. *)
Definition default_amp_phs (amp phs : option pyval)
  : option pyobj * option pyobj :=
  match phs, amp with
  | Some p, None => (Some (Nd (np.ones_like p)), Some (Plain p))
  | None, Some a => (Some (Plain a), Some (Nd (np.zeros_like a)))
  | _, _ => (option_map Plain amp, option_map Plain phs)
  end.

(** [np.array(x)] if [x] is a sequence, [np.array([x, x])] otherwise. *)
Definition array_or_pair (x : pyobj) : ndarray :=
  match x with
  | Plain (PySeq l) => Arr1 l
  | Plain (PyNum v) => Arr1 [v; v]
  | Nd a => a
  end.

(** [np.array(mod_t)] if [mod_t] is a sequence, [np.array([0, mod_t])]
    otherwise. *)
Definition array_or_from_zero (mod_t : pyval) : list float :=
  match mod_t with
  | PySeq l => l
  | PyNum v => [0%float; v]
  end.

(** One element of [amp * np.exp(1j * phs / 180 * np.pi)]. *)
Definition waveform_mod_var (amp phs : float) : complex :=
  c_mul (of_real amp)
    (c_exp (c_mul (c_div (c_mul j (of_real phs)) (of_real 180%float))
                  (of_real np.pi))).

(** [process_waveform_modulation] (lines 295-345) *)
Definition process_waveform_modulation (mod_t amp phs : option pyval)
  : result waveform_mod :=
  let '(amp, phs) := default_amp_phs amp phs in
  match mod_t, amp, phs with
  | Some mod_t, Some amp, Some phs =>
      let amp := array_or_pair amp in
      let phs := array_or_pair phs in
      let mod_t := array_or_from_zero mod_t in
      match amp, phs with
      | Arr0 _, _ | Arr1 _, Arr0 _ =>
          (* [len(amp)], or else [len(phs)], of an array of dimension zero *)
          Raise (TypeError "len() of unsized object")
      | Arr1 amp, Arr1 phs =>
          if negb (length amp =? length phs)%nat
          then Raise
                 (ValueError "Lengths of `amp` and `phs` should be the same")
          else
            let mod_var := zip_with waveform_mod_var amp phs in
            if negb (length mod_t =? length mod_var)%nat
            then Raise (ValueError
                   "Lengths of `mod_t`, `amp`, and `phs` should be the same")
            else Ok {| wm_enabled := true;
                       wm_var := Some mod_var;
                       wm_t := Some mod_t |}
      end
  | _, _, _ => Ok waveform_mod_disabled
  end.

(** One element of
    [np.array(pulse_amp) * np.exp(1j * (np.array(pulse_phs) / 180 * np.pi))]. *)
Definition pulse_mod_var (pulse_amp pulse_phs : float) : complex :=
  c_mul (of_real pulse_amp)
    (c_exp (c_mul j (of_real (pulse_phs / 180 * np.pi)%float))).

(** [process_pulse_modulation] (lines 347-372); [self.waveform_prop] is the
    first argument. *)
Definition process_pulse_modulation (waveform_prop : waveform_prop)
  (pulse_amp pulse_phs : list float) : result (list complex) :=
  (if negb (Z.of_nat (length pulse_amp) =? wf_pulses waveform_prop)%Z
   then Raise
          (ValueError "Lengths of `pulse_amp` and `pulses` should be the same")
   else Ok tt) ;;;
  (if negb (Z.of_nat (length pulse_phs) =? wf_pulses waveform_prop)%Z
   then Raise
          (ValueError "Length of `pulse_phs` and `pulses` should be the same")
   else Ok tt) ;;;
  Ok (zip_with pulse_mod_var pulse_amp pulse_phs).


(** The state [txch_prop] before the loop of [process_txchannel_prop]
    (lines 390-418). *)
Definition txch_prop_init (waveform_prop : waveform_prop) (size : nat)
  : result txchannel_prop :=
  delay <- np.zeros (Z.of_nat size) ;;
  grid <- np.zeros (Z.of_nat size) ;;
  row3 <- np.zeros 3 ;;
  pulse_row <- np.ones (wf_pulses waveform_prop) ;;
  antenna_gains <- np.zeros (Z.of_nat size) ;;
  Ok {| tx_size := size;
        tx_delay := delay;
        tx_grid := grid;
        tx_locations := repeat row3 size;
        tx_polarization := repeat row3 size;
        tx_waveform_mod := [];
        tx_pulse_mod := repeat (map of_real pulse_row) size;
        tx_az_patterns := [];
        tx_az_angles := [];
        tx_el_patterns := [];
        tx_el_angles := [];
        tx_antenna_gains := antenna_gains |}.

(** The body of the loop of [process_txchannel_prop] (lines 421-468), for
    the channel [tx_element] at index [tx_idx].  An exception leaves the
    loop and the method, and the state built so far is dropped. *)
Definition txchannel_body (waveform_prop : waveform_prop)
  (tx_idx : nat) (tx_element : channel) (txch_prop : txchannel_prop)
  : result txchannel_prop :=
  delay <- setitem (tx_delay txch_prop) tx_idx
             (get (ch_delay tx_element) 0%float) ;;
  grid <- setitem (tx_grid txch_prop) tx_idx
            (get (ch_grid tx_element) 1%float) ;;
  location <- match ch_location tx_element with
              | None =>
                  (* [np.array(None)] holds [None], which the assignment
                     into the [float64] row casts to NaN *)
                  Ok [nan; nan; nan]%float
              | Some v => broadcast3 v
              end ;;
  locations <- setitem (tx_locations txch_prop) tx_idx location ;;
  polarization_row <-
    broadcast3
      (map cast_float64
         (get (ch_polarization tx_element)
            [of_real 0%float; of_real 0%float; of_real 1%float])) ;;
  polarization <- setitem (tx_polarization txch_prop) tx_idx
                    polarization_row ;;
  waveform_mod <- process_waveform_modulation (ch_mod_t tx_element)
                    (ch_amp tx_element) (ch_phs tx_element) ;;
  default_pulse_amp <- np.ones (wf_pulses waveform_prop) ;;
  default_pulse_phs <- np.zeros (wf_pulses waveform_prop) ;;
  pulse_mod_row <- process_pulse_modulation waveform_prop
                     (get (ch_pulse_amp tx_element) default_pulse_amp)
                     (get (ch_pulse_phs tx_element) default_pulse_phs) ;;
  pulse_mod <- setitem (tx_pulse_mod txch_prop) tx_idx pulse_mod_row ;;
  (* azimuth pattern *)
  let az_angle := get (ch_azimuth_angle tx_element) [(-90)%float; 90%float] in
  let az_pattern := get (ch_azimuth_pattern tx_element) [0%float; 0%float] in
  (if negb (length az_angle =? length az_pattern)%nat
   then Raise (ValueError
     "Lengths of `azimuth_angle` and `azimuth_pattern`                         should be the same")
   else Ok tt) ;;;
  az_peak <- np.max az_pattern ;;
  antenna_gains <- setitem (tx_antenna_gains txch_prop) tx_idx az_peak ;;
  let gain := nth tx_idx antenna_gains 0%float in
  let az_pattern := map (fun x => (x - gain)%float) az_pattern in
  (* elevation pattern *)
  let el_angle := get (ch_elevation_angle tx_element)
                    [(-90)%float; 90%float] in
  let el_pattern := get (ch_elevation_pattern tx_element)
                      [0%float; 0%float] in
  (if negb (length el_angle =? length el_pattern)%nat
   then Raise (ValueError
     "Lengths of `elevation_angle` and `elevation_pattern`                         should be the same")
   else Ok tt) ;;;
  el_peak <- np.max el_pattern ;;
  let el_pattern := map (fun x => (x - el_peak)%float) el_pattern in
  Ok {| tx_size := tx_size txch_prop;
        tx_delay := delay;
        tx_grid := grid;
        tx_locations := locations;
        tx_polarization := polarization;
        tx_waveform_mod := tx_waveform_mod txch_prop ++ [waveform_mod];
        tx_pulse_mod := pulse_mod;
        tx_az_patterns := tx_az_patterns txch_prop ++ [az_pattern];
        tx_az_angles := tx_az_angles txch_prop ++ [az_angle];
        tx_el_patterns := tx_el_patterns txch_prop ++ [el_pattern];
        tx_el_angles := tx_el_angles txch_prop ++ [el_angle];
        tx_antenna_gains := antenna_gains |}.

(** [for tx_idx, tx_element in enumerate(channels)] (line 420), from index
    [tx_idx]. *)
Fixpoint txchannel_loop (waveform_prop : waveform_prop) (tx_idx : nat)
  (channels : list channel) (txch_prop : txchannel_prop)
  : result txchannel_prop :=
  match channels with
  | [] => Ok txch_prop
  | tx_element :: rest =>
      txch_prop' <- txchannel_body waveform_prop tx_idx tx_element txch_prop ;;
      txchannel_loop waveform_prop (S tx_idx) rest txch_prop'
  end.

(** [process_txchannel_prop] (lines 374-470); [self.waveform_prop] is the
    first argument. *)
Definition process_txchannel_prop (waveform_prop : waveform_prop)
  (channels : list channel) : result txchannel_prop :=
  txch_prop <- txch_prop_init waveform_prop (length channels) ;;
  txchannel_loop waveform_prop 0 channels txch_prop.

End Methods.

(** The channel list [__init__] uses when [channels] is [None] (lines
    249-250): [[{"location": (0, 0, 0)}]]. *)
Definition default_channels : list channel :=
  [ {| ch_location := Some [0%float; 0%float; 0%float];
       ch_polarization := None;
       ch_delay := None;
       ch_grid := None;
       ch_azimuth_angle := None;
       ch_azimuth_pattern := None;
       ch_elevation_angle := None;
       ch_elevation_pattern := None;
       ch_pulse_amp := None;
       ch_pulse_phs := None;
       ch_mod_t := None;
       ch_amp := None;
       ch_phs := None |} ].

(** The [rf_prop] that [__init__] fills in before it validates it (lines
    199-201). *)
Definition init_rf_prop (a : init_args) : rf_prop :=
  {| rf_tx_power := arg_tx_power a;
     rf_pn_f := arg_pn_f a;
     rf_pn_power := arg_pn_power a |}.

(** The part of [__init__] that fills in [waveform_prop] (lines 204-245),
    up to the call of [validate_waveform_prop]. *)
Definition init_waveform_prop (a : init_args) : result waveform_prop :=
  let pulses := arg_pulses a in
  let f := match arg_f a with
           | PySeq l => l
           | PyNum x => [x; x]
           end in
  t <- match arg_t a with
       | PySeq l => t0 <- sequence_first l ;; Ok (map (fun x => (x - t0)%float) l)
       | PyNum x => Ok [0%float; x]
       end ;;
  max_f <- np.max f ;;
  min_f <- np.min f ;;
  pulse_length <- getitem_last t ;;
  f_offset <- match arg_f_offset a with
              | None => np.zeros pulses
              | Some (PySeq l) => Ok l
              | Some (PyNum x) =>
                  z <- np.zeros pulses ;; Ok (map (fun e => (x + e)%float) z)
              end ;;
  prp <- match arg_prp a with
         | None =>
             z <- np.zeros pulses ;;
             Ok (map (fun e => (pulse_length + e)%float) z)
         | Some (PySeq l) => Ok l
         | Some (PyNum x) =>
             z <- np.zeros pulses ;; Ok (map (fun e => (x + e)%float) z)
         end ;;
  prp0 <- getitem_first prp ;;
  Ok {| wf_f := f;
        wf_t := t;
        wf_bandwidth := (max_f - min_f)%float;
        wf_pulse_length := pulse_length;
        wf_pulses := pulses;
        wf_f_offset := f_offset;
        wf_prp := prp;
        wf_pulse_start_time :=
          map (fun s => (s - prp0)%float) (np.cumsum prp) |}.

Section Constructor.

Context {numpy_complex : Complex128}.

(** [Transmitter.__init__] (lines 183-252) *)
Definition Transmitter_init (a : init_args) : result Transmitter :=
  let rf_prop := init_rf_prop a in
  validate_rf_prop rf_prop ;;;
  waveform_prop <- init_waveform_prop a ;;
  validate_waveform_prop waveform_prop ;;;
  let channels := match arg_channels a with
                  | None => default_channels
                  | Some channels => channels
                  end in
  txchannel_prop <- process_txchannel_prop waveform_prop channels ;;
  Ok {| rf := rf_prop;
        waveform := waveform_prop;
        txchannel := txchannel_prop |}.

End Constructor.

(** ** Definitions used in the statements *)

(** A float that is a number: a zero or a finite float. *)
Definition sf_finite (s : spec_float) : Prop :=
  match s with
  | S754_zero _ | S754_finite _ _ _ => True
  | _ => False
  end.

(** The result of a rounding has the sign it was given and is not NaN. *)
Definition sf_signed (s : bool) (r : spec_float) : Prop :=
  match r with
  | S754_zero s' | S754_infinity s' | S754_finite s' _ _ => s' = s
  | S754_nan => False
  end.

(** The defaults the loop body reads from a channel descriptor. *)
Definition az_angle_of (c : channel) : list float :=
  get (ch_azimuth_angle c) [(-90)%float; 90%float].
Definition az_pattern_of (c : channel) : list float :=
  get (ch_azimuth_pattern c) [0%float; 0%float].
Definition el_angle_of (c : channel) : list float :=
  get (ch_elevation_angle c) [(-90)%float; 90%float].
Definition el_pattern_of (c : channel) : list float :=
  get (ch_elevation_pattern c) [0%float; 0%float].
Definition polarization_of (c : channel) : list complex :=
  get (ch_polarization c) [of_real 0%float; of_real 0%float; of_real 1%float].

(** The row of [locations] of a channel: three NaN for a channel without
    [location]. *)
Definition location_row (c : channel) : result (list float) :=
  match ch_location c with
  | None => Ok [nan; nan; nan]%float
  | Some v => broadcast3 v
  end.
Definition pulse_amp_of (wp : waveform_prop) (c : channel) : list float :=
  get (ch_pulse_amp c) (repeat 1%float (Z.to_nat (wf_pulses wp))).
Definition pulse_phs_of (wp : waveform_prop) (c : channel) : list float :=
  get (ch_pulse_phs c) (repeat 0%float (Z.to_nat (wf_pulses wp))).

(** The channel list the constructor processes. *)
Definition channels_of (a : init_args) : list channel :=
  match arg_channels a with
  | None => default_channels
  | Some channels => channels
  end.

(** [a[0] + a[1] + ... + a[i]], added from left to right. *)
Definition running_sum (a : list float) (i : nat) : float :=
  fold_left PrimFloat.add (firstn i (tl a)) (hd 0%float a).

(** [a[0] + ... + a[i-1]], the sum of the entries before index [i]. *)
Definition sum_before (a : list float) (i : nat) : float :=
  fold_left PrimFloat.add (firstn i a) 0%float.

(** One of the four waveform invariants is violated: [len(f) != len(t)],
    [len(f_offset) != pulses], [len(prp) != pulses], or
    [min(prp) < pulse_length].  The minimum is spelled out on the entries
    of [prp]: some entry is below the pulse length, and none is NaN (the
    minimum of an array that holds a NaN is NaN, which is below
    nothing). *)
Definition waveform_invariant_violated (wp : waveform_prop) : Prop :=
  length (wf_f wp) <> length (wf_t wp) \/
  Z.of_nat (length (wf_f_offset wp)) <> wf_pulses wp \/
  Z.of_nat (length (wf_prp wp)) <> wf_pulses wp \/
  ((forall p, In p (wf_prp wp) -> is_nan p = false) /\
   exists p, In p (wf_prp wp) /\ (p <? wf_pulse_length wp)%float = true).

(** [|x| <= 2^52]: the range in which a sum or a difference of two whole
    numbers is the same in [int64] and in [float64], so that a statement
    on it holds for an argument of Python [int]s as for one of floats. *)
Definition in_exact_range (x : float) : bool :=
  ((-0x1p52 <=? x) && (x <=? 0x1p52))%float.


(** ** A computable instance of the complex loops

    Used to run the embedding on concrete inputs: the textbook formulas for
    the product and the quotient, and the exponential by its power series
    cut after thirty terms.  Every theorem below is proved for all
    instances of [Complex128]. *)

Definition c_mul_textbook (a b : complex) : complex :=
  ((real a * real b - imag a * imag b)%float,
   (real a * imag b + imag a * real b)%float).

Definition c_div_textbook (a b : complex) : complex :=
  let d := (real b * real b + imag b * imag b)%float in
  (((real a * real b + imag a * imag b) / d)%float,
   ((imag a * real b - real a * imag b) / d)%float).

Fixpoint exp_series (n : nat) (k : float) (z term sum : complex) : complex :=
  match n with
  | O => sum
  | S n' =>
      let term' := c_div_textbook (c_mul_textbook term z) (of_real k) in
      exp_series n' (k + 1)%float z term'
        ((real sum + real term')%float, (imag sum + imag term')%float)
  end.

Definition c_exp_series (z : complex) : complex :=
  exp_series 30 1%float z (of_real 1%float) (of_real 1%float).

Definition textbook128 : Complex128 :=
  {| c_mul := c_mul_textbook; c_div := c_div_textbook; c_exp := c_exp_series |}.

(** ** Concrete inputs used by the examples below *)

Definition channel_at (location : list float) : channel :=
  {| ch_location := Some location;
     ch_polarization := None;
     ch_delay := None;
     ch_grid := None;
     ch_azimuth_angle := None;
     ch_azimuth_pattern := None;
     ch_elevation_angle := None;
     ch_elevation_pattern := None;
     ch_pulse_amp := None;
     ch_pulse_phs := None;
     ch_mod_t := None;
     ch_amp := None;
     ch_phs := None |}.

(** [Transmitter(f, t)] with every other argument at its default. *)
Definition args_of (f t : pyval) : init_args :=
  {| arg_f := f;
     arg_t := t;
     arg_tx_power := 0%float;
     arg_pulses := 1;
     arg_prp := None;
     arg_f_offset := None;
     arg_pn_f := None;
     arg_pn_power := None;
     arg_channels := None |}.

Definition with_pulses (a : init_args) (pulses : Z) (prp : option pyval)
  : init_args :=
  {| arg_f := arg_f a;
     arg_t := arg_t a;
     arg_tx_power := arg_tx_power a;
     arg_pulses := pulses;
     arg_prp := prp;
     arg_f_offset := arg_f_offset a;
     arg_pn_f := arg_pn_f a;
     arg_pn_power := arg_pn_power a;
     arg_channels := arg_channels a |}.

Definition with_phase_noise (a : init_args) (pn_f pn_power : option (list float))
  : init_args :=
  {| arg_f := arg_f a;
     arg_t := arg_t a;
     arg_tx_power := arg_tx_power a;
     arg_pulses := arg_pulses a;
     arg_prp := arg_prp a;
     arg_f_offset := arg_f_offset a;
     arg_pn_f := pn_f;
     arg_pn_power := pn_power;
     arg_channels := arg_channels a |}.

Definition with_channels (a : init_args) (channels : list channel) : init_args :=
  {| arg_f := arg_f a;
     arg_t := arg_t a;
     arg_tx_power := arg_tx_power a;
     arg_pulses := arg_pulses a;
     arg_prp := arg_prp a;
     arg_f_offset := arg_f_offset a;
     arg_pn_f := arg_pn_f a;
     arg_pn_power := arg_pn_power a;
     arg_channels := Some channels |}.

Definition with_polarization (c : channel) (polarization : list complex)
  : channel :=
  {| ch_location := ch_location c;
     ch_polarization := Some polarization;
     ch_delay := ch_delay c;
     ch_grid := ch_grid c;
     ch_azimuth_angle := ch_azimuth_angle c;
     ch_azimuth_pattern := ch_azimuth_pattern c;
     ch_elevation_angle := ch_elevation_angle c;
     ch_elevation_pattern := ch_elevation_pattern c;
     ch_pulse_amp := ch_pulse_amp c;
     ch_pulse_phs := ch_pulse_phs c;
     ch_mod_t := ch_mod_t c;
     ch_amp := ch_amp c;
     ch_phs := ch_phs c |}.

Definition with_azimuth (c : channel) (angle pattern : list float) : channel :=
  {| ch_location := ch_location c;
     ch_polarization := ch_polarization c;
     ch_delay := ch_delay c;
     ch_grid := ch_grid c;
     ch_azimuth_angle := Some angle;
     ch_azimuth_pattern := Some pattern;
     ch_elevation_angle := ch_elevation_angle c;
     ch_elevation_pattern := ch_elevation_pattern c;
     ch_pulse_amp := ch_pulse_amp c;
     ch_pulse_phs := ch_pulse_phs c;
     ch_mod_t := ch_mod_t c;
     ch_amp := ch_amp c;
     ch_phs := ch_phs c |}.

(** [Transmitter(f=1, t=1, pulses=3, prp=[1, 2, 3])] *)
Definition args_nonuniform_prp : init_args :=
  with_pulses (args_of (PyNum 1%float) (PyNum 1%float)) 3
    (Some (PySeq [1; 2; 3]%float)).

(** [Transmitter(f=1, t=0.1, pulses=3)] *)
Definition args_default_prp : init_args :=
  with_pulses (args_of (PyNum 1%float) (PyNum 0.1%float)) 3 None.

(** [Transmitter(f=[0, 1e9], t=[0, 1e-6], pulses=2, prp=2e-6)] *)
Definition args_two_pulses : init_args :=
  with_pulses (args_of (PySeq [0; 1e9]%float) (PySeq [0; 1e-6]%float)) 2
    (Some (PyNum 2e-6%float)).

(** [Transmitter(f=1, t=1, channels=[])] *)
Definition args_no_channels : init_args :=
  with_channels (args_of (PyNum 1%float) (PyNum 1%float)) [].

(** [Transmitter(f=1, t=1,
      channels=[{"location": (0, 0, 0), "polarization": [0, 1, 1j]}])] *)
Definition args_circular : init_args :=
  with_channels (args_of (PyNum 1%float) (PyNum 1%float))
    [with_polarization (channel_at [0; 0; 0]%float)
       [of_real 0%float; of_real 1%float; j]].

(** A channel with the azimuth pattern [[3, 10, 7]] dB over
    [[-90, 0, 90]] degrees. *)
Definition channel_with_pattern : channel :=
  with_azimuth (channel_at [0; 0; 0]%float)
    [(-90); 0; 90]%float [3; 10; 7]%float.

(** The [waveform_prop] of [Transmitter(f=1, t=1)]. *)
Definition waveform_one_pulse : waveform_prop :=
  {| wf_f := [1; 1]%float;
     wf_t := [0; 1]%float;
     wf_bandwidth := 0%float;
     wf_pulse_length := 1%float;
     wf_pulses := 1;
     wf_f_offset := [0%float];
     wf_prp := [1%float];
     wf_pulse_start_time := [0%float] |}.

(** ** Definitions used in the further properties *)

(** The arguments of [a] with the waveform arguments replaced by the arrays
    of a [waveform_prop]:
    [Transmitter(f=wp["f"], t=wp["t"], pulses=wp["pulses"], prp=wp["prp"],
    f_offset=wp["f_offset"], ...)]. *)
Definition with_waveform (a : init_args) (wp : waveform_prop) : init_args :=
  {| arg_f := PySeq (wf_f wp);
     arg_t := PySeq (wf_t wp);
     arg_tx_power := arg_tx_power a;
     arg_pulses := wf_pulses wp;
     arg_prp := Some (PySeq (wf_prp wp));
     arg_f_offset := Some (PySeq (wf_f_offset wp));
     arg_pn_f := arg_pn_f a;
     arg_pn_power := arg_pn_power a;
     arg_channels := arg_channels a |}.

(** [Transmitter(f=[1, 2, 3], t=[1, 2, 3])]: a time axis that does not
    start at zero. *)
Definition args_offset_time : init_args :=
  args_of (PySeq [1; 2; 3]%float) (PySeq [1; 2; 3]%float).

(** A [waveform_prop] whose [prp] holds a NaN and an entry below the pulse
    length. *)
Definition waveform_nan_prp : waveform_prop :=
  {| wf_f := [1; 1]%float;
     wf_t := [0; 1]%float;
     wf_bandwidth := 0%float;
     wf_pulse_length := 1%float;
     wf_pulses := 2;
     wf_f_offset := [0; 0]%float;
     wf_prp := [nan; 0.5]%float;
     wf_pulse_start_time := [nan; nan]%float |}.

(** What the loop of [process_txchannel_prop] asks of one channel
    descriptor: a location, if it has one, of one or three coordinates; a
    polarization of one or three components; a waveform modulation that
    [process_waveform_modulation] takes; [pulse_amp] and [pulse_phs] of
    [pulses] entries; azimuth and elevation angles and patterns of one
    length, not empty. *)
Definition channel_accepted {numpy_complex : Complex128}
  (wp : waveform_prop) (c : channel) : Prop :=
  (forall location,
     ch_location c = Some location ->
     length location = 1 \/ length location = 3) /\
  (length (polarization_of c) = 1 \/ length (polarization_of c) = 3) /\
  (exists wm,
     process_waveform_modulation (ch_mod_t c) (ch_amp c) (ch_phs c) = Ok wm) /\
  Z.of_nat (length (pulse_amp_of wp c)) = wf_pulses wp /\
  Z.of_nat (length (pulse_phs_of wp c)) = wf_pulses wp /\
  length (az_angle_of c) = length (az_pattern_of c) /\
  az_pattern_of c <> [] /\
  length (el_angle_of c) = length (el_pattern_of c) /\
  el_pattern_of c <> [].

(** The arrays of [txch_prop] that the loop writes by index have at least
    [n] rows. *)
Definition preallocated (st : txchannel_prop) (n : nat) : Prop :=
  n <= length (tx_delay st) /\
  n <= length (tx_grid st) /\
  n <= length (tx_locations st) /\
  n <= length (tx_polarization st) /\
  n <= length (tx_pulse_mod st) /\
  n <= length (tx_antenna_gains st).

(** [Transmitter(f=1, t=1, pn_f=[1, 2, 3])]: phase noise frequencies
    without their powers. *)
Definition args_pn_f_only : init_args :=
  with_phase_noise (args_of (PyNum 1%float) (PyNum 1%float))
    (Some [1; 2; 3]%float) None.

(** [Transmitter(f=1, t=1, channels=[{"location": (0, 0)}])]: a location
    of two coordinates. *)
Definition args_location_of_two : init_args :=
  with_channels (args_of (PyNum 1%float) (PyNum 1%float))
    [channel_at [0; 0]%float].


(** A channel descriptor that has a delay and no location. *)
Definition channel_without_location : channel :=
  {| ch_location := None;
     ch_polarization := None;
     ch_delay := Some 1e-9%float;
     ch_grid := None;
     ch_azimuth_angle := None;
     ch_azimuth_pattern := None;
     ch_elevation_angle := None;
     ch_elevation_pattern := None;
     ch_pulse_amp := None;
     ch_pulse_phs := None;
     ch_mod_t := None;
     ch_amp := None;
     ch_phs := None |}.

(** * Properties *)

(** ** Binary64 arithmetic

    What the proofs need of IEEE 754 arithmetic, from the specification of
    the primitive floats ([SpecFloat], [FloatAxioms]): the order of the
    floats that are not NaN, and the sign of a rounded difference. *)

(** [SFcompare] compares mantissas with [Pos.compare_cont Eq], which is
    what [Pos.compare] unfolds to. *)
Lemma core_Pos_compare_spec a b :
  CompareSpec (a = b) (a < b)%positive (b < a)%positive
    (Pos.compare_cont Eq a b).
Proof. exact (Pos.compare_spec a b). Qed.

(** Case analysis on every comparison of exponents and mantissas. *)
Ltac cmp_cases :=
  repeat (match goal with
    | |- context [Z.compare ?a ?b] =>
        destruct (Z.compare_spec a b)
    | H : context [Z.compare ?a ?b] |- _ =>
        destruct (Z.compare_spec a b)
    | |- context [Pos.compare_cont Eq ?a ?b] =>
        destruct (core_Pos_compare_spec a b)
    | H : context [Pos.compare_cont Eq ?a ?b] |- _ =>
        destruct (core_Pos_compare_spec a b)
    end; cbv iota beta delta [CompOpp] in *).

Lemma SFcompare_refl (a : spec_float) :
  a <> S754_nan -> SFcompare a a = Some Eq.
Proof.
  intros H.
  destruct a as [[]|[]| |[] m e]; simpl; try reflexivity; try congruence;
    cmp_cases; try reflexivity; lia.
Qed.

Lemma is_nan_spec (x : float) : is_nan x = true <-> Prim2SF x = S754_nan.
Proof.
  unfold is_nan. rewrite FloatAxioms.eqb_spec. unfold SFeqb.
  destruct (Prim2SF x) as [s|s| |s m e] eqn:E.
  1,2,4: rewrite SFcompare_refl by discriminate; simpl; split; discriminate.
  simpl. split; reflexivity.
Qed.

Lemma is_nan_false (x : float) : is_nan x = false <-> Prim2SF x <> S754_nan.
Proof.
  rewrite <- is_nan_spec. destruct (is_nan x); split; congruence.
Qed.

Lemma is_finite_spec (x : float) : is_finite x = true -> sf_finite (Prim2SF x).
Proof.
  unfold is_finite, is_infinity. rewrite negb_true_iff, orb_false_iff.
  intros [Hn Hi]. apply is_nan_false in Hn.
  rewrite FloatAxioms.eqb_spec, FloatAxioms.abs_spec in Hi.
  destruct (Prim2SF x) as [s|s| |s m e]; simpl; auto.
  discriminate.
Qed.

Lemma SFleb_refl (a : spec_float) : a <> S754_nan -> SFleb a a = true.
Proof. intros H. unfold SFleb. now rewrite SFcompare_refl. Qed.

Lemma SFleb_trans (a b c : spec_float) :
  SFleb a b = true -> SFleb b c = true -> SFleb a c = true.
Proof.
  unfold SFleb, SFcompare.
  destruct a as [[]|[]| |[] ma ea], b as [[]|[]| |[] mb eb],
    c as [[]|[]| |[] mc ec]; simpl; try reflexivity; try discriminate;
    intros H1 H2; cmp_cases;
    try reflexivity; try discriminate; subst; try lia.
Qed.

Lemma SFleb_total (a b : spec_float) :
  a <> S754_nan -> b <> S754_nan -> SFleb b a = false -> SFleb a b = true.
Proof.
  unfold SFleb, SFcompare.
  destruct a as [[]|[]| |[] ma ea], b as [[]|[]| |[] mb eb];
    simpl; try reflexivity; try discriminate; try congruence;
    intros _ _ H; cmp_cases;
    try reflexivity; try discriminate; subst; try lia.
Qed.

Lemma SFleb_antisym (a b : spec_float) :
  SFleb a b = true -> SFleb b a = true -> SFeqb a b = true.
Proof.
  unfold SFleb, SFeqb, SFcompare.
  destruct a as [[]|[]| |[] ma ea], b as [[]|[]| |[] mb eb];
    simpl; try reflexivity; try discriminate;
    intros H1 H2; cmp_cases;
    try reflexivity; try discriminate; subst; try lia.
Qed.

Lemma SFleb_not_nan (a b : spec_float) :
  SFleb a b = true -> a <> S754_nan /\ b <> S754_nan.
Proof.
  unfold SFleb, SFcompare.
  destruct a as [[]|[]| |[] ma ea], b as [[]|[]| |[] mb eb];
    try discriminate; split; discriminate.
Qed.

(** ** Rounding keeps the sign *)

Lemma shr_1_nonneg (mrs : shr_record) :
  (0 <= shr_m mrs)%Z -> (0 <= shr_m (shr_1 mrs))%Z.
Proof.
  destruct mrs as [m r s]. simpl.
  destruct m as [|[p|p|]|p]; simpl; lia.
Qed.

Lemma iter_pos_invariant {A : Type} (f : A -> A) (P : A -> Prop) :
  (forall x, P x -> P (f x)) ->
  forall n x, P x -> P (@SpecFloat.iter_pos A f n x).
Proof.
  intros Hf. induction n as [n IH|n IH|]; intros x Hx; simpl; auto.
Qed.

Lemma shr_nonneg (mrs : shr_record) (e n : Z) :
  (0 <= shr_m mrs)%Z -> (0 <= shr_m (fst (shr mrs e n)))%Z.
Proof.
  intros H. destruct n as [|p|p]; simpl; try exact H.
  apply (@iter_pos_invariant _ shr_1 (fun r => (0 <= shr_m r)%Z));
    [exact shr_1_nonneg | exact H].
Qed.

Lemma shr_fexp_nonneg (m e : Z) (l : location) :
  (0 <= m)%Z -> (0 <= shr_m (fst (shr_fexp prec emax m e l)))%Z.
Proof.
  intros H. unfold shr_fexp. apply shr_nonneg.
  destruct l as [|[]]; exact H.
Qed.

Lemma round_nearest_even_nonneg (m : Z) (l : location) :
  (0 <= m)%Z -> (0 <= round_nearest_even m l)%Z.
Proof.
  intros H. unfold round_nearest_even.
  destruct l as [|[]]; try exact H.
  - destruct (Z.even m); [exact H|]. lia.
  - lia.
Qed.

Lemma binary_round_aux_signed (s : bool) (m e : Z) (l : location) :
  (0 <= m)%Z -> sf_signed s (binary_round_aux prec emax s m e l).
Proof.
  intros H. unfold binary_round_aux.
  pose proof (shr_fexp_nonneg m e l H) as H1.
  destruct (shr_fexp prec emax m e l) as [mrs' e']. simpl in H1.
  pose proof (shr_fexp_nonneg _ e' loc_Exact
                (round_nearest_even_nonneg _ (loc_of_shr_record mrs') H1)) as H2.
  destruct (shr_fexp prec emax
              (round_nearest_even (shr_m mrs') (loc_of_shr_record mrs'))
              e' loc_Exact) as [mrs'' e'']. simpl in H2.
  destruct (shr_m mrs'') as [|p|p]; simpl; try reflexivity; [|lia].
  match goal with |- context [if ?b then _ else _] => destruct b end;
    reflexivity.
Qed.

Lemma binary_normalize_nonpos (d e : Z) :
  (d <= 0)%Z ->
  SFleb (binary_normalize prec emax d e false) (S754_zero false) = true.
Proof.
  intros H. destruct d as [|p|p]; simpl; [reflexivity | lia |].
  unfold binary_round.
  destruct (shl_align p e _) as [mz ez].
  pose proof (binary_round_aux_signed true (Z.pos mz) ez loc_Exact
                ltac:(lia)) as Hs.
  destruct (binary_round_aux prec emax true (Z.pos mz) ez loc_Exact)
    as [s|s| |s m' e']; simpl in Hs; subst; try reflexivity; contradiction.
Qed.

(** ** Canonical mantissas *)

Lemma digits2_pos_bounds (m : positive) :
  (2 ^ (Z.pos (digits2_pos m) - 1) <= Z.pos m < 2 ^ Z.pos (digits2_pos m))%Z.
Proof.
  induction m as [m IH|m IH|]; simpl digits2_pos.
  -     rewrite Pos2Z.inj_succ.
    replace (Z.succ (Z.pos (digits2_pos m)) - 1)%Z
      with (Z.succ (Z.pos (digits2_pos m) - 1)) by lia.
    rewrite !Z.pow_succ_r by lia. lia.
  -     rewrite Pos2Z.inj_succ.
    replace (Z.succ (Z.pos (digits2_pos m)) - 1)%Z
      with (Z.succ (Z.pos (digits2_pos m) - 1)) by lia.
    rewrite !Z.pow_succ_r by lia. lia.
  - simpl. lia.
Qed.

Lemma bounded_mantissa (m : positive) (e : Z) :
  bounded prec emax m e = true ->
  (Z.pos m < 2 ^ 53)%Z /\ (-1074 <= e)%Z /\
  (e = (-1074)%Z \/ (2 ^ 52 <= Z.pos m)%Z).
Proof.
  unfold bounded, canonical_mantissa, fexp, SpecFloat.emin.
  rewrite andb_true_iff. intros [H _].
  apply Z.eqb_eq in H.
  change (3 - emax - prec)%Z with (-1074)%Z in H.
  change prec with 53%Z in H.
  pose proof (digits2_pos_bounds m) as [Hlo Hhi].
  set (d := Z.pos (digits2_pos m)) in *.
  assert (Hd : (d <= 53)%Z) by lia.
  split; [|split; [lia|]].
  - eapply Z.lt_le_trans; [exact Hhi|]. apply Z.pow_le_mono_r; lia.
  - destruct (Z.eq_dec e (-1074)) as [He|He]; [left; exact He|right].
    assert (d = 53%Z) by lia. subst d.
    replace 52%Z with (Z.pos (digits2_pos m) - 1)%Z by lia. exact Hlo.
Qed.

Lemma shl_align_fst (m : positive) (e e' : Z) :
  (e' <= e)%Z ->
  Z.pos (fst (shl_align m e e')) = (Z.pos m * 2 ^ (e - e'))%Z.
Proof.
  intros H. unfold shl_align.
  destruct (e' - e)%Z as [|p|p] eqn:E; try lia.
  - replace (e - e')%Z with 0%Z by lia. simpl fst. lia.
  - simpl fst.
    change (Pos.iter xO m p) with (shift_pos p m).
    rewrite shift_pos_correct.
    replace (e - e')%Z with (Z.pos p) by lia.
    rewrite Z.pow_pos_fold. lia.
Qed.

(** ** Subtraction *)

Lemma SFsub_diag (a : spec_float) :
  sf_finite a -> SFsub prec emax a a = S754_zero false.
Proof.
  destruct a as [[]|s| |s m e]; simpl; try contradiction; try reflexivity.
  intros _. now rewrite Z.sub_diag.
Qed.

(** Below a finite float, the difference to it is at most zero: the
    subtraction rounds, and rounding keeps the sign. *)
Lemma SFsub_nonpos (a b : spec_float) :
  valid_binary a = true -> valid_binary b = true ->
  sf_finite b -> SFleb a b = true ->
  SFleb (SFsub prec emax a b) (S754_zero false) = true.
Proof.
  intros Va Vb Fb Hle.
  destruct a as [[]|[]| |sa ma ea], b as [[]|[]| |sb mb eb];
    simpl in Fb; try contradiction; try discriminate; try reflexivity.
  - (* zero, finite *) destruct sb; [discriminate | reflexivity].
  - destruct sb; [discriminate | reflexivity].
  - (* finite, zero *) destruct sa; [reflexivity | discriminate].
  - destruct sa; [reflexivity | discriminate].
  - (* finite, finite *)
    unfold SFsub. apply binary_normalize_nonpos.
    simpl in Va, Vb.
    apply bounded_mantissa in Va as (Ha & Hea & Hna).
    apply bounded_mantissa in Vb as (Hb & Heb & Hnb).
    rewrite !shl_align_fst by lia.
    assert (Hpa : (0 < 2 ^ (ea - Z.min ea eb))%Z)
      by (apply Z.pow_pos_nonneg; lia).
    assert (Hpb : (0 < 2 ^ (eb - Z.min ea eb))%Z)
      by (apply Z.pow_pos_nonneg; lia).
    unfold SFleb, SFcompare in Hle.
    destruct sa, sb; cbv [cond_Zopp]; try discriminate; [| nia |].
    + (* both negative *)
      destruct (Z.compare_spec ea eb) as [E|E|E]; try discriminate.
      * subst eb. rewrite Z.min_id, Z.sub_diag, Z.pow_0_r, !Z.mul_1_r.
        destruct (core_Pos_compare_spec ma mb) as [E|E|E];
          try discriminate; lia.
      * replace (Z.min ea eb) with eb in * by lia.
        rewrite Z.sub_diag, Z.pow_0_r, Z.mul_1_r.
        assert (2 ^ 1 <= 2 ^ (ea - eb))%Z by (apply Z.pow_le_mono_r; lia).
        change (2 ^ 1)%Z with 2%Z in *.
        change (2 ^ 53)%Z with (2 ^ 52 * 2)%Z in *. nia.
    + (* both positive *)
      destruct (Z.compare_spec ea eb) as [E|E|E]; try discriminate.
      * subst eb. rewrite Z.min_id, Z.sub_diag, Z.pow_0_r, !Z.mul_1_r.
        destruct (core_Pos_compare_spec ma mb) as [E|E|E];
          try discriminate; lia.
      * replace (Z.min ea eb) with ea in * by lia.
        rewrite Z.sub_diag, Z.pow_0_r, Z.mul_1_r.
        assert (2 ^ 1 <= 2 ^ (eb - ea))%Z by (apply Z.pow_le_mono_r; lia).
        change (2 ^ 1)%Z with 2%Z in *.
        change (2 ^ 53)%Z with (2 ^ 52 * 2)%Z in *. nia.
Qed.

(** ** Binary64 *)

#[local] Open Scope float_scope.

Lemma Prim2SF_zero : Prim2SF 0 = S754_zero false.
Proof. reflexivity. Qed.

Lemma leb_refl (x : float) : is_nan x = false -> (x <=? x) = true.
Proof.
  intros H. rewrite FloatAxioms.leb_spec. apply SFleb_refl.
  now apply is_nan_false.
Qed.

Lemma leb_trans (x y z : float) :
  (x <=? y) = true -> (y <=? z) = true -> (x <=? z) = true.
Proof. rewrite !FloatAxioms.leb_spec. apply SFleb_trans. Qed.

Lemma leb_total (x y : float) :
  is_nan x = false -> is_nan y = false ->
  (y <=? x) = false -> (x <=? y) = true.
Proof.
  rewrite !FloatAxioms.leb_spec, !is_nan_false. apply SFleb_total.
Qed.

Lemma leb_antisym (x y : float) :
  (x <=? y) = true -> (y <=? x) = true -> (x =? y) = true.
Proof.
  rewrite !FloatAxioms.leb_spec, FloatAxioms.eqb_spec. apply SFleb_antisym.
Qed.

Lemma leb_not_nan (x y : float) :
  (x <=? y) = true -> is_nan x = false /\ is_nan y = false.
Proof.
  rewrite FloatAxioms.leb_spec, !is_nan_false. apply SFleb_not_nan.
Qed.

(** [x - x] is [+0] for every finite [x]. *)
Lemma sub_diag (x : float) : is_finite x = true -> x - x = 0.
Proof.
  intros H. apply Prim2SF_inj.
  rewrite FloatAxioms.sub_spec, Prim2SF_zero.
  apply SFsub_diag, is_finite_spec, H.
Qed.

(** [y - p <= 0] for [y <= p] and [p] finite. *)
Lemma sub_nonpos (y p : float) :
  is_finite p = true -> (y <=? p) = true -> (y - p <=? 0) = true.
Proof.
  intros Hp Hle.
  rewrite FloatAxioms.leb_spec in *.
  rewrite FloatAxioms.sub_spec, Prim2SF_zero.
  apply SFsub_nonpos;
    [apply Prim2SF_valid | apply Prim2SF_valid
    | apply is_finite_spec, Hp | exact Hle].
Qed.

(** [x + 0] is [x], but for [-0 + 0], which is [+0]. *)
Lemma add_zero_r (x : float) :
  Prim2SF (x + 0) =
    match Prim2SF x with
    | S754_zero _ => S754_zero false
    | s => s
    end.
Proof.
  rewrite FloatAxioms.add_spec, Prim2SF_zero.
  destruct (Prim2SF x) as [[]|[]| |s m e]; reflexivity.
Qed.

Lemma add_zero_r_eqb (x : float) : is_nan x = false -> (x + 0 =? x) = true.
Proof.
  intros H. apply is_nan_false in H.
  rewrite FloatAxioms.eqb_spec, add_zero_r. unfold SFeqb.
  destruct (Prim2SF x) as [s|s| |s m e] eqn:E; try congruence;
    try reflexivity; now rewrite SFcompare_refl.
Qed.

Lemma add_zero_r_ltb (x y : float) : (x + 0 <? y) = (x <? y).
Proof.
  rewrite !FloatAxioms.ltb_spec, add_zero_r.
  destruct (Prim2SF x) as [s|s| |s m e]; reflexivity.
Qed.

Lemma is_finite_not_nan (x : float) : is_finite x = true -> is_nan x = false.
Proof.
  unfold is_finite. rewrite negb_true_iff, orb_false_iff. tauto.
Qed.


Lemma in_exact_range_finite (x : float) :
  in_exact_range x = true -> is_finite x = true.
Proof.
  unfold in_exact_range. rewrite andb_true_iff, !FloatAxioms.leb_spec.
  change (Prim2SF (-0x1p52)) with (S754_finite true 4503599627370496 0).
  change (Prim2SF 0x1p52) with (S754_finite false 4503599627370496 0).
  intros [Hlo Hhi].
  unfold is_finite, is_infinity, is_nan.
  rewrite !FloatAxioms.eqb_spec, FloatAxioms.abs_spec.
  change (Prim2SF infinity) with (S754_infinity false).
  destruct (Prim2SF x) as [s|[]| |s m e]; try discriminate.
  - reflexivity.
  - unfold SFeqb at 1. rewrite SFcompare_refl by discriminate. reflexivity.
Qed.

(** ** Maximum of an array *)

Lemma np_maximum_cases (a b : float) :
  is_nan (np.maximum a b) = false ->
  is_nan a = false /\
  ((np.maximum a b = a /\ (b <=? a) = true) \/
   (np.maximum a b = b /\ is_nan b = false /\ (a <=? b) = true)).
Proof.
  unfold np.maximum.
  destruct (is_nan a) eqn:Ha; [congruence|].
  destruct (a <=? b) eqn:Hle; simpl.
  - intros Hb. split; [reflexivity | right]. auto.
  - destruct (is_nan b) eqn:Hb; [congruence|].
    intros _. split; [reflexivity | left].
    split; [reflexivity | exact (leb_total b a Hb Ha Hle)].
Qed.

Lemma fold_np_maximum_not_nan (r : list float) :
  forall acc, is_nan acc = false ->
  (forall s, In s r -> is_nan s = false) ->
  is_nan (fold_left np.maximum r acc) = false.
Proof.
  induction r as [|z r IH]; intros acc Hacc Hr; simpl; [exact Hacc|].
  apply IH.
  - unfold np.maximum. rewrite Hacc.
    destruct ((acc <=? z) || is_nan z); [|exact Hacc].
    apply Hr. now left.
  - intros s Hs. apply Hr. now right.
Qed.

(** The reduction by [np.maximum], when it is not NaN, is an entry of the array
    and is above every entry. *)
Lemma fold_np_maximum_spec (r : list float) :
  forall acc, is_nan (fold_left np.maximum r acc) = false ->
  In (fold_left np.maximum r acc) (acc :: r) /\
  forall y, In y (acc :: r) -> (y <=? fold_left np.maximum r acc) = true.
Proof.
  induction r as [|x r IH]; intros acc H; simpl in *.
  - split; [left; reflexivity|].
    intros y [<-|[]]. now apply leb_refl.
  - destruct (IH _ H) as [Hin Hall].
    assert (Hm : is_nan (np.maximum acc x) = false).
    { apply (leb_not_nan _ _ (Hall _ (or_introl eq_refl))). }
    destruct (np_maximum_cases _ _ Hm) as [Ha [[E Hle]|(E & Hx & Hle)]].
    + split.
      * destruct Hin as [Hin|Hin]; [left; congruence | right; right; exact Hin].
      * intros y [<-|[<-|Hy]].
        -- rewrite <- E at 1. apply Hall. now left.
        -- eapply leb_trans; [exact Hle|]. rewrite <- E at 1. apply Hall. now left.
        -- apply Hall. now right.
    + split.
      * destruct Hin as [Hin|Hin]; [right; left; congruence | right; right; exact Hin].
      * intros y [<-|[<-|Hy]].
        -- eapply leb_trans; [exact Hle|]. rewrite <- E at 1. apply Hall. now left.
        -- rewrite <- E at 1. apply Hall. now left.
        -- apply Hall. now right.
Qed.

(** An array less its finite np.maximum has np.maximum zero. *)
Lemma max_of_normalized (a : list float) (peak : float) :
  np.max a = Ok peak -> is_finite peak = true ->
  exists m, np.max (map (fun x => x - peak) a) = Ok m /\ (m =? 0) = true.
Proof.
  destruct a as [|x r]; [discriminate|]. intros E Hfin.
  injection E as E.
  pose proof (is_finite_not_nan _ Hfin) as Hnan.
  rewrite <- E in Hnan.
  destruct (fold_np_maximum_spec r x Hnan) as [Hin Hall]. rewrite E in Hin, Hall.
  simpl map. eexists. split; [reflexivity|].
  set (l := map (fun y => y - peak) r).
  set (m := fold_left np.maximum l (x - peak)).
  assert (Hle : forall s, In s ((x - peak) :: l) -> (s <=? 0) = true).
  { intros s Hs.
    change ((x - peak) :: l) with (map (fun y => y - peak) (x :: r)) in Hs.
    apply in_map_iff in Hs as (y & <- & Hy).
    apply sub_nonpos; [exact Hfin | apply Hall, Hy]. }
  assert (Hm : is_nan m = false).
  { apply fold_np_maximum_not_nan.
    - apply (leb_not_nan _ _ (Hle _ (or_introl eq_refl))).
    - intros s Hs. apply (leb_not_nan _ _ (Hle _ (or_intror Hs))). }
  destruct (fold_np_maximum_spec l (x - peak) Hm) as [Hmin Hmall].
  fold m in Hmin, Hmall.
  apply leb_antisym.
  - apply Hle, Hmin.
  - rewrite <- (sub_diag peak Hfin). apply Hmall.
    change ((x - peak) :: l) with (map (fun y => y - peak) (x :: r)).
    apply in_map_iff. exists peak. split; [reflexivity | exact Hin].
Qed.

#[local] Close Scope float_scope.

(** ** More binary64 arithmetic *)

Lemma SFltb_false_SFleb (a b : spec_float) :
  a <> S754_nan -> b <> S754_nan -> SFltb a b = false -> SFleb b a = true.
Proof.
  unfold SFleb, SFltb, SFcompare.
  destruct a as [[]|[]| |[] ma ea], b as [[]|[]| |[] mb eb];
    simpl; try reflexivity; try discriminate; try congruence;
    intros _ _ H; cmp_cases; try reflexivity; try discriminate; subst; try lia.
Qed.

Lemma binary_normalize_nonneg (d e : Z) :
  (0 <= d)%Z ->
  SFleb (S754_zero false) (binary_normalize prec emax d e false) = true.
Proof.
  intros H. destruct d as [|p|p]; simpl; [reflexivity | | lia].
  unfold binary_round.
  destruct (shl_align p e _) as [mz ez].
  pose proof (binary_round_aux_signed false (Z.pos mz) ez loc_Exact
                ltac:(lia)) as Hs.
  destruct (binary_round_aux prec emax false (Z.pos mz) ez loc_Exact)
    as [s|s| |s m' e']; simpl in Hs; subst; try reflexivity; contradiction.
Qed.

(** The mantissas of two finite floats in order, brought to the smaller
    exponent, are in order. *)
Lemma aligned_mantissas_le (sa : bool) (ma : positive) (ea : Z)
  (sb : bool) (mb : positive) (eb : Z) :
  bounded prec emax ma ea = true -> bounded prec emax mb eb = true ->
  SFleb (S754_finite sa ma ea) (S754_finite sb mb eb) = true ->
  (cond_Zopp sa (Z.pos (fst (shl_align ma ea (Z.min ea eb))))
   <= cond_Zopp sb (Z.pos (fst (shl_align mb eb (Z.min ea eb)))))%Z.
Proof.
  intros Va Vb Hle.
  apply bounded_mantissa in Va as (Ha & Hea & Hna).
  apply bounded_mantissa in Vb as (Hb & Heb & Hnb).
  rewrite !shl_align_fst by lia.
  assert (Hpa : (0 < 2 ^ (ea - Z.min ea eb))%Z)
    by (apply Z.pow_pos_nonneg; lia).
  assert (Hpb : (0 < 2 ^ (eb - Z.min ea eb))%Z)
    by (apply Z.pow_pos_nonneg; lia).
  unfold SFleb, SFcompare in Hle.
  destruct sa, sb; cbv [cond_Zopp]; try discriminate; [| nia |].
  - destruct (Z.compare_spec ea eb) as [E|E|E]; try discriminate.
    + subst eb. rewrite Z.min_id, Z.sub_diag, Z.pow_0_r, !Z.mul_1_r.
      destruct (core_Pos_compare_spec ma mb) as [E|E|E];
        try discriminate; lia.
    + replace (Z.min ea eb) with eb in * by lia.
      rewrite Z.sub_diag, Z.pow_0_r, Z.mul_1_r.
      assert (2 ^ 1 <= 2 ^ (ea - eb))%Z by (apply Z.pow_le_mono_r; lia).
      change (2 ^ 1)%Z with 2%Z in *.
      change (2 ^ 53)%Z with (2 ^ 52 * 2)%Z in *. nia.
  - destruct (Z.compare_spec ea eb) as [E|E|E]; try discriminate.
    + subst eb. rewrite Z.min_id, Z.sub_diag, Z.pow_0_r, !Z.mul_1_r.
      destruct (core_Pos_compare_spec ma mb) as [E|E|E];
        try discriminate; lia.
    + replace (Z.min ea eb) with ea in * by lia.
      rewrite Z.sub_diag, Z.pow_0_r, Z.mul_1_r.
      assert (2 ^ 1 <= 2 ^ (eb - ea))%Z by (apply Z.pow_le_mono_r; lia).
      change (2 ^ 1)%Z with 2%Z in *.
      change (2 ^ 53)%Z with (2 ^ 52 * 2)%Z in *. nia.
Qed.

(** [a - b] is at least zero for a finite [a] and [b <= a]: the rounded
    difference keeps the sign of the exact one. *)
Lemma SFsub_nonneg (a b : spec_float) :
  valid_binary a = true -> valid_binary b = true ->
  sf_finite a -> SFleb b a = true ->
  SFleb (S754_zero false) (SFsub prec emax a b) = true.
Proof.
  intros Va Vb Fa Hle.
  destruct a as [[]|[]| |sa ma ea], b as [[]|[]| |sb mb eb];
    simpl in Fa; try contradiction; try discriminate; try reflexivity.
  - destruct sb; [reflexivity | discriminate].
  - destruct sb; [reflexivity | discriminate].
  - destruct sa; [discriminate | reflexivity].
  - destruct sa; [discriminate | reflexivity].
  - unfold SFsub. apply binary_normalize_nonneg.
    simpl in Va, Vb.
    pose proof (aligned_mantissas_le _ _ _ _ _ _ Vb Va Hle) as H.
    rewrite (Z.min_comm eb ea) in H. lia.
Qed.

#[local] Open Scope float_scope.

Lemma ltb_false_leb (x y : float) :
  is_nan x = false -> is_nan y = false ->
  (x <? y) = false -> (y <=? x) = true.
Proof.
  rewrite FloatAxioms.leb_spec, FloatAxioms.ltb_spec, !is_nan_false.
  apply SFltb_false_SFleb.
Qed.

Lemma ltb_nan_l (x y : float) : is_nan x = true -> (x <? y) = false.
Proof.
  rewrite is_nan_spec, FloatAxioms.ltb_spec. intros ->. reflexivity.
Qed.

(** [0 <= x - y] for [y <= x] and [x] finite. *)
Lemma sub_nonneg (x y : float) :
  is_finite x = true -> (y <=? x) = true -> (0 <=? x - y) = true.
Proof.
  intros Hx Hle.
  rewrite FloatAxioms.leb_spec in *.
  rewrite FloatAxioms.sub_spec, Prim2SF_zero.
  apply SFsub_nonneg;
    [apply Prim2SF_valid | apply Prim2SF_valid
    | apply is_finite_spec, Hx | exact Hle].
Qed.

(** [x - 0] is [x], for every float. *)
Lemma sub_zero_r (x : float) : x - 0 = x.
Proof.
  apply Prim2SF_inj. rewrite FloatAxioms.sub_spec, Prim2SF_zero.
  destruct (Prim2SF x) as [[]|[]| |s m e]; reflexivity.
Qed.

(** ** Minimum of an array *)

Lemma np_minimum_cases (a b : float) :
  is_nan (np.minimum a b) = false ->
  is_nan a = false /\
  ((np.minimum a b = a /\ (a <=? b) = true) \/
   (np.minimum a b = b /\ is_nan b = false /\ (b <=? a) = true)).
Proof.
  unfold np.minimum.
  destruct (is_nan a) eqn:Ha; [congruence|].
  destruct (b <=? a) eqn:Hle; simpl.
  - intros Hb. split; [reflexivity | right]. auto.
  - destruct (is_nan b) eqn:Hb; [congruence|].
    intros _. split; [reflexivity | left].
    split; [reflexivity | exact (leb_total a b Ha Hb Hle)].
Qed.

Lemma fold_np_minimum_not_nan (r : list float) :
  forall acc, is_nan acc = false ->
  (forall s, In s r -> is_nan s = false) ->
  is_nan (fold_left np.minimum r acc) = false.
Proof.
  induction r as [|z r IH]; intros acc Hacc Hr; simpl; [exact Hacc|].
  apply IH.
  - unfold np.minimum. rewrite Hacc.
    destruct ((z <=? acc) || is_nan z); [|exact Hacc].
    apply Hr. now left.
  - intros s Hs. apply Hr. now right.
Qed.

(** The reduction by [np.minimum], when it is not NaN, is an entry of the
    array and is below every entry. *)
Lemma fold_np_minimum_spec (r : list float) :
  forall acc, is_nan (fold_left np.minimum r acc) = false ->
  In (fold_left np.minimum r acc) (acc :: r) /\
  forall y, In y (acc :: r) -> (fold_left np.minimum r acc <=? y) = true.
Proof.
  induction r as [|x r IH]; intros acc H; simpl in *.
  - split; [left; reflexivity|].
    intros y [<-|[]]. now apply leb_refl.
  - destruct (IH _ H) as [Hin Hall].
    assert (Hm : is_nan (np.minimum acc x) = false).
    { apply (leb_not_nan _ _ (Hall _ (or_introl eq_refl))). }
    destruct (np_minimum_cases _ _ Hm) as [Ha [[E Hle]|(E & Hx & Hle)]].
    + split.
      * destruct Hin as [Hin|Hin]; [left; congruence | right; right; exact Hin].
      * intros y [<-|[<-|Hy]].
        -- rewrite <- E at 2. apply Hall. now left.
        -- eapply leb_trans; [|exact Hle]. rewrite <- E at 2. apply Hall. now left.
        -- apply Hall. now right.
    + split.
      * destruct Hin as [Hin|Hin]; [right; left; congruence | right; right; exact Hin].
      * intros y [<-|[<-|Hy]].
        -- eapply leb_trans; [|exact Hle]. rewrite <- E at 2. apply Hall. now left.
        -- rewrite <- E at 2. apply Hall. now left.
        -- apply Hall. now right.
Qed.

#[local] Close Scope float_scope.

#[local] Open Scope float_scope.

Lemma SFleb_SFltb_trans (a b c : spec_float) :
  SFleb a b = true -> SFltb b c = true -> SFltb a c = true.
Proof.
  unfold SFleb, SFltb, SFcompare.
  destruct a as [[]|[]| |[] ma ea], b as [[]|[]| |[] mb eb],
    c as [[]|[]| |[] mc ec];
    simpl; try reflexivity; try discriminate;
    intros H1 H2; cmp_cases; try reflexivity; try discriminate; subst; try lia.
Qed.

Lemma leb_ltb_trans (x y z : float) :
  (x <=? y) = true -> (y <? z) = true -> (x <? z) = true.
Proof.
  rewrite FloatAxioms.leb_spec, !FloatAxioms.ltb_spec. apply SFleb_SFltb_trans.
Qed.

Lemma np_maximum_diag (x : float) : np.maximum x x = x.
Proof.
  unfold np.maximum.
  repeat match goal with
    | |- context [if ?b then _ else _] => destruct b
    end; reflexivity.
Qed.

Lemma np_minimum_diag (x : float) : np.minimum x x = x.
Proof.
  unfold np.minimum.
  repeat match goal with
    | |- context [if ?b then _ else _] => destruct b
    end; reflexivity.
Qed.



Lemma np_minimum_nan (a b : float) :
  is_nan a = true \/ is_nan b = true -> is_nan (np.minimum a b) = true.
Proof.
  unfold np.minimum. destruct (is_nan a) eqn:Ha; [auto|].
  intros [H|Hb]; [discriminate|]. now rewrite Hb, orb_true_r.
Qed.

(** [np.min] of an array that holds a NaN is NaN. *)
Lemma fold_np_minimum_nan (r : list float) :
  forall acc, (exists p, In p (acc :: r) /\ is_nan p = true) ->
  is_nan (fold_left np.minimum r acc) = true.
Proof.
  induction r as [|x r IH]; intros acc (p & Hin & Hp); simpl in *.
  - destruct Hin as [<-|[]]. exact Hp.
  - destruct Hin as [<-|[<-|Hin]].
    + apply IH. exists (np.minimum acc x). split; [now left|].
      apply np_minimum_nan. now left.
    + apply IH. exists (np.minimum acc x). split; [now left|].
      apply np_minimum_nan. now right.
    + apply IH. exists p. split; [now right | exact Hp].
Qed.

#[local] Close Scope float_scope.

(** ** The error monad *)

Lemma bind_Ok {A B : Type} (r : result A) (k : A -> result B) (b : B) :
  bind r k = Ok b -> exists a, r = Ok a /\ k a = Ok b.
Proof.
  destruct r as [a|e]; simpl; intros H; [exists a; auto | discriminate].
Qed.

Lemma bind_Ok_l {A B : Type} (a : A) (k : A -> result B) :
  bind (Ok a) k = k a.
Proof. reflexivity. Qed.

Lemma guard_Ok (b : bool) (e : exn) (u : unit) :
  (if b then Raise e else Ok tt) = Ok u -> b = false.
Proof. destruct b; [discriminate | reflexivity]. Qed.

(** Splits a successful run of a sequence of statements into the successful
    runs of its statements. *)
Ltac inv_ok H :=
  repeat match type of H with
    | bind _ _ = Ok _ =>
        let a := fresh "v" in
        let Ha := fresh "E" in
        apply bind_Ok in H; destruct H as [a [Ha H]]
    end.

(** ** RF properties *)

Lemma validate_rf_prop_Ok (r : rf_prop) :
  validate_rf_prop r = Ok tt <->
  (rf_pn_f r = None /\ rf_pn_power r = None) \/
  (exists pn_f pn_power,
      rf_pn_f r = Some pn_f /\ rf_pn_power r = Some pn_power /\
      length pn_f = length pn_power).
Proof.
  unfold validate_rf_prop.
  destruct (rf_pn_f r) as [x|], (rf_pn_power r) as [y|]; simpl.
  - destruct (Nat.eqb_spec (length x) (length y)) as [E|E]; simpl; split.
    + intros _. right. exists x, y. auto.
    + reflexivity.
    + discriminate.
    + intros [[H _]|(x' & y' & Hx & Hy & Hl)]; [discriminate|].
      injection Hx as <-. injection Hy as <-. contradiction.
  - split; [discriminate|].
    intros [[H _]|(x' & y' & _ & Hy & _)]; discriminate.
  - split; [discriminate|].
    intros [[_ H]|(x' & y' & Hx & _ & _)]; discriminate.
  - split; [auto | reflexivity].
Qed.

Lemma validate_rf_prop_Raise (r : rf_prop) :
  validate_rf_prop r <> Ok tt ->
  validate_rf_prop r =
    Raise (ValueError "Lengths of `pn_f` and `pn_power` should be the same").
Proof.
  unfold validate_rf_prop.
  destruct (rf_pn_f r) as [x|], (rf_pn_power r) as [y|]; simpl;
    try reflexivity; try congruence.
  destruct (Nat.eqb (length x) (length y)); simpl; congruence.
Qed.

Section RF.

Context {numpy_complex : Complex128}.

(** C4: the RF validation succeeds exactly when [pn_f] and [pn_power] are
    both absent, or both present with the same length; on every other
    combination the construction raises the [ValueError] of the
    validation, as for [pn_f = [1, 2, 3]] without [pn_power]; and a
    construction that succeeds stores [pn_f] and [pn_power] (and [tx_power])
    in [rf_prop] as they were given. *)
Theorem rf_validation_iff_paired (a : init_args) :
  (validate_rf_prop (init_rf_prop a) = Ok tt <->
     (arg_pn_f a = None /\ arg_pn_power a = None) \/
     (exists pn_f pn_power,
         arg_pn_f a = Some pn_f /\ arg_pn_power a = Some pn_power /\
         length pn_f = length pn_power)) /\
  (validate_rf_prop (init_rf_prop a) <> Ok tt ->
     Transmitter_init a =
       Raise (ValueError "Lengths of `pn_f` and `pn_power` should be the same")) /\
  (forall tx, Transmitter_init a = Ok tx ->
     validate_rf_prop (init_rf_prop a) = Ok tt /\
     rf_pn_f (rf tx) = arg_pn_f a /\
     rf_pn_power (rf tx) = arg_pn_power a /\
     rf_tx_power (rf tx) = arg_tx_power a) /\
  (forall b,
     Transmitter_init
       (with_phase_noise b (Some [1; 2; 3]%float) None) =
       Raise (ValueError "Lengths of `pn_f` and `pn_power` should be the same")) /\
  (exists tx,
     Transmitter_init
       (with_phase_noise (args_of (PyNum 1%float) (PyNum 1%float))
          (Some [1; 2; 3]%float) (Some [4; 5; 6]%float)) = Ok tx /\
     rf_pn_f (rf tx) = Some [1; 2; 3]%float /\
     rf_pn_power (rf tx) = Some [4; 5; 6]%float).
Proof.
  split; [apply (validate_rf_prop_Ok (init_rf_prop a))|].
  split; [|split; [|split]]; [| | |eexists; split; [reflexivity|split; reflexivity]].
  - intros H. unfold Transmitter_init.
    rewrite (validate_rf_prop_Raise _ H). reflexivity.
  - intros tx H. unfold Transmitter_init in H.
    inv_ok H. injection H as <-. simpl.
    destruct v. auto.
  - intros b. reflexivity.
Qed.

End RF.

(** ** Arrays *)

Lemma zip_with_length {A B C : Type} (f : A -> B -> C) (a : list A) :
  forall b, length a = length b -> length (zip_with f a b) = length a.
Proof.
  induction a as [|x a IH]; intros [|y b] H; simpl in *; try discriminate;
    [reflexivity|].
  f_equal. apply IH. now injection H.
Qed.

Lemma zip_with_nth {A B C : Type} (f : A -> B -> C) (da : A) (db : B) (dc : C)
  (a : list A) :
  forall b i, length a = length b -> i < length a ->
  nth i (zip_with f a b) dc = f (nth i a da) (nth i b db).
Proof.
  induction a as [|x a IH]; intros [|y b] i H Hi; simpl in *;
    try discriminate; [lia|].
  destruct i as [|i]; [reflexivity|].
  apply IH; [now injection H | lia].
Qed.

Lemma zip_with_repeat {A B C : Type} (g : A -> B -> C) (x : A) (y : B)
  (n : nat) :
  zip_with g (repeat x n) (repeat y n) = repeat (g x y) n.
Proof. induction n as [|n IH]; simpl; [|rewrite IH]; reflexivity. Qed.

Lemma nth_repeat_lt {A : Type} (x d : A) (n i : nat) :
  i < n -> nth i (repeat x n) d = x.
Proof.
  revert i. induction n as [|n IH]; intros [|i] H; simpl; try lia;
    [reflexivity|].
  apply IH. lia.
Qed.

(** ** Waveform modulation *)

Section WaveformModulation.

Context {numpy_complex : Complex128}.

(** C7: when, after the defaults of [amp] and [phs], one of [mod_t], [amp],
    [phs] is still [None], [process_waveform_modulation] returns the
    disabled record and raises nothing. *)
Theorem waveform_modulation_disabled_when_absent (mod_t amp phs : option pyval) :
  mod_t = None \/
  fst (default_amp_phs amp phs) = None \/
  snd (default_amp_phs amp phs) = None ->
  process_waveform_modulation mod_t amp phs =
    Ok {| wm_enabled := false; wm_var := None; wm_t := None |}.
Proof.
  unfold process_waveform_modulation.
  destruct (default_amp_phs amp phs) as [amp' phs']; simpl.
  intros [-> | [-> | ->]]; [reflexivity | |].
  - destruct mod_t; reflexivity.
  - destruct mod_t, amp'; reflexivity.
Qed.

(** The result of an enabled modulation, for sequences [amp] and [phs] of
    one length and a time axis of that length. *)
Lemma waveform_modulation_enabled (mod_t : pyval) (amp phs : pyobj)
  (a p : list float) :
  array_or_pair amp = Arr1 a ->
  array_or_pair phs = Arr1 p ->
  length a = length p ->
  length (array_or_from_zero mod_t) = length p ->
  match array_or_pair amp, array_or_pair phs with
  | Arr0 _, _ | Arr1 _, Arr0 _ =>
      Raise (TypeError "len() of unsized object")
  | Arr1 amp, Arr1 phs =>
      if negb (length amp =? length phs)%nat
      then Raise (ValueError "Lengths of `amp` and `phs` should be the same")
      else
        let mod_var := zip_with waveform_mod_var amp phs in
        if negb (length (array_or_from_zero mod_t) =? length mod_var)%nat
        then Raise (ValueError
               "Lengths of `mod_t`, `amp`, and `phs` should be the same")
        else Ok {| wm_enabled := true;
                   wm_var := Some mod_var;
                   wm_t := Some (array_or_from_zero mod_t) |}
  end =
  Ok {| wm_enabled := true;
        wm_var := Some (zip_with waveform_mod_var a p);
        wm_t := Some (array_or_from_zero mod_t) |}.
Proof.
  intros -> -> Hap Ht.
  rewrite Hap, Nat.eqb_refl. simpl.
  rewrite zip_with_length by exact Hap.
  rewrite Ht, Hap, Nat.eqb_refl. reflexivity.
Qed.

(** X25: a channel that gives [phs] as a sequence and no [amp] gets [amp]
    all ones of the length of [phs]; one that gives [amp] as a sequence and
    no [phs] gets [phs] all zeros of the length of [amp]; and with a time
    axis of that same length the result is the enabled record, with
    [mod_var[i] = amp[i] * exp(1j * phs[i] / 180 * pi)]. *)
Theorem waveform_modulation_default_amp_phs (l : list float) (mod_t : pyval) :
  length (array_or_from_zero mod_t) = length l ->
  default_amp_phs None (Some (PySeq l)) =
    (Some (Nd (Arr1 (repeat 1%float (length l)))), Some (Plain (PySeq l))) /\
  default_amp_phs (Some (PySeq l)) None =
    (Some (Plain (PySeq l)), Some (Nd (Arr1 (repeat 0%float (length l))))) /\
  (exists mod_var,
     process_waveform_modulation (Some mod_t) None (Some (PySeq l)) =
       Ok {| wm_enabled := true;
             wm_var := Some mod_var;
             wm_t := Some (array_or_from_zero mod_t) |} /\
     length mod_var = length l /\
     forall i, i < length l ->
       nth i mod_var (of_real 0%float) =
         waveform_mod_var 1%float (nth i l 0%float)) /\
  (exists mod_var,
     process_waveform_modulation (Some mod_t) (Some (PySeq l)) None =
       Ok {| wm_enabled := true;
             wm_var := Some mod_var;
             wm_t := Some (array_or_from_zero mod_t) |} /\
     length mod_var = length l /\
     forall i, i < length l ->
       nth i mod_var (of_real 0%float) =
         waveform_mod_var (nth i l 0%float) 0%float).
Proof.
  intros Ht.
  split; [reflexivity|]. split; [reflexivity|]. split.
  - exists (zip_with waveform_mod_var (repeat 1%float (length l)) l).
    split; [|split].
    + unfold process_waveform_modulation. simpl default_amp_phs. cbv iota beta.
      apply waveform_modulation_enabled;
        [reflexivity | reflexivity | apply repeat_length | exact Ht].
    + rewrite zip_with_length; apply repeat_length.
    + intros i Hi.
      rewrite (zip_with_nth _ 1%float 0%float);
        [| apply repeat_length | now rewrite repeat_length].
      now rewrite nth_repeat_lt.
  - exists (zip_with waveform_mod_var l (repeat 0%float (length l))).
    split; [|split].
    + unfold process_waveform_modulation. simpl default_amp_phs. cbv iota beta.
      apply waveform_modulation_enabled;
        [reflexivity | reflexivity | now rewrite repeat_length
        | now rewrite repeat_length].
    + apply zip_with_length. now rewrite repeat_length.
    + intros i Hi.
      rewrite (zip_with_nth _ 0%float 0%float);
        [| now rewrite repeat_length | exact Hi].
      now rewrite nth_repeat_lt.
Qed.

End WaveformModulation.

(** ** Assignment by index *)

Lemma setitem_Ok {A : Type} (a : list A) :
  forall i v a', setitem a i v = Ok a' ->
  i < length a /\ length a' = length a /\
  nth_error a' i = Some v /\
  forall k, k <> i -> nth_error a' k = nth_error a k.
Proof.
  induction a as [|x a IH]; intros i v a' H; simpl in H; [discriminate|].
  destruct i as [|i].
  - injection H as <-. simpl. repeat split; [lia|].
    intros [|k] Hk; [contradiction | reflexivity].
  - inv_ok H. injection H as <-.
    destruct (IH _ _ _ E) as (Hi & Hl & Hn & Ho). simpl.
    repeat split; [lia | lia | exact Hn |].
    intros [|k] Hk; [reflexivity | simpl; apply Ho; lia].
Qed.

Lemma setitem_nth {A : Type} (a a' : list A) (i : nat) (v d : A) :
  setitem a i v = Ok a' -> nth i a' d = v.
Proof.
  intros H. apply setitem_Ok in H as (_ & _ & Hn & _).
  now apply nth_error_nth.
Qed.

Lemma zeros_of_nat (n : nat) : np.zeros (Z.of_nat n) = Ok (repeat 0%float n).
Proof.
  unfold np.zeros.
  destruct (Z.ltb_spec (Z.of_nat n) 0) as [H|H]; [lia|].
  now rewrite Nat2Z.id.
Qed.

Lemma zeros_Ok (n : Z) (z : list float) :
  np.zeros n = Ok z -> (0 <= n)%Z /\ z = repeat 0%float (Z.to_nat n).
Proof.
  unfold np.zeros. destruct (Z.ltb_spec n 0) as [H|H]; [discriminate|].
  intros E. injection E as <-. split; [exact H | reflexivity].
Qed.

Lemma ones_Ok (n : Z) (z : list float) :
  np.ones n = Ok z -> (0 <= n)%Z /\ z = repeat 1%float (Z.to_nat n).
Proof.
  unfold np.ones. destruct (Z.ltb_spec n 0) as [H|H]; [discriminate|].
  intros E. injection E as <-. split; [exact H | reflexivity].
Qed.

Lemma ones_nonneg (n : Z) :
  (0 <= n)%Z -> np.ones n = Ok (repeat 1%float (Z.to_nat n)).
Proof.
  intros H. unfold np.ones. destruct (Z.ltb_spec n 0); [lia | reflexivity].
Qed.

Lemma zeros_nonneg (n : Z) :
  (0 <= n)%Z -> np.zeros n = Ok (repeat 0%float (Z.to_nat n)).
Proof.
  intros H. unfold np.zeros. destruct (Z.ltb_spec n 0); [lia | reflexivity].
Qed.

Lemma map_repeat {A B : Type} (g : A -> B) (x : A) (n : nat) :
  map g (repeat x n) = repeat (g x) n.
Proof. induction n as [|n IH]; simpl; [|rewrite IH]; reflexivity. Qed.

(** ** The loop over the channels *)

Section Channels.

Context {numpy_complex : Complex128}.

Variable wp : waveform_prop.

(** What one successful run of the loop body has computed and stored. *)
Lemma txchannel_body_Ok (i : nat) (c : channel) (st st' : txchannel_prop) :
  txchannel_body wp i c st = Ok st' ->
  exists location polarization_row wm pm az_peak el_peak,
    tx_size st' = tx_size st /\
    setitem (tx_delay st) i (get (ch_delay c) 0%float) = Ok (tx_delay st') /\
    setitem (tx_grid st) i (get (ch_grid c) 1%float) = Ok (tx_grid st') /\
    location_row c = Ok location /\
    setitem (tx_locations st) i location = Ok (tx_locations st') /\
    broadcast3 (map cast_float64 (polarization_of c)) = Ok polarization_row /\
    setitem (tx_polarization st) i polarization_row =
      Ok (tx_polarization st') /\
    process_waveform_modulation (ch_mod_t c) (ch_amp c) (ch_phs c) = Ok wm /\
    tx_waveform_mod st' = tx_waveform_mod st ++ [wm] /\
    (0 <= wf_pulses wp)%Z /\
    process_pulse_modulation wp (pulse_amp_of wp c) (pulse_phs_of wp c) =
      Ok pm /\
    setitem (tx_pulse_mod st) i pm = Ok (tx_pulse_mod st') /\
    length (az_angle_of c) = length (az_pattern_of c) /\
    np.max (az_pattern_of c) = Ok az_peak /\
    setitem (tx_antenna_gains st) i az_peak = Ok (tx_antenna_gains st') /\
    tx_az_patterns st' =
      tx_az_patterns st ++
      [map (fun x => (x - az_peak)%float) (az_pattern_of c)] /\
    tx_az_angles st' = tx_az_angles st ++ [az_angle_of c] /\
    length (el_angle_of c) = length (el_pattern_of c) /\
    np.max (el_pattern_of c) = Ok el_peak /\
    tx_el_patterns st' =
      tx_el_patterns st ++
      [map (fun x => (x - el_peak)%float) (el_pattern_of c)] /\
    tx_el_angles st' = tx_el_angles st ++ [el_angle_of c].
Proof.
  unfold txchannel_body. intros H.
  apply bind_Ok in H as (delay & Hdelay & H).
  apply bind_Ok in H as (grid & Hgrid & H).
  apply bind_Ok in H as (row & Hrow & H).
  apply bind_Ok in H as (locations & Hlocations & H).
  apply bind_Ok in H as (polrow & Hpolrow & H).
  apply bind_Ok in H as (polarization & Hpolarization & H).
  apply bind_Ok in H as (wm & Hwm & H).
  apply bind_Ok in H as (ones & Hones & H).
  apply bind_Ok in H as (zeros & Hzeros & H).
  apply bind_Ok in H as (pm & Hpm & H).
  apply bind_Ok in H as (pulse_mod & Hpulse_mod & H).
  apply bind_Ok in H as (u1 & Haz & H).
  apply bind_Ok in H as (az_peak & Haz_peak & H).
  apply bind_Ok in H as (gains & Hgains & H).
  apply bind_Ok in H as (u2 & Hel & H).
  apply bind_Ok in H as (el_peak & Hel_peak & H).
  apply ones_Ok in Hones as [Hp ->]. apply zeros_Ok in Hzeros as [_ ->].
  apply guard_Ok, negb_false_iff, Nat.eqb_eq in Haz.
  apply guard_Ok, negb_false_iff, Nat.eqb_eq in Hel.
  injection H as <-. simpl.
  rewrite (setitem_nth _ _ _ _ _ Hgains).
  exists row, polrow, wm, pm, az_peak, el_peak.
  repeat (split; [first [reflexivity | assumption | eauto] |]).
  reflexivity.
Qed.

(** A field that the body writes at index [tx_idx] of a preallocated array:
    after the loop over [rest] from index [k], the entries below [k] are
    untouched and entry [k + n] holds the value of channel [n]. *)
Lemma txchannel_loop_array {A : Type} (F : txchannel_prop -> list A)
  (V : channel -> A -> Prop) :
  (forall i c st st', txchannel_body wp i c st = Ok st' ->
     exists x, V c x /\ setitem (F st) i x = Ok (F st')) ->
  forall rest k st st', txchannel_loop wp k rest st = Ok st' ->
    length (F st') = length (F st) /\
    (forall n, n < k -> nth_error (F st') n = nth_error (F st) n) /\
    (forall n c, nth_error rest n = Some c ->
       exists x, V c x /\ nth_error (F st') (k + n) = Some x).
Proof.
  intros Hbody.
  induction rest as [|c0 rest IH]; intros k st st' H; simpl in H.
  - injection H as <-. repeat split; auto.
    intros [|n] c Hn; discriminate.
  - apply bind_Ok in H as (st1 & Hst1 & H).
    destruct (Hbody _ _ _ _ Hst1) as (x & Hx & Hset).
    apply setitem_Ok in Hset as (_ & Hlen & Hk & Hother).
    destruct (IH _ _ _ H) as (Hlen' & Hlow & Hrest).
    split; [congruence|]. split.
    + intros n Hn. rewrite Hlow by lia. apply Hother. lia.
    + intros [|n] c Hc; simpl in Hc.
      * injection Hc as <-. exists x. split; [exact Hx|].
        rewrite Nat.add_0_r, Hlow by lia. exact Hk.
      * destruct (Hrest _ _ Hc) as (y & Hy & Hn).
        exists y. split; [exact Hy|].
        now rewrite Nat.add_succ_r.
Qed.

(** A field that the body appends to: after the loop it has one more entry
    per channel, in the order of the channels. *)
Lemma txchannel_loop_append {A : Type} (F : txchannel_prop -> list A)
  (V : channel -> A -> Prop) :
  (forall i c st st', txchannel_body wp i c st = Ok st' ->
     exists x, V c x /\ F st' = F st ++ [x]) ->
  forall rest k st st', txchannel_loop wp k rest st = Ok st' ->
    exists xs, F st' = F st ++ xs /\ Forall2 V rest xs.
Proof.
  intros Hbody.
  induction rest as [|c0 rest IH]; intros k st st' H; simpl in H.
  - injection H as <-. exists []. split; [now rewrite app_nil_r | constructor].
  - apply bind_Ok in H as (st1 & Hst1 & H).
    destruct (Hbody _ _ _ _ Hst1) as (x & Hx & Happ).
    destruct (IH _ _ _ H) as (xs & Hxs & Hall).
    exists (x :: xs). split; [|now constructor].
    rewrite Hxs, Happ, <- app_assoc. reflexivity.
Qed.

Lemma txchannel_loop_size (rest : list channel) :
  forall k st st', txchannel_loop wp k rest st = Ok st' ->
  tx_size st' = tx_size st.
Proof.
  induction rest as [|c0 rest IH]; intros k st st' H; simpl in H.
  - now injection H as <-.
  - apply bind_Ok in H as (st1 & Hst1 & H).
    rewrite (IH _ _ _ H).
    now destruct (txchannel_body_Ok _ _ _ _ Hst1) as (? & ? & ? & ? & ? & ? & Hs & _).
Qed.

Lemma txch_prop_init_Ok (size : nat) (st0 : txchannel_prop) :
  txch_prop_init wp size = Ok st0 ->
  (0 <= wf_pulses wp)%Z /\
  st0 = {| tx_size := size;
           tx_delay := repeat 0%float size;
           tx_grid := repeat 0%float size;
           tx_locations := repeat [0; 0; 0]%float size;
           tx_polarization := repeat [0; 0; 0]%float size;
           tx_waveform_mod := [];
           tx_pulse_mod :=
             repeat (map of_real (repeat 1%float (Z.to_nat (wf_pulses wp))))
               size;
           tx_az_patterns := [];
           tx_az_angles := [];
           tx_el_patterns := [];
           tx_el_angles := [];
           tx_antenna_gains := repeat 0%float size |}.
Proof.
  unfold txch_prop_init. rewrite zeros_of_nat. simpl.
  intros H. apply bind_Ok in H as (ones & Hones & H).
  apply ones_Ok in Hones as [Hp ->].
  injection H as <-. split; [exact Hp | reflexivity].
Qed.

Lemma process_txchannel_prop_size (channels : list channel)
  (tx : txchannel_prop) :
  process_txchannel_prop wp channels = Ok tx ->
  tx_size tx = length channels.
Proof.
  unfold process_txchannel_prop. intros H.
  apply bind_Ok in H as (st0 & Hst0 & H).
  rewrite (txchannel_loop_size _ _ _ _ H).
  apply txch_prop_init_Ok in Hst0 as [_ ->]. reflexivity.
Qed.

(** The array fields of the result, channel by channel. *)
Lemma process_txchannel_prop_array {A : Type} (F : txchannel_prop -> list A)
  (V : channel -> A -> Prop) :
  (forall i c st st', txchannel_body wp i c st = Ok st' ->
     exists x, V c x /\ setitem (F st) i x = Ok (F st')) ->
  forall channels tx, process_txchannel_prop wp channels = Ok tx ->
  forall n c, nth_error channels n = Some c ->
  exists x, V c x /\ nth_error (F tx) n = Some x.
Proof.
  intros Hbody channels tx H n c Hc. unfold process_txchannel_prop in H.
  apply bind_Ok in H as (st0 & _ & H).
  destruct (txchannel_loop_array F V Hbody _ _ _ _ H) as (_ & _ & Hrest).
  exact (Hrest n c Hc).
Qed.


(** *** Pulse modulation *)

Lemma process_pulse_modulation_Ok (pulse_amp pulse_phs : list float) :
  Z.of_nat (length pulse_amp) = wf_pulses wp ->
  Z.of_nat (length pulse_phs) = wf_pulses wp ->
  process_pulse_modulation wp pulse_amp pulse_phs =
    Ok (zip_with pulse_mod_var pulse_amp pulse_phs).
Proof.
  intros Ha Hp. unfold process_pulse_modulation.
  now rewrite Ha, Hp, Z.eqb_refl.
Qed.

Lemma process_txchannel_prop_pulses (channels : list channel)
  (tx : txchannel_prop) :
  process_txchannel_prop wp channels = Ok tx -> (0 <= wf_pulses wp)%Z.
Proof.
  unfold process_txchannel_prop. intros H.
  apply bind_Ok in H as (st0 & Hst0 & _).
  now apply txch_prop_init_Ok in Hst0 as [Hp _].
Qed.

(** A channel that gives a location of three coordinates and nothing else
    is processed, and its row of [pulse_mod] is
    [1 * exp(1j * (0 / 180 * pi))] for each pulse. *)
Lemma process_channel_at (x y z : float) :
  (0 <= wf_pulses wp)%Z ->
  exists tx,
    process_txchannel_prop wp [channel_at [x; y; z]] = Ok tx /\
    tx_pulse_mod tx =
      [repeat (pulse_mod_var 1%float 0%float) (Z.to_nat (wf_pulses wp))].
Proof.
  intros Hp. unfold process_txchannel_prop, txch_prop_init, channel_at.
  rewrite (ones_nonneg _ Hp). simpl.
  unfold txchannel_body. simpl.
  rewrite (ones_nonneg _ Hp), (zeros_nonneg _ Hp). simpl.
  rewrite process_pulse_modulation_Ok; [| rewrite repeat_length; lia ..].
  simpl. eexists. split; [reflexivity|]. simpl.
  now rewrite zip_with_repeat.
Qed.

(** C8, as the code has it: [process_pulse_modulation] raises the
    [ValueError] that names [pulse_amp] when the length of [pulse_amp] is
    not [pulses], the one that names [pulse_phs] when only the length of
    [pulse_phs] is not [pulses], and otherwise returns the array of length
    [pulses] with [pulse_amp[i] * exp(1j * (pulse_phs[i] / 180 * pi))] at
    index [i], the phase turned into radians as [pulse_phs[i] / 180 * pi]
    in binary64; the loop over the channels calls it with the channel's
    [pulse_amp] and [pulse_phs], all ones and all zeros of length [pulses]
    when the channel does not give them, and stores the result as the
    channel's row of [pulse_mod]: a channel that gives neither, such as one
    with a location only, is processed and its row is
    [1 * exp(1j * (0 / 180 * pi))] for each of the [pulses] pulses. *)
Theorem pulse_modulation_checked_and_elementwise :
  (forall pulse_amp pulse_phs,
     (Z.of_nat (length pulse_amp) <> wf_pulses wp ->
      process_pulse_modulation wp pulse_amp pulse_phs =
        Raise (ValueError
                 "Lengths of `pulse_amp` and `pulses` should be the same")) /\
     (Z.of_nat (length pulse_amp) = wf_pulses wp ->
      Z.of_nat (length pulse_phs) <> wf_pulses wp ->
      process_pulse_modulation wp pulse_amp pulse_phs =
        Raise (ValueError
                 "Length of `pulse_phs` and `pulses` should be the same")) /\
     (Z.of_nat (length pulse_amp) = wf_pulses wp ->
      Z.of_nat (length pulse_phs) = wf_pulses wp ->
      exists pulse_mod,
        process_pulse_modulation wp pulse_amp pulse_phs = Ok pulse_mod /\
        Z.of_nat (length pulse_mod) = wf_pulses wp /\
        forall i, i < length pulse_mod ->
          nth i pulse_mod (of_real 0%float) =
            c_mul (of_real (nth i pulse_amp 0%float))
              (c_exp (c_mul j
                 (of_real (nth i pulse_phs 0%float / 180 * np.pi)%float))))) /\
  (forall channels tx n c,
     process_txchannel_prop wp channels = Ok tx ->
     nth_error channels n = Some c ->
     exists pulse_mod,
       process_pulse_modulation wp
         (get (ch_pulse_amp c) (repeat 1%float (Z.to_nat (wf_pulses wp))))
         (get (ch_pulse_phs c) (repeat 0%float (Z.to_nat (wf_pulses wp)))) =
         Ok pulse_mod /\
       nth_error (tx_pulse_mod tx) n = Some pulse_mod) /\
  (forall channels tx n c,
     process_txchannel_prop wp channels = Ok tx ->
     nth_error channels n = Some c ->
     ch_pulse_amp c = None ->
     ch_pulse_phs c = None ->
     nth_error (tx_pulse_mod tx) n =
       Some (repeat
               (c_mul (of_real 1%float)
                  (c_exp (c_mul j (of_real (0 / 180 * np.pi)%float))))
               (Z.to_nat (wf_pulses wp)))) /\
  ((0 <= wf_pulses wp)%Z ->
   forall x y z,
     exists tx,
       process_txchannel_prop wp [channel_at [x; y; z]] = Ok tx /\
       tx_pulse_mod tx =
         [repeat
            (c_mul (of_real 1%float)
               (c_exp (c_mul j (of_real (0 / 180 * np.pi)%float))))
            (Z.to_nat (wf_pulses wp))]).
Proof.
  assert (Hrow : forall channels tx n c,
            process_txchannel_prop wp channels = Ok tx ->
            nth_error channels n = Some c ->
            exists pulse_mod,
              process_pulse_modulation wp
                (pulse_amp_of wp c) (pulse_phs_of wp c) = Ok pulse_mod /\
              nth_error (tx_pulse_mod tx) n = Some pulse_mod).
  { intros channels tx n c H Hc.
    apply (process_txchannel_prop_array tx_pulse_mod
             (fun c pm => process_pulse_modulation wp
                            (pulse_amp_of wp c) (pulse_phs_of wp c) = Ok pm))
      with (channels := channels); try assumption.
    intros i c0 st st' Hbody.
    destruct (txchannel_body_Ok _ _ _ _ Hbody)
      as (? & ? & ? & pm & ? & ? & H').
    exists pm. tauto. }
  split; [|split; [exact Hrow | split]].
  2:{ intros channels tx n c H Hc Ha Hp. unfold pulse_mod_var in *.
      destruct (Hrow _ _ _ _ H Hc) as (pm & Hpm & Hn).
      pose proof (process_txchannel_prop_pulses _ _ H) as Hpulses.
      unfold pulse_amp_of, pulse_phs_of in Hpm. rewrite Ha, Hp in Hpm.
      simpl in Hpm.
      rewrite process_pulse_modulation_Ok in Hpm;
        [| rewrite repeat_length; lia ..].
      injection Hpm as <-. now rewrite Hn, zip_with_repeat. }
  2:{ intros Hp x y z. exact (process_channel_at x y z Hp). }
  - intros pulse_amp pulse_phs. split; [|split].
    + intros Ha. unfold process_pulse_modulation.
      apply Z.eqb_neq in Ha. now rewrite Ha.
    + intros Ha Hp. unfold process_pulse_modulation.
      apply Z.eqb_neq in Hp. now rewrite Ha, Z.eqb_refl, Hp.
    + intros Ha Hp. exists (zip_with pulse_mod_var pulse_amp pulse_phs).
      assert (Hlen : length pulse_amp = length pulse_phs) by lia.
      split; [now apply process_pulse_modulation_Ok|].
      rewrite zip_with_length by exact Hlen. split; [exact Ha|].
      intros i Hi.
      now rewrite (zip_with_nth _ 0%float 0%float) by assumption.
Qed.

Lemma process_txchannel_prop_array_length {A : Type}
  (F : txchannel_prop -> list A) (V : channel -> A -> Prop) :
  (forall i c st st', txchannel_body wp i c st = Ok st' ->
     exists x, V c x /\ setitem (F st) i x = Ok (F st')) ->
  (forall size st0, txch_prop_init wp size = Ok st0 -> length (F st0) = size) ->
  forall channels tx, process_txchannel_prop wp channels = Ok tx ->
  length (F tx) = length channels.
Proof.
  intros Hbody Hinit channels tx H. unfold process_txchannel_prop in H.
  apply bind_Ok in H as (st0 & Hst0 & H).
  destruct (txchannel_loop_array F V Hbody _ _ _ _ H) as (-> & _ & _).
  exact (Hinit _ _ Hst0).
Qed.

(** *** Polarization *)

(** The row of [polarization] that the loop stores for a channel is the
    real part of the channel's polarization vector. *)
Lemma polarization_stored_real_part (channels : list channel)
  (tx : txchannel_prop) (n : nat) (c : channel) :
  process_txchannel_prop wp channels = Ok tx ->
  nth_error channels n = Some c ->
  exists row,
    broadcast3 (map real (polarization_of c)) = Ok row /\
    nth_error (tx_polarization tx) n = Some row.
Proof.
  intros H Hc.
  apply (process_txchannel_prop_array tx_polarization
           (fun c row => broadcast3 (map real (polarization_of c)) = Ok row))
    with (channels := channels); try assumption.
  intros i c0 st st' Hbody.
  destruct (txchannel_body_Ok _ _ _ _ Hbody) as (? & row & ? & ? & ? & ? & H').
  exists row. tauto.
Qed.

(** *** The default channel *)

Lemma process_default_channels (tx : txchannel_prop) :
  process_txchannel_prop wp default_channels = Ok tx ->
  tx_size tx = 1 /\
  tx_locations tx = [[0; 0; 0]%float] /\
  tx_polarization tx = [[0; 0; 1]%float].
Proof.
  intros H. split; [exact (process_txchannel_prop_size _ _ H)|].
  assert (Hc : nth_error default_channels 0 = Some (channel_at [0; 0; 0]%float))
    by reflexivity.
  split.
  - destruct (process_txchannel_prop_array tx_locations
                (fun c row => location_row c = Ok row))
      with (channels := default_channels) (tx := tx) (n := 0)
           (c := channel_at [0; 0; 0]%float)
      as (row & Hrow & Hn); try assumption.
    { intros i c0 st st' Hbody.
      destruct (txchannel_body_Ok _ _ _ _ Hbody)
        as (row & ? & ? & ? & ? & ? & _ & _ & _ & Hl & Hs & _).
      exists row. split; [exact Hl | exact Hs]. }
    injection Hrow as <-.
    assert (Hlen : length (tx_locations tx) = 1).
    { apply (process_txchannel_prop_array_length tx_locations
               (fun c row => location_row c = Ok row))
        with (channels := default_channels); try assumption.
      - intros i c0 st st' Hbody.
        destruct (txchannel_body_Ok _ _ _ _ Hbody)
          as (row & ? & ? & ? & ? & ? & _ & _ & _ & Hl & Hs & _).
        exists row. split; [exact Hl | exact Hs].
      - intros size st0 Hst0. apply txch_prop_init_Ok in Hst0 as [_ ->].
        apply repeat_length. }
    destruct (tx_locations tx) as [|r [|r' l]]; try discriminate.
    now injection Hn as ->.
  - destruct (polarization_stored_real_part _ _ 0 _ H Hc) as (row & Hrow & Hn).
    injection Hrow as <-.
    assert (Hlen : length (tx_polarization tx) = 1).
    { apply (process_txchannel_prop_array_length tx_polarization
               (fun c row => broadcast3 (map cast_float64 (polarization_of c))
                             = Ok row))
        with (channels := default_channels); try assumption.
      - intros i c0 st st' Hbody.
        destruct (txchannel_body_Ok _ _ _ _ Hbody)
          as (? & row & ? & ? & ? & ? & H').
        exists row. tauto.
      - intros size st0 Hst0. apply txch_prop_init_Ok in Hst0 as [_ ->].
        apply repeat_length. }
    destruct (tx_polarization tx) as [|r [|r' l]]; try discriminate.
    now injection Hn as ->.
Qed.

(** The default channel list is processed without error, and so is the
    empty one. *)
Lemma process_default_channels_Ok :
  (0 <= wf_pulses wp)%Z ->
  exists tx, process_txchannel_prop wp default_channels = Ok tx.
Proof.
  intros Hp. unfold process_txchannel_prop, txch_prop_init, default_channels.
  rewrite (ones_nonneg _ Hp). simpl.
  unfold txchannel_body. simpl.
  rewrite (ones_nonneg _ Hp), (zeros_nonneg _ Hp). simpl.
  rewrite process_pulse_modulation_Ok; [| rewrite repeat_length; lia ..].
  simpl. eexists. reflexivity.
Qed.

Lemma process_no_channels_Ok :
  (0 <= wf_pulses wp)%Z ->
  exists tx, process_txchannel_prop wp [] = Ok tx /\ tx_size tx = 0%nat.
Proof.
  intros Hp. unfold process_txchannel_prop, txch_prop_init.
  rewrite (ones_nonneg _ Hp). simpl. eexists. split; reflexivity.
Qed.

End Channels.

(** ** The constructor *)

Section Construction.

Context {numpy_complex : Complex128}.

(** A construction succeeds exactly when its four stages do. *)
Lemma Transmitter_init_Ok (a : init_args) (tx : Transmitter) :
  Transmitter_init a = Ok tx <->
  validate_rf_prop (init_rf_prop a) = Ok tt /\
  init_waveform_prop a = Ok (waveform tx) /\
  validate_waveform_prop (waveform tx) = Ok tt /\
  process_txchannel_prop (waveform tx) (channels_of a) = Ok (txchannel tx) /\
  rf tx = init_rf_prop a.
Proof.
  unfold Transmitter_init, channels_of. split.
  - intros H.
    apply bind_Ok in H as ([] & Hrf & H).
    apply bind_Ok in H as (wp & Hwp & H).
    apply bind_Ok in H as ([] & Hval & H).
    apply bind_Ok in H as (txch & Htxch & H).
    injection H as <-. simpl. auto.
  - intros (-> & -> & Hval & Htx & Hrf). simpl. rewrite Hval. simpl.
    rewrite Htx. simpl. destruct tx as [r w x]. simpl in *. now subst.
Qed.

(** C10, as the code has it: the number of channels of a constructed
    transmitter is the number of channel descriptors it was given; without
    [channels] that is the one default channel, at the origin; and the
    arguments of a successful construction construct as well with
    [channels = []], a transmitter of no channel. *)
Theorem channel_count_is_length_of_channels (a : init_args) (tx : Transmitter) :
  Transmitter_init a = Ok tx ->
  tx_size (txchannel tx) = length (channels_of a) /\
  (forall channels, arg_channels a = Some channels ->
     tx_size (txchannel tx) = length channels) /\
  (arg_channels a = None ->
     tx_size (txchannel tx) = 1 /\
     tx_locations (txchannel tx) = [[0; 0; 0]%float]) /\
  (exists tx0,
     Transmitter_init (with_channels a []) = Ok tx0 /\
     waveform tx0 = waveform tx /\
     tx_size (txchannel tx0) = 0).
Proof.
  intros H. apply Transmitter_init_Ok in H as (Hrf & Hwp & Hval & H & _).
  split; [exact (process_txchannel_prop_size _ _ _ H)|]. split; [|split].
  - intros channels Hc. unfold channels_of in H. rewrite Hc in H.
    exact (process_txchannel_prop_size _ _ _ H).
  - intros Hc. unfold channels_of in H. rewrite Hc in H.
    destruct (process_default_channels _ _ H) as (Hs & Hl & _). auto.
  - destruct (process_no_channels_Ok (waveform tx)
                (process_txchannel_prop_pulses _ _ _ H)) as (tx0 & Htx0 & Hs).
    exists {| rf := init_rf_prop a; waveform := waveform tx; txchannel := tx0 |}.
    split; [|split; [reflexivity | exact Hs]].
    apply Transmitter_init_Ok. simpl. auto.
Qed.

End Construction.

(** ** The waveform *)

#[local] Open Scope float_scope.

Lemma cumsum_from_length (a : list float) :
  forall acc, length (np.cumsum_from acc a) = length a.
Proof. induction a as [|x a IH]; intros acc; simpl; [|rewrite IH]; reflexivity. Qed.

Lemma cumsum_length (a : list float) : length (np.cumsum a) = length a.
Proof. destruct a; simpl; [|rewrite cumsum_from_length]; reflexivity. Qed.

Lemma cumsum_from_nth (a : list float) :
  forall acc i, (i < length a)%nat ->
  nth i (np.cumsum_from acc a) 0 = fold_left PrimFloat.add (firstn (S i) a) acc.
Proof.
  induction a as [|x a IH]; intros acc i Hi; simpl in Hi; [lia|].
  destruct i as [|i]; [reflexivity|].
  simpl np.cumsum_from. simpl nth. rewrite IH by lia. reflexivity.
Qed.

(** Entry [i] of [np.cumsum(a)] is the running sum up to [a[i]]. *)
Lemma cumsum_nth (a : list float) (i : nat) :
  (i < length a)%nat -> nth i (np.cumsum a) 0 = running_sum a i.
Proof.
  destruct a as [|x a]; simpl; [lia|]. intros Hi.
  destruct i as [|i]; [reflexivity|].
  unfold running_sum. simpl. apply cumsum_from_nth. lia.
Qed.

(** What [__init__] has put in [waveform_prop] when it calls
    [validate_waveform_prop]. *)
Lemma init_waveform_prop_Ok (a : init_args) (wp : waveform_prop) :
  init_waveform_prop a = Ok wp ->
  wf_pulses wp = arg_pulses a /\
  (exists prp0 rest, wf_prp wp = prp0 :: rest) /\
  wf_pulse_start_time wp =
    map (fun s => s - hd 0 (wf_prp wp)) (np.cumsum (wf_prp wp)) /\
  (arg_prp a = None ->
     (0 <= arg_pulses a)%Z /\
     wf_prp wp = repeat (wf_pulse_length wp + 0) (Z.to_nat (arg_pulses a))) /\
  (forall x, arg_prp a = Some (PyNum x) ->
     (0 <= arg_pulses a)%Z /\
     wf_prp wp = repeat (x + 0) (Z.to_nat (arg_pulses a))) /\
  (forall l, arg_prp a = Some (PySeq l) -> wf_prp wp = l).
Proof.
  unfold init_waveform_prop. intros H.
  apply bind_Ok in H as (t & Ht & H).
  apply bind_Ok in H as (max_f & Hmax & H).
  apply bind_Ok in H as (min_f & Hmin & H).
  apply bind_Ok in H as (pulse_length & Hpl & H).
  apply bind_Ok in H as (f_offset & Hoff & H).
  apply bind_Ok in H as (prp & Hprp & H).
  apply bind_Ok in H as (prp0 & Hprp0 & H).
  injection H as <-. simpl.
  destruct prp as [|p rest]; [discriminate|]. injection Hprp0 as <-.
  split; [reflexivity|]. split; [eauto|]. split; [reflexivity|].
  split; [|split].
  - intros E. rewrite E in Hprp.
    apply bind_Ok in Hprp as (z & Hz & Hprp). apply zeros_Ok in Hz as [Hp ->].
    injection Hprp as <-. split; [exact Hp|].
    generalize (Z.to_nat (arg_pulses a)).
    induction n as [|n IH]; simpl; [|rewrite IH]; reflexivity.
  - intros x E. rewrite E in Hprp.
    apply bind_Ok in Hprp as (z & Hz & Hprp). apply zeros_Ok in Hz as [Hp ->].
    injection Hprp as <-. split; [exact Hp|].
    generalize (Z.to_nat (arg_pulses a)).
    induction n as [|n IH]; simpl; [|rewrite IH]; reflexivity.
  - intros l E. rewrite E in Hprp. now injection Hprp as <-.
Qed.

Lemma pulse_start_time_nth (wp : waveform_prop) (i : nat) :
  wf_pulse_start_time wp =
    map (fun s => s - hd 0 (wf_prp wp)) (np.cumsum (wf_prp wp)) ->
  (i < length (wf_prp wp))%nat ->
  nth i (wf_pulse_start_time wp) 0 =
    running_sum (wf_prp wp) i - hd 0 (wf_prp wp).
Proof.
  intros -> Hi.
  rewrite <- cumsum_nth by exact Hi.
  rewrite <- cumsum_length in Hi.
  rewrite (nth_indep _ 0 ((fun s => s - hd 0 (wf_prp wp)) 0))
    by now rewrite length_map.
  exact (map_nth (fun s => s - hd 0 (wf_prp wp)) (np.cumsum (wf_prp wp)) 0 i).
Qed.

#[local] Close Scope float_scope.

#[local] Open Scope float_scope.

Lemma sub_diag_finite (x : float) : sf_finite (Prim2SF x) -> x - x = 0.
Proof.
  intros H. apply Prim2SF_inj.
  rewrite FloatAxioms.sub_spec, Prim2SF_zero. now apply SFsub_diag.
Qed.

Lemma add_zero_r_finite (x : float) :
  is_finite x = true -> sf_finite (Prim2SF (x + 0)).
Proof.
  intros H. apply is_finite_spec in H. rewrite add_zero_r.
  destruct (Prim2SF x); simpl in *; auto.
Qed.

Lemma ltb_irrefl (x : float) : (x <? x) = false.
Proof.
  rewrite FloatAxioms.ltb_spec. unfold SFltb.
  destruct (Prim2SF x) as [s|s| |s m e] eqn:E; [| |reflexivity|];
    now rewrite SFcompare_refl.
Qed.

Lemma fold_np_minimum_constant (x : float) (r : list float) :
  (forall p, In p r -> p = x) -> fold_left np.minimum r x = x.
Proof.
  induction r as [|y r IH]; intros H; simpl; [reflexivity|].
  rewrite (H y (or_introl eq_refl)).
  rewrite np_minimum_diag.
  apply IH. intros p Hp. apply H. now right.
Qed.

Lemma fold_add_repeat (p : float) (i : nat) :
  forall acc,
  fold_left PrimFloat.add (repeat p i) acc = Nat.iter i (fun s => s + p) acc.
Proof.
  induction i as [|i IH]; intros acc; [reflexivity|].
  simpl repeat. simpl fold_left. rewrite IH, Nat.iter_succ_r. reflexivity.
Qed.

Lemma firstn_repeat_le {A : Type} (x : A) (n : nat) :
  forall i, (i <= n)%nat -> firstn i (repeat x n) = repeat x i.
Proof.
  induction n as [|n IH]; intros [|i] Hi; simpl; try reflexivity; [lia|].
  rewrite IH by lia. reflexivity.
Qed.

(** The running sum of an array of [n] copies of [p]. *)
Lemma running_sum_repeat (p : float) (n i : nat) :
  (i < n)%nat ->
  running_sum (repeat p n) i = Nat.iter i (fun s => s + p) p.
Proof.
  intros Hi. unfold running_sum.
  destruct n as [|n]; [lia|]. simpl.
  rewrite firstn_repeat_le by lia.
  apply fold_add_repeat.
Qed.

(** [np.min(a) < x] says that no entry of [a] is NaN and that one entry is
    below [x]. *)
Lemma np_min_below (p0 : float) (rest : list float) (x : float) :
  (fold_left np.minimum rest p0 <? x) = true <->
  (forall p, In p (p0 :: rest) -> is_nan p = false) /\
  exists p, In p (p0 :: rest) /\ (p <? x) = true.
Proof.
  split.
  - intros Hlt.
    assert (Hm : is_nan (fold_left np.minimum rest p0) = false).
    { destruct (is_nan (fold_left np.minimum rest p0)) eqn:E; [|reflexivity].
      rewrite (ltb_nan_l _ x E) in Hlt. discriminate. }
    split.
    + intros p Hp. destruct (is_nan p) eqn:E; [|reflexivity].
      rewrite (fold_np_minimum_nan rest p0) in Hm; [discriminate | eauto].
    + destruct (fold_np_minimum_spec rest p0 Hm) as [Hin _]. eauto.
  - intros (Hnan & p & Hp & Hlt).
    assert (Hm : is_nan (fold_left np.minimum rest p0) = false).
    { apply fold_np_minimum_not_nan; [apply Hnan; now left|].
      intros s Hs. apply Hnan. now right. }
    destruct (fold_np_minimum_spec rest p0 Hm) as [_ Hall].
    exact (leb_ltb_trans _ _ _ (Hall p Hp) Hlt).
Qed.

(** On a non-empty [prp], [validate_waveform_prop] either returns, and no
    invariant is violated, or raises a [ValueError], and one is. *)
Lemma validate_waveform_prop_cases (wp : waveform_prop) :
  wf_prp wp <> [] ->
  (validate_waveform_prop wp = Ok tt /\ ~ waveform_invariant_violated wp) \/
  (exists msg,
     validate_waveform_prop wp = Raise (ValueError msg) /\
     waveform_invariant_violated wp).
Proof.
  intros Hne. unfold validate_waveform_prop, waveform_invariant_violated.
  destruct (Nat.eqb_spec (length (wf_f wp)) (length (wf_t wp))) as [E1|E1];
    simpl; [|right; eauto].
  destruct (Z.eqb_spec (Z.of_nat (length (wf_f_offset wp))) (wf_pulses wp))
    as [E2|E2]; simpl; [|right; eauto].
  destruct (Z.eqb_spec (Z.of_nat (length (wf_prp wp))) (wf_pulses wp))
    as [E3|E3]; simpl; [|right; eauto 6].
  destruct (wf_prp wp) as [|p0 rest]; [contradiction|].
  simpl np.min. cbv beta iota. rewrite bind_Ok_l.
  destruct (fold_left np.minimum rest p0 <? wf_pulse_length wp)%float eqn:E4.
  - right. eexists. split; [reflexivity|]. right. right. right.
    now apply np_min_below.
  - left. split; [reflexivity|].
    intros [V|[V|[V|V]]]; try contradiction.
    apply np_min_below in V. congruence.
Qed.

Section Waveform.

Context {numpy_complex : Complex128}.

#[local] Open Scope float_scope.

(** C1, as the code has it: [pulse_start_time[i]] is
    [cumsum(prp)[i] - prp[0]], the running sum [prp[0] + ... + prp[i]]
    less [prp[0]]: the periods that count towards pulse [i] are
    [prp[1], ..., prp[i]], and the first pulse starts at time 0 for every
    finite [prp[0]], whether [prp] is uniform or not. *)
Theorem pulse_start_time_is_cumsum_less_first (a : init_args)
  (tx : Transmitter) :
  Transmitter_init a = Ok tx ->
  length (wf_pulse_start_time (waveform tx)) = length (wf_prp (waveform tx)) /\
  (forall i, (i < length (wf_prp (waveform tx)))%nat ->
     nth i (wf_pulse_start_time (waveform tx)) 0 =
       running_sum (wf_prp (waveform tx)) i - hd 0 (wf_prp (waveform tx))) /\
  (is_finite (hd 0 (wf_prp (waveform tx))) = true ->
     nth 0 (wf_pulse_start_time (waveform tx)) 0 = 0).
Proof.
  intros H. apply Transmitter_init_Ok in H as (_ & H & _).
  apply init_waveform_prop_Ok in H as (_ & (p0 & rest & Hprp) & Hpst & _).
  split; [|split].
  - now rewrite Hpst, length_map, cumsum_length.
  - intros i Hi. now apply pulse_start_time_nth.
  - intros Hfin. rewrite pulse_start_time_nth; [|exact Hpst|rewrite Hprp; simpl; lia].
    rewrite Hprp in *. unfold running_sum. simpl in *.
    now apply sub_diag.
Qed.

(** C2, as the code has it: on the [waveform_prop] that [__init__] has
    filled in, [validate_waveform_prop] raises exactly when one of the four
    waveform invariants is violated ([len(f) != len(t)],
    [len(f_offset) != pulses], [len(prp) != pulses], or an entry of a [prp]
    without NaN is below [pulse_length]); what it raises is a
    [ValueError], which a construction with valid RF properties raises in
    turn; when none is violated that construction goes on to the channels,
    which can raise for reasons of their own.  A [prp] of [0.5e-6] with a
    pulse length of [1e-6] is rejected, and a [prp] of the right length
    whose entries all equal [pulse_length] is accepted. *)
Theorem waveform_validation_raises_iff_violated (a : init_args)
  (wp : waveform_prop) :
  init_waveform_prop a = Ok wp ->
  (raises (validate_waveform_prop wp) <-> waveform_invariant_violated wp) /\
  (waveform_invariant_violated wp ->
     exists msg,
       validate_waveform_prop wp = Raise (ValueError msg) /\
       (validate_rf_prop (init_rf_prop a) = Ok tt ->
        Transmitter_init a = Raise (ValueError msg))) /\
  (~ waveform_invariant_violated wp ->
     validate_waveform_prop wp = Ok tt /\
     (validate_rf_prop (init_rf_prop a) = Ok tt ->
      Transmitter_init a =
        (txchannel_prop <- process_txchannel_prop wp (channels_of a) ;;
         Ok {| rf := init_rf_prop a;
               waveform := wp;
               txchannel := txchannel_prop |}))) /\
  ((forall p, In p (wf_prp wp) -> p = wf_pulse_length wp) ->
   length (wf_f wp) = length (wf_t wp) ->
   Z.of_nat (length (wf_f_offset wp)) = wf_pulses wp ->
   Z.of_nat (length (wf_prp wp)) = wf_pulses wp ->
     ~ waveform_invariant_violated wp /\
     validate_waveform_prop wp = Ok tt) /\
  Transmitter_init
    (with_pulses (args_of (PySeq [0; 1e9]) (PySeq [0; 1e-6])) 1
       (Some (PyNum 0.5e-6))) =
    Raise (ValueError "`prp` should be larger than `pulse_length`").
Proof.
  intros Hwp.
  pose proof (init_waveform_prop_Ok _ _ Hwp) as (_ & (p0 & rest & Hprp) & _).
  assert (Hne : wf_prp wp <> []) by (rewrite Hprp; discriminate).
  split; [|split; [|split; [|split]]].
  - split.
    + intros [e He].
      destruct (validate_waveform_prop_cases wp Hne)
        as [[Hok _]|(msg & _ & V)]; [congruence | exact V].
    + intros V.
      destruct (validate_waveform_prop_cases wp Hne)
        as [[_ Hnv]|(msg & Hm & _)]; [contradiction|].
      exists (ValueError msg). exact Hm.
  - intros V.
    destruct (validate_waveform_prop_cases wp Hne)
      as [[_ Hnv]|(msg & Hm & _)]; [contradiction|].
    exists msg. split; [exact Hm|].
    intros Hrf. unfold Transmitter_init. rewrite Hrf, Hwp. simpl.
    now rewrite Hm.
  - intros Hnv.
    destruct (validate_waveform_prop_cases wp Hne)
      as [[Hok _]|(msg & _ & V)]; [|contradiction].
    split; [exact Hok|].
    intros Hrf. unfold Transmitter_init, channels_of.
    rewrite Hrf, Hwp. simpl. now rewrite Hok.
  - intros Hall Hft Hoff Hlen.
    assert (Hnv : ~ waveform_invariant_violated wp).
    { intros [V|[V|[V|(_ & p & Hp & Hlt)]]]; try contradiction.
      rewrite (Hall p Hp), ltb_irrefl in Hlt. discriminate. }
    split; [exact Hnv|].
    destruct (validate_waveform_prop_cases wp Hne)
      as [[Hok _]|(msg & _ & V)]; [exact Hok | contradiction].
  - reflexivity.
Qed.

End Waveform.

Section DefaultPrp.

Context {numpy_complex : Complex128}.

#[local] Open Scope float_scope.

(** A construction from numbers [f] and [t] and a pulse count [N >= 1],
    with every other argument at its default, succeeds. *)
Lemma scalar_construction_succeeds (f t : float) (N : Z) :
  (1 <= N)%Z ->
  exists tx,
    Transmitter_init (with_pulses (args_of (PyNum f) (PyNum t)) N None) = Ok tx.
Proof.
  intros HN.
  assert (Hn : exists n, Z.to_nat N = S n)
    by (exists (Z.to_nat (N - 1)); lia).
  destruct Hn as [n Hn].
  unfold Transmitter_init. simpl validate_rf_prop. cbv beta iota.
  simpl bind at 1.
  unfold init_waveform_prop. simpl arg_f. simpl arg_t. simpl arg_pulses.
  simpl arg_f_offset. simpl arg_prp.
  rewrite (zeros_nonneg N) by lia. rewrite Hn. simpl.
  rewrite !map_repeat.
  match goal with |- context [validate_waveform_prop ?w] => set (wp := w) end.
  assert (Hne : wf_prp wp <> []) by discriminate.
  destruct (validate_waveform_prop_cases wp Hne) as [[Hok _]|(msg & _ & V)].
  - rewrite Hok. simpl.
    destruct (process_default_channels_Ok wp) as [tx Htx]; [simpl; lia|].
    rewrite Htx. simpl. eauto.
  - exfalso. destruct V as [V|[V|[V|(_ & p & Hp & Hlt)]]]; try simpl in V.
    + congruence.
    + rewrite repeat_length in V. lia.
    + rewrite repeat_length in V. lia.
    + assert (Ep : p = t + 0).
      { simpl in Hp. destruct Hp as [<-|Hp]; [reflexivity|].
        now apply repeat_spec in Hp. }
      subst p. simpl in Hlt.
      rewrite add_zero_r_ltb, ltb_irrefl in Hlt. discriminate.
Qed.

(** C3, as the code has it: constructed with [prp = None] and [pulses = N],
    [prp] has length [N] and every entry is [pulse_length + 0.0], which
    equals [pulse_length]; [pulse_start_time[i]] is [pulse_length] added
    to itself [i] times, each sum rounded to binary64, less
    [pulse_length]: zero at index 0, and [i * pulse_length] up to the
    rounding of the sums. *)
Theorem default_prp_is_pulse_length (a : init_args) (tx : Transmitter) :
  arg_prp a = None ->
  Transmitter_init a = Ok tx ->
  Z.of_nat (length (wf_prp (waveform tx))) = arg_pulses a /\
  (forall p, In p (wf_prp (waveform tx)) ->
     p = wf_pulse_length (waveform tx) + 0 /\
     (is_nan (wf_pulse_length (waveform tx)) = false ->
      (p =? wf_pulse_length (waveform tx)) = true)) /\
  (forall i, (i < length (wf_prp (waveform tx)))%nat ->
     nth i (wf_pulse_start_time (waveform tx)) 0 =
       Nat.iter i (fun s => s + (wf_pulse_length (waveform tx) + 0))
         (wf_pulse_length (waveform tx) + 0)
       - (wf_pulse_length (waveform tx) + 0)) /\
  (is_finite (wf_pulse_length (waveform tx)) = true ->
     nth 0 (wf_pulse_start_time (waveform tx)) 0 = 0).
Proof.
  intros Hnone H. apply Transmitter_init_Ok in H as (_ & H & _).
  apply init_waveform_prop_Ok in H
    as (_ & (p0 & rest & Hne) & Hpst & Hprp & _).
  destruct (Hprp Hnone) as [Hp Hrep]. clear Hprp.
  set (pl := wf_pulse_length (waveform tx)) in *.
  assert (Hlen : length (wf_prp (waveform tx)) = Z.to_nat (arg_pulses a))
    by (rewrite Hrep; apply repeat_length).
  assert (Hhd : hd 0 (wf_prp (waveform tx)) = pl + 0).
  { rewrite Hne in Hrep. rewrite Hne. simpl.
    destruct (Z.to_nat (arg_pulses a)); [discriminate|].
    simpl in Hrep. now injection Hrep. }
  split; [rewrite Hlen; lia|]. split; [|split].
  - intros p Hin. rewrite Hrep in Hin. apply repeat_spec in Hin. subst p.
    split; [reflexivity|]. apply add_zero_r_eqb.
  - intros i Hi. rewrite pulse_start_time_nth by assumption.
    rewrite Hhd. f_equal. rewrite Hrep. apply running_sum_repeat. lia.
  - intros Hfin. rewrite pulse_start_time_nth;
      [|exact Hpst|rewrite Hne; simpl; lia].
    rewrite Hhd. rewrite Hne. unfold running_sum. simpl.
    rewrite Hne in Hhd. simpl in Hhd. rewrite Hhd.
    apply sub_diag_finite, add_zero_r_finite, Hfin.
Qed.

End DefaultPrp.

Section Patterns.

Context {numpy_complex : Complex128}.

Variable wp : waveform_prop.

#[local] Open Scope float_scope.




End Patterns.

(** ** Examples *)

#[local] Open Scope float_scope.

(** C1, as the claim has it, fails on
    [Transmitter(f=1, t=1, pulses=3, prp=[1, 2, 3])]: the start times are
    [[0, 2, 5]]; pulse 1 starts at 2 and not at [prp[0] = 1], the sum of the
    periods before it, and pulse 0 starts at 0 though [prp] is not
    uniform. *)
Lemma pulse_start_time_not_sum_before :
  exists tx,
    Transmitter_init (numpy_complex := textbook128) args_nonuniform_prp
      = Ok tx /\
    wf_prp (waveform tx) = [1; 2; 3] /\
    wf_pulse_start_time (waveform tx) = [0; 2; 5] /\
    sum_before (wf_prp (waveform tx)) 1 = 1 /\
    (nth 1 (wf_pulse_start_time (waveform tx)) 0
       =? sum_before (wf_prp (waveform tx)) 1) = false /\
    (nth 0 (wf_pulse_start_time (waveform tx)) 0 =? 0) = true /\
    (nth 0 (wf_prp (waveform tx)) 0 =? nth 1 (wf_prp (waveform tx)) 0) = false.
Proof. eexists. repeat split; reflexivity. Qed.

Lemma pulse_start_time_is_cumsum_less_first_witness :
  exists tx,
    Transmitter_init (numpy_complex := textbook128) args_nonuniform_prp
      = Ok tx /\
    nth 2 (wf_pulse_start_time (waveform tx)) 0 =
      running_sum (wf_prp (waveform tx)) 2 - hd 0 (wf_prp (waveform tx)).
Proof.
  eexists. split; [reflexivity|].
  apply (pulse_start_time_is_cumsum_less_first (numpy_complex := textbook128)
           args_nonuniform_prp _ eq_refl).
  simpl. lia.
Defined.

(** C2, as the claim has it, fails on
    [Transmitter(f=1, t=1, pn_f=[1, 2, 3])] and on
    [Transmitter(f=1, t=1, channels=[{"location": (0, 0)}])]: no waveform
    invariant is violated, and the construction raises. *)
Lemma construction_raises_without_violated_invariant :
  (exists wp,
     init_waveform_prop args_pn_f_only = Ok wp /\
     ~ waveform_invariant_violated wp /\
     Transmitter_init (numpy_complex := textbook128) args_pn_f_only =
       Raise (ValueError
                "Lengths of `pn_f` and `pn_power` should be the same")) /\
  (exists wp,
     init_waveform_prop args_location_of_two = Ok wp /\
     validate_waveform_prop wp = Ok tt /\
     ~ waveform_invariant_violated wp /\
     Transmitter_init (numpy_complex := textbook128) args_location_of_two =
       Raise (ValueError
                "could not broadcast input array from shape (2,) into shape (3,)")).
Proof.
  assert (Hnv : ~ waveform_invariant_violated waveform_one_pulse).
  { intros [V|[V|[V|(_ & p & Hp & Hlt)]]]; try (now apply V).
    destruct Hp as [<-|[]]. discriminate Hlt. }
  split; exists waveform_one_pulse.
  - split; [reflexivity | split; [exact Hnv | reflexivity]].
  - split; [reflexivity|].
    split; [reflexivity | split; [exact Hnv | reflexivity]].
Qed.

Lemma waveform_validation_raises_iff_violated_witness :
  exists wp,
    init_waveform_prop args_two_pulses = Ok wp /\
    (raises (validate_waveform_prop wp) <-> waveform_invariant_violated wp).
Proof.
  eexists. split; [reflexivity|].
  apply (waveform_validation_raises_iff_violated (numpy_complex := textbook128)
           args_two_pulses _ eq_refl).
Defined.

(** C3, as the claim has it, fails on [Transmitter(f=1, t=0.1, pulses=3)]:
    [pulse_start_time[2]] is [0.1 + 0.1 + 0.1 - 0.1], which is
    [0.20000000000000004] in binary64, and [2 * 0.1] is [0.2]. *)
Lemma default_prp_start_time_rounds :
  exists tx,
    Transmitter_init (numpy_complex := textbook128) args_default_prp = Ok tx /\
    wf_pulse_length (waveform tx) = 0.1 /\
    wf_prp (waveform tx) = [0.1; 0.1; 0.1] /\
    nth 2 (wf_pulse_start_time (waveform tx)) 0 = 0.20000000000000004 /\
    2 * wf_pulse_length (waveform tx) = 0.2 /\
    (nth 2 (wf_pulse_start_time (waveform tx)) 0
       =? 2 * wf_pulse_length (waveform tx)) = false.
Proof. eexists. repeat split; reflexivity. Qed.

Lemma default_prp_is_pulse_length_witness :
  exists tx,
    Transmitter_init (numpy_complex := textbook128) args_default_prp = Ok tx /\
    Z.of_nat (length (wf_prp (waveform tx))) = 3%Z.
Proof.
  eexists. split; [reflexivity|].
  apply (default_prp_is_pulse_length (numpy_complex := textbook128)
           args_default_prp _ eq_refl eq_refl).
Defined.

(** A time axis of another length than [phs] is rejected: [phs = [0, 90]]
    with [mod_t = [0, 1, 2]]. *)
Lemma waveform_modulation_time_axis_mismatch :
  process_waveform_modulation (numpy_complex := textbook128)
    (Some (PySeq [0; 1; 2])) None (Some (PySeq [0; 90])) =
  Raise (ValueError "Lengths of `mod_t`, `amp`, and `phs` should be the same").
Proof. reflexivity. Qed.

(** With [phs] a number and no [amp], [np.ones_like(phs)] is an array of
    dimension zero and [len(amp)] raises. *)
Lemma waveform_modulation_scalar_phs_only (numpy_complex : Complex128)
  (mod_t : pyval) (phs : float) :
  process_waveform_modulation (Some mod_t) None (Some (PyNum phs)) =
  Raise (TypeError "len() of unsized object").
Proof. reflexivity. Qed.

Lemma waveform_modulation_default_amp_phs_witness :
  length (array_or_from_zero (PySeq [0; 1])) = length [0; 90] /\
  exists mod_var,
    process_waveform_modulation (numpy_complex := textbook128)
      (Some (PySeq [0; 1])) None (Some (PySeq [0; 90])) =
      Ok {| wm_enabled := true;
            wm_var := Some mod_var;
            wm_t := Some [0; 1] |} /\
    length mod_var = 2%nat.
Proof.
  split; [reflexivity|].
  destruct (waveform_modulation_default_amp_phs (numpy_complex := textbook128)
              [0; 90] (PySeq [0; 1]) eq_refl)
    as (_ & _ & (mod_var & H & Hlen & _) & _).
  exists mod_var. split; [exact H | exact Hlen].
Defined.

Lemma waveform_modulation_disabled_when_absent_witness :
  (@None pyval = None \/
   fst (default_amp_phs (Some (PySeq [1; 1])) None) = None \/
   snd (default_amp_phs (Some (PySeq [1; 1])) None) = None) /\
  process_waveform_modulation (numpy_complex := textbook128)
    None (Some (PySeq [1; 1])) None =
  Ok {| wm_enabled := false; wm_var := None; wm_t := None |}.
Proof.
  split; [left; reflexivity|].
  apply (waveform_modulation_disabled_when_absent
           (numpy_complex := textbook128) None (Some (PySeq [1; 1])) None).
  left. reflexivity.
Defined.



(** The pattern [[3, 10, 7]] dB is stored as [[-7, 0, -3]] with the gain
    10 dB. *)
Example pattern_less_peak :
  exists tx,
    process_txchannel_prop (numpy_complex := textbook128) waveform_one_pulse
      [channel_with_pattern] = Ok tx /\
    tx_antenna_gains tx = [10] /\
    tx_az_patterns tx = [[-7; 0; -3]] /\
    tx_el_patterns tx = [[0; 0]].
Proof. eexists. repeat split; reflexivity. Qed.

(** [Transmitter(f=[0, 1e9], t=[0, 1e-6], pulses=2, prp=2e-6)] *)
Example two_pulses :
  exists tx,
    Transmitter_init (numpy_complex := textbook128) args_two_pulses = Ok tx /\
    wf_bandwidth (waveform tx) = 1e9 /\
    wf_pulse_length (waveform tx) = 1e-6 /\
    wf_prp (waveform tx) = [2e-6; 2e-6] /\
    wf_pulse_start_time (waveform tx) = [0; 2e-6] /\
    tx_size (txchannel tx) = 1%nat /\
    tx_polarization (txchannel tx) = [[0; 0; 1]] /\
    tx_antenna_gains (txchannel tx) = [0].
Proof. eexists. repeat split; reflexivity. Qed.

(** C8, as the claim has it, fails on [pulse_amp = [1]],
    [pulse_phs = [13]]: the phase that goes to [exp] is
    [13 / 180 * pi = 0.22689280275926282], and [13 * pi / 180] is
    [0.22689280275926285]; with the series for [exp] the two values of the
    modulation differ. *)
Lemma pulse_phase_in_radians_rounds :
  exists pulse_mod,
    process_pulse_modulation (numpy_complex := textbook128)
      waveform_one_pulse [1] [13] = Ok [pulse_mod] /\
    pulse_mod =
      c_mul_textbook (of_real 1)
        (c_exp_series (c_mul_textbook j (of_real (13 / 180 * np.pi)))) /\
    13 / 180 * np.pi = 0.22689280275926282 /\
    13 * np.pi / 180 = 0.22689280275926285 /\
    (13 / 180 * np.pi =? 13 * np.pi / 180) = false /\
    (imag pulse_mod =?
     imag (c_mul_textbook (of_real 1)
             (c_exp_series (c_mul_textbook j (of_real (13 * np.pi / 180))))))
    = false.
Proof.
  eexists. split; [reflexivity|]. split; [reflexivity|].
  split; [reflexivity|]. split; [reflexivity|].
  split; reflexivity.
Qed.

Lemma pulse_modulation_checked_and_elementwise_witness :
  (0 <= wf_pulses waveform_one_pulse)%Z /\
  exists tx,
    process_txchannel_prop (numpy_complex := textbook128) waveform_one_pulse
      [channel_at [0; 0; 0]] = Ok tx /\
    tx_pulse_mod tx =
      [repeat
         (@c_mul textbook128 (of_real 1)
            (@c_exp textbook128
               (@c_mul textbook128 j (of_real (0 / 180 * np.pi)))))
         (Z.to_nat (wf_pulses waveform_one_pulse))].
Proof.
  assert (Hp : (0 <= wf_pulses waveform_one_pulse)%Z) by (simpl; lia).
  split; [exact Hp|].
  destruct (pulse_modulation_checked_and_elementwise
              (numpy_complex := textbook128) waveform_one_pulse)
    as (_ & _ & _ & Hdefault).
  exact (Hdefault Hp 0 0 0).
Defined.

(** C9: the polarization [[0, 1, 1j]] of a channel is stored as
    [[0, 1, 0]]: the imaginary unit is lost. *)
Theorem circular_polarization_stored_without_imaginary_part :
  exists tx,
    Transmitter_init (numpy_complex := textbook128) args_circular = Ok tx /\
    tx_polarization (txchannel tx) = [[0; 1; 0]].
Proof. eexists. split; reflexivity. Qed.

(** C10, as the claim has it, fails on [Transmitter(f=1, t=1, channels=[])]:
    the construction succeeds and the transmitter has no channel. *)
Lemma empty_channel_list_accepted :
  exists tx,
    Transmitter_init (numpy_complex := textbook128) args_no_channels = Ok tx /\
    tx_size (txchannel tx) = 0%nat /\
    tx_locations (txchannel tx) = [].
Proof. eexists. repeat split; reflexivity. Qed.

Lemma channel_count_is_length_of_channels_witness :
  exists tx,
    Transmitter_init (numpy_complex := textbook128)
      (args_of (PyNum 1) (PyNum 1)) = Ok tx /\
    tx_size (txchannel tx) = 1%nat.
Proof.
  eexists. split; [reflexivity|].
  apply (channel_count_is_length_of_channels (numpy_complex := textbook128)
           (args_of (PyNum 1) (PyNum 1)) _ eq_refl).
  reflexivity.
Defined.

#[local] Close Scope float_scope.

(** * Further properties of the constructor and the methods *)

(** ** The waveform of a constructed transmitter *)

#[local] Open Scope float_scope.

Lemma last_cons_default {A : Type} (x d : A) (r : list A) :
  last (x :: r) d = last r x.
Proof.
  revert x d. induction r as [|y r IH]; intros x d; [reflexivity|].
  change (last (x :: y :: r) d) with (last (y :: r) d).
  now rewrite !IH.
Qed.

Lemma last_map {A B : Type} (g : A -> B) (r : list A) :
  forall d, last (map g r) (g d) = g (last r d).
Proof.
  induction r as [|y r IH]; intros d; [reflexivity|].
  destruct r as [|z r]; [reflexivity|].
  change (last (map g (y :: z :: r)) (g d)) with (last (map g (z :: r)) (g d)).
  change (last (y :: z :: r) d) with (last (z :: r) d).
  apply IH.
Qed.

Lemma map_sub_zero (l : list float) : map (fun x => x - 0) l = l.
Proof.
  induction l as [|x l IH]; simpl; [reflexivity|].
  now rewrite sub_zero_r, IH.
Qed.

(** A successful validation has passed the four tests. *)
Lemma validate_waveform_prop_inv (wp : waveform_prop) :
  validate_waveform_prop wp = Ok tt ->
  length (wf_f wp) = length (wf_t wp) /\
  Z.of_nat (length (wf_f_offset wp)) = wf_pulses wp /\
  Z.of_nat (length (wf_prp wp)) = wf_pulses wp /\
  exists min_prp,
    np.min (wf_prp wp) = Ok min_prp /\
    (min_prp <? wf_pulse_length wp) = false.
Proof.
  unfold validate_waveform_prop. intros H.
  apply bind_Ok in H as (u1 & H1 & H).
  apply bind_Ok in H as (u2 & H2 & H).
  apply bind_Ok in H as (u3 & H3 & H).
  apply bind_Ok in H as (m & Hm & H).
  apply guard_Ok, negb_false_iff, Nat.eqb_eq in H1.
  apply guard_Ok, negb_false_iff, Z.eqb_eq in H2.
  apply guard_Ok, negb_false_iff, Z.eqb_eq in H3.
  repeat (split; [assumption|]).
  exists m. split; [exact Hm|].
  destruct (m <? wf_pulse_length wp); [discriminate | reflexivity].
Qed.

(** The arrays [__init__] stores for [f], [t] and [f_offset], the bandwidth
    and the pulse length. *)
Lemma init_waveform_prop_fields (a : init_args) (wp : waveform_prop) :
  init_waveform_prop a = Ok wp ->
  wf_f wp = match arg_f a with PySeq l => l | PyNum x => [x; x] end /\
  match arg_t a with
  | PySeq l =>
      exists t0 r, l = t0 :: r /\ wf_t wp = map (fun x => x - t0) l
  | PyNum x => wf_t wp = [0; x]
  end /\
  (exists max_f min_f,
     np.max (wf_f wp) = Ok max_f /\ np.min (wf_f wp) = Ok min_f /\
     wf_bandwidth wp = max_f - min_f) /\
  getitem_last (wf_t wp) = Ok (wf_pulse_length wp) /\
  match arg_f_offset a with
  | None =>
      (0 <= arg_pulses a)%Z /\
      wf_f_offset wp = repeat 0 (Z.to_nat (arg_pulses a))
  | Some (PySeq l) => wf_f_offset wp = l
  | Some (PyNum x) =>
      (0 <= arg_pulses a)%Z /\
      wf_f_offset wp = repeat (x + 0) (Z.to_nat (arg_pulses a))
  end.
Proof.
  unfold init_waveform_prop. intros H.
  apply bind_Ok in H as (t & Ht & H).
  apply bind_Ok in H as (max_f & Hmax & H).
  apply bind_Ok in H as (min_f & Hmin & H).
  apply bind_Ok in H as (pulse_length & Hpl & H).
  apply bind_Ok in H as (f_offset & Hoff & H).
  apply bind_Ok in H as (prp & Hprp & H).
  apply bind_Ok in H as (prp0 & Hprp0 & H).
  injection H as <-. simpl.
  split; [reflexivity|]. split; [|split; [eauto | split; [exact Hpl|]]].
  - destruct (arg_t a) as [x|l].
    + now injection Ht as <-.
    + apply bind_Ok in Ht as (t0 & Ht0 & Ht). injection Ht as <-.
      destruct l as [|x r]; [discriminate|]. injection Ht0 as <-. eauto.
  - destruct (arg_f_offset a) as [[x|l]|].
    + apply bind_Ok in Hoff as (z & Hz & Hoff).
      apply zeros_Ok in Hz as [Hp ->]. injection Hoff as <-.
      split; [exact Hp | apply map_repeat].
    + now injection Hoff as <-.
    + now apply zeros_Ok in Hoff.
Qed.

#[local] Close Scope float_scope.

Section ConstructedWaveform.

Context {numpy_complex : Complex128}.

#[local] Open Scope float_scope.

(** X1: the waveform of a constructed transmitter has at least one pulse,
    [f] and [t] have one length and are not empty, and [f_offset], [prp] and
    [pulse_start_time] have one entry per pulse. *)
Theorem constructed_waveform_shapes (a : init_args) (tx : Transmitter) :
  Transmitter_init a = Ok tx ->
  wf_pulses (waveform tx) = arg_pulses a /\
  (1 <= wf_pulses (waveform tx))%Z /\
  length (wf_f (waveform tx)) = length (wf_t (waveform tx)) /\
  (1 <= length (wf_t (waveform tx)))%nat /\
  Z.of_nat (length (wf_f_offset (waveform tx))) = wf_pulses (waveform tx) /\
  Z.of_nat (length (wf_prp (waveform tx))) = wf_pulses (waveform tx) /\
  Z.of_nat (length (wf_pulse_start_time (waveform tx))) =
    wf_pulses (waveform tx).
Proof.
  intros H. apply Transmitter_init_Ok in H as (_ & Hwp & Hval & _).
  pose proof (init_waveform_prop_Ok _ _ Hwp)
    as (Hp & (p0 & rest & Hprp) & Hpst & _).
  pose proof (init_waveform_prop_fields _ _ Hwp) as (_ & _ & _ & Hlast & _).
  apply validate_waveform_prop_inv in Hval as (Hft & Hoff & Hlen & _).
  split; [exact Hp|]. split; [rewrite <- Hlen, Hprp; simpl; lia|].
  split; [exact Hft|]. split.
  - destruct (wf_t (waveform tx)); [discriminate | simpl; lia].
  - split; [exact Hoff|]. split; [exact Hlen|].
    now rewrite Hpst, length_map, cumsum_length.
Qed.

(** X2: no pulse repetition period of a constructed transmitter is below
    the pulse length, when no entry of [prp] is NaN. *)
Theorem prp_not_below_pulse_length (a : init_args) (tx : Transmitter) :
  Transmitter_init a = Ok tx ->
  (forall p, In p (wf_prp (waveform tx)) -> is_nan p = false) ->
  forall p, In p (wf_prp (waveform tx)) ->
    (p <? wf_pulse_length (waveform tx)) = false /\
    (is_nan (wf_pulse_length (waveform tx)) = false ->
     (wf_pulse_length (waveform tx) <=? p) = true).
Proof.
  intros H Hnan p Hp. apply Transmitter_init_Ok in H as (_ & _ & Hval & _).
  apply validate_waveform_prop_inv in Hval as (_ & _ & _ & m & Hm & Hlt).
  destruct (wf_prp (waveform tx)) as [|p0 rest]; [contradiction|].
  injection Hm as Hm.
  assert (Hmn : is_nan (fold_left np.minimum rest p0) = false).
  { apply fold_np_minimum_not_nan.
    - apply Hnan. now left.
    - intros s Hs. apply Hnan. now right. }
  destruct (fold_np_minimum_spec rest p0 Hmn) as [_ Hall].
  rewrite Hm in Hall.
  assert (Hpl : (p <? wf_pulse_length (waveform tx)) = false).
  { destruct (p <? wf_pulse_length (waveform tx)) eqn:E; [|reflexivity].
    rewrite (leb_ltb_trans _ _ _ (Hall p Hp) E) in Hlt. discriminate. }
  split; [exact Hpl|].
  intros Hplnan. apply ltb_false_leb; [apply Hnan, Hp | exact Hplnan | exact Hpl].
Qed.

(** X3: a [prp] that holds a NaN passes [validate_waveform_prop], whatever
    its other entries: [np.min] is then NaN and the comparison with the
    pulse length is false. *)
Theorem nan_prp_passes_validation (wp : waveform_prop) (p : float) :
  length (wf_f wp) = length (wf_t wp) ->
  Z.of_nat (length (wf_f_offset wp)) = wf_pulses wp ->
  Z.of_nat (length (wf_prp wp)) = wf_pulses wp ->
  In p (wf_prp wp) -> is_nan p = true ->
  validate_waveform_prop wp = Ok tt.
Proof.
  intros Hft Hoff Hlen Hin Hp. unfold validate_waveform_prop.
  rewrite Hft, Nat.eqb_refl, Hoff, Hlen, Z.eqb_refl. simpl.
  destruct (wf_prp wp) as [|p0 rest]; [contradiction|]. simpl.
  rewrite ltb_nan_l; [reflexivity|].
  apply fold_np_minimum_nan. eauto.
Qed.

End ConstructedWaveform.

#[local] Close Scope float_scope.

Section WaveformArguments.

Context {numpy_complex : Complex128}.

#[local] Open Scope float_scope.

(** X4: a frequency given as a number [x] is stored as the two samples
    [[x, x]], so the time axis has two samples as well, and the bandwidth
    is zero for a finite [x]. *)
Theorem scalar_frequency_is_flat (a : init_args) (tx : Transmitter)
  (x : float) :
  arg_f a = PyNum x ->
  Transmitter_init a = Ok tx ->
  wf_f (waveform tx) = [x; x] /\
  length (wf_t (waveform tx)) = 2%nat /\
  (is_finite x = true -> wf_bandwidth (waveform tx) = 0).
Proof.
  intros Hf H. apply Transmitter_init_Ok in H as (_ & Hwp & Hval & _).
  apply init_waveform_prop_fields in Hwp
    as (Ef & _ & (max_f & min_f & Hmax & Hmin & Hbw) & _).
  apply validate_waveform_prop_inv in Hval as (Hft & _).
  rewrite Hf in Ef. rewrite Ef in *. simpl in Hmax, Hmin.
  rewrite np_maximum_diag in Hmax. rewrite np_minimum_diag in Hmin.
  injection Hmax as <-. injection Hmin as <-.
  split; [reflexivity|]. split; [now rewrite <- Hft|].
  intros Hfin. rewrite Hbw. now apply sub_diag.
Qed.

(** X5: when every sample of [f] is within [-2^52, 2^52], the bandwidth of
    a constructed transmitter is the difference of two samples of [f], one
    above and one below every sample, and it is not negative. *)
Theorem bandwidth_is_spread_of_f (a : init_args) (tx : Transmitter) :
  Transmitter_init a = Ok tx ->
  (forall x, In x (wf_f (waveform tx)) -> in_exact_range x = true) ->
  exists lo hi,
    In lo (wf_f (waveform tx)) /\ In hi (wf_f (waveform tx)) /\
    (forall x, In x (wf_f (waveform tx)) ->
       (lo <=? x) = true /\ (x <=? hi) = true) /\
    wf_bandwidth (waveform tx) = hi - lo /\
    (0 <=? wf_bandwidth (waveform tx)) = true.
Proof.
  intros H Hrange. apply Transmitter_init_Ok in H as (_ & Hwp & _).
  assert (Hfin : forall x, In x (wf_f (waveform tx)) -> is_finite x = true)
    by (intros x Hx; apply in_exact_range_finite, Hrange, Hx).
  clear Hrange.
  apply init_waveform_prop_fields in Hwp
    as (_ & _ & (max_f & min_f & Hmax & Hmin & Hbw) & _).
  destruct (wf_f (waveform tx)) as [|x0 r]; [discriminate|].
  injection Hmax as Hmax. injection Hmin as Hmin.
  assert (Hnan : forall s, In s (x0 :: r) -> is_nan s = false)
    by (intros s Hs; apply is_finite_not_nan, Hfin, Hs).
  assert (Hmaxn : is_nan (fold_left np.maximum r x0) = false).
  { apply fold_np_maximum_not_nan; [apply Hnan; now left|].
    intros s Hs. apply Hnan. now right. }
  assert (Hminn : is_nan (fold_left np.minimum r x0) = false).
  { apply fold_np_minimum_not_nan; [apply Hnan; now left|].
    intros s Hs. apply Hnan. now right. }
  destruct (fold_np_maximum_spec r x0 Hmaxn) as [Hin_hi Hall_hi].
  destruct (fold_np_minimum_spec r x0 Hminn) as [Hin_lo Hall_lo].
  rewrite Hmax in *. rewrite Hmin in *.
  exists min_f, max_f. repeat split; auto.
  rewrite Hbw. apply sub_nonneg; [apply Hfin, Hin_hi | apply Hall_hi, Hin_lo].
Qed.

(** X6: the stored time axis starts at zero.  A number [t] gives the axis
    [[0, t]] and the pulse length [t]; a sequence of samples within
    [-2^52, 2^52] is stored less its first sample, so that its first entry
    is zero, and the pulse length is its last sample less its first, which
    is not negative when the last sample is not below the first. *)
Theorem time_axis_starts_at_zero (a : init_args) (tx : Transmitter) :
  Transmitter_init a = Ok tx ->
  (forall x, arg_t a = PyNum x ->
     wf_t (waveform tx) = [0; x] /\ wf_pulse_length (waveform tx) = x) /\
  (forall l, arg_t a = PySeq l ->
     (forall x, In x l -> in_exact_range x = true) ->
     exists t0,
       hd_error l = Some t0 /\
       wf_t (waveform tx) = map (fun x => x - t0) l /\
       wf_pulse_length (waveform tx) = last l t0 - t0 /\
       nth 0 (wf_t (waveform tx)) 0 = 0 /\
       ((t0 <=? last l t0) = true ->
        (0 <=? wf_pulse_length (waveform tx)) = true)).
Proof.
  intros H. apply Transmitter_init_Ok in H as (_ & Hwp & _).
  apply init_waveform_prop_fields in Hwp as (_ & Ht & _ & Hlast & _).
  split.
  - intros x E. rewrite E in Ht. rewrite Ht in *.
    split; [reflexivity|]. now injection Hlast.
  - intros l E Hrange. rewrite E in Ht. destruct Ht as (t0 & r & -> & Ht).
    exists t0. rewrite Ht in *. simpl in Hlast. injection Hlast as Hlast.
    rewrite (last_map (fun x => x - t0)) in Hlast.
    rewrite last_cons_default.
    assert (Hfin : forall x, In x (t0 :: r) -> is_finite x = true)
      by (intros x Hx; apply in_exact_range_finite, Hrange, Hx).
    split; [reflexivity|]. split; [reflexivity|]. split; [auto|]. split.
    + simpl. apply sub_diag, Hfin. now left.
    + intros Hle. rewrite <- Hlast. apply sub_nonneg; [|exact Hle].
      apply Hfin. destruct r as [|y r]; [now left|].
      right.
      destruct (exists_last (l := y :: r)) as (r' & z & Er);
        [discriminate|].
      rewrite Er, last_last. apply in_or_app. right. now left.
Qed.

(** Normalising the stored arrays once more gives them back. *)
Lemma init_waveform_prop_with_waveform (a a' : init_args)
  (wp : waveform_prop) :
  init_waveform_prop a = Ok wp ->
  nth 0 (wf_t wp) 0 = 0 ->
  init_waveform_prop (with_waveform a' wp) = Ok wp.
Proof.
  unfold init_waveform_prop. intros H.
  apply bind_Ok in H as (t & Ht & H).
  apply bind_Ok in H as (max_f & Hmax & H).
  apply bind_Ok in H as (min_f & Hmin & H).
  apply bind_Ok in H as (pulse_length & Hpl & H).
  apply bind_Ok in H as (f_offset & Hoff & H).
  apply bind_Ok in H as (prp & Hprp & H).
  apply bind_Ok in H as (prp0 & Hprp0 & H).
  injection H as <-. simpl. clear Ht Hoff Hprp.
  intros Ht0.
  destruct t as [|t0 r]; [discriminate|]. simpl in Ht0. subst t0.
  simpl sequence_first. simpl bind at 1.
  rewrite map_sub_zero, Hmax, Hmin. simpl. rewrite Hprp0. simpl.
  simpl in Hpl. injection Hpl as <-. reflexivity.
Qed.

(** X7: the arrays a constructed transmitter stores for [f], [t], [prp] and
    [f_offset], given back to the constructor with the other arguments
    unchanged, construct the same transmitter (for a time axis given as a
    number, or as a sequence with a finite first sample). *)
Theorem stored_waveform_reconstructs (a : init_args) (tx : Transmitter) :
  Transmitter_init a = Ok tx ->
  (forall l, arg_t a = PySeq l -> is_finite (hd 0 l) = true) ->
  Transmitter_init (with_waveform a (waveform tx)) = Ok tx.
Proof.
  intros H Hfin.
  apply Transmitter_init_Ok in H as (Hrf & Hwp & Hval & Hch & Erf).
  apply Transmitter_init_Ok.
  split; [exact Hrf|]. split; [|split; [exact Hval | split; assumption]].
  apply (init_waveform_prop_with_waveform a); [exact Hwp|].
  apply init_waveform_prop_fields in Hwp as (_ & Ht & _).
  destruct (arg_t a) as [x|l] eqn:E.
  - now rewrite Ht.
  - destruct Ht as (t0 & r & -> & ->). simpl.
    apply sub_diag. exact (Hfin _ eq_refl).
Qed.

(** X8: [f_offset] of a constructed transmitter has one entry per pulse:
    zeros when the argument is absent, the number [x] (as [x + 0.0]) in
    every entry when it is a number, and the sequence itself, which then
    has [pulses] entries, when it is a sequence. *)
Theorem f_offset_one_entry_per_pulse (a : init_args) (tx : Transmitter) :
  Transmitter_init a = Ok tx ->
  (arg_f_offset a = None ->
     wf_f_offset (waveform tx) = repeat 0 (Z.to_nat (arg_pulses a))) /\
  (forall x, arg_f_offset a = Some (PyNum x) ->
     wf_f_offset (waveform tx) = repeat (x + 0) (Z.to_nat (arg_pulses a)) /\
     (is_nan x = false ->
      forall y, In y (wf_f_offset (waveform tx)) -> (y =? x) = true)) /\
  (forall l, arg_f_offset a = Some (PySeq l) ->
     wf_f_offset (waveform tx) = l /\
     Z.of_nat (length l) = arg_pulses a).
Proof.
  intros H. apply Transmitter_init_Ok in H as (_ & Hwp & Hval & _).
  pose proof (init_waveform_prop_Ok _ _ Hwp) as (Hp & _).
  apply init_waveform_prop_fields in Hwp as (_ & _ & _ & _ & Hoff).
  apply validate_waveform_prop_inv in Hval as (_ & Hlen & _).
  split; [|split].
  - intros E. rewrite E in Hoff. apply Hoff.
  - intros x E. rewrite E in Hoff. destruct Hoff as [_ Hoff].
    split; [exact Hoff|].
    intros Hnan y Hy. rewrite Hoff in Hy. apply repeat_spec in Hy. subst y.
    now apply add_zero_r_eqb.
  - intros l E. rewrite E in Hoff. rewrite Hoff in Hlen.
    split; [exact Hoff | congruence].
Qed.

(** X9: a pulse repetition period given as a number [x] is not below the
    pulse length; every entry of [prp] is [x + 0.0], and
    [pulse_start_time[i]] is [x] added to itself [i] times less [x]. *)
Theorem scalar_prp_is_uniform (a : init_args) (tx : Transmitter) (x : float) :
  arg_prp a = Some (PyNum x) ->
  Transmitter_init a = Ok tx ->
  (x <? wf_pulse_length (waveform tx)) = false /\
  wf_prp (waveform tx) = repeat (x + 0) (Z.to_nat (arg_pulses a)) /\
  (forall i, (i < Z.to_nat (arg_pulses a))%nat ->
     nth i (wf_pulse_start_time (waveform tx)) 0 =
       Nat.iter i (fun s => s + (x + 0)) (x + 0) - (x + 0)).
Proof.
  intros E H. apply Transmitter_init_Ok in H as (_ & Hwp & Hval & _).
  apply init_waveform_prop_Ok in Hwp
    as (_ & (p0 & rest & Hne) & Hpst & _ & Hprp & _).
  destruct (Hprp x E) as [Hp Hrep]. clear Hprp.
  apply validate_waveform_prop_inv in Hval as (_ & _ & _ & m & Hm & Hlt).
  assert (Hhd : hd 0 (wf_prp (waveform tx)) = x + 0).
  { rewrite Hne in Hrep. rewrite Hne. simpl.
    destruct (Z.to_nat (arg_pulses a)); [discriminate|].
    simpl in Hrep. now injection Hrep. }
  split; [|split; [exact Hrep|]].
  - rewrite Hne in Hm, Hhd, Hrep. simpl in Hm, Hhd. injection Hm as <-.
    rewrite fold_np_minimum_constant in Hlt.
    + now rewrite Hhd, add_zero_r_ltb in Hlt.
    + intros p Hp'. rewrite Hhd.
      apply (repeat_spec (Z.to_nat (arg_pulses a))). rewrite <- Hrep. now right.
  - intros i Hi.
    rewrite pulse_start_time_nth;
      [|exact Hpst | now rewrite Hrep, repeat_length].
    rewrite Hhd. f_equal. rewrite Hrep. now apply running_sum_repeat.
Qed.

Lemma Transmitter_init_with_channels (a : init_args)
  (channels : list channel) :
  Transmitter_init (with_channels a channels) =
    (validate_rf_prop (init_rf_prop a) ;;;
     waveform_prop <- init_waveform_prop a ;;
     validate_waveform_prop waveform_prop ;;;
     txchannel_prop <- process_txchannel_prop waveform_prop channels ;;
     Ok {| rf := init_rf_prop a;
           waveform := waveform_prop;
           txchannel := txchannel_prop |}).
Proof. reflexivity. Qed.

(** X10: the channels are processed last and on the finished waveform.
    Arguments that are rejected with the channel list [[]] are rejected
    with the same exception with every channel list and with none; and
    when they construct a transmitter with [[]], the construction with a
    channel list [channels] is the processing of [channels] on that
    transmitter's waveform, and keeps its RF and waveform properties. *)
Theorem channels_are_processed_last (a : init_args) :
  (forall e, Transmitter_init (with_channels a []) = Raise e ->
     Transmitter_init a = Raise e /\
     forall channels, Transmitter_init (with_channels a channels) = Raise e) /\
  (forall tx0, Transmitter_init (with_channels a []) = Ok tx0 ->
     forall channels,
       Transmitter_init (with_channels a channels) =
         (txchannel_prop <- process_txchannel_prop (waveform tx0) channels ;;
          Ok {| rf := rf tx0;
                waveform := waveform tx0;
                txchannel := txchannel_prop |})).
Proof.
  assert (Hall : forall channels,
            Transmitter_init (with_channels a channels) =
              (validate_rf_prop (init_rf_prop a) ;;;
               waveform_prop <- init_waveform_prop a ;;
               validate_waveform_prop waveform_prop ;;;
               txchannel_prop <-
                 process_txchannel_prop waveform_prop channels ;;
               Ok {| rf := init_rf_prop a;
                     waveform := waveform_prop;
                     txchannel := txchannel_prop |}))
    by (intros channels; apply Transmitter_init_with_channels).
  rewrite (Hall []). unfold Transmitter_init at 1.
  destruct (validate_rf_prop (init_rf_prop a)) as [[]|e0] eqn:Hrf; simpl.
  2:{ split; [|discriminate]. intros e E. split; [exact E|].
      intros channels. rewrite Hall. exact E. }
  destruct (init_waveform_prop a) as [wp|e0] eqn:Hwp; simpl.
  2:{ split; [|discriminate]. intros e E. split; [exact E|].
      intros channels. rewrite Hall. exact E. }
  destruct (validate_waveform_prop wp) as [[]|e0] eqn:Hval; simpl.
  2:{ split; [|discriminate]. intros e E. split; [exact E|].
      intros channels. rewrite Hall. simpl. rewrite Hval. exact E. }
  pose proof (validate_waveform_prop_inv _ Hval) as (_ & _ & Hlen & _).
  destruct (process_no_channels_Ok wp) as (tx & Htx & _); [lia|].
  rewrite Htx. simpl. split; [discriminate|].
  intros tx0 E channels. injection E as <-. simpl.
  rewrite Hall. simpl. rewrite Hval. reflexivity.
Qed.

(** X11: an empty time axis and an empty frequency array are not caught by
    the length test of [validate_waveform_prop]: [t[0]] of an empty [t]
    raises an [IndexError], and [np.max] of an empty [f] raises numpy's
    [ValueError] of a reduction of an empty array. *)
Theorem empty_f_or_t_raises_before_validation (a : init_args) :
  validate_rf_prop (init_rf_prop a) = Ok tt ->
  (arg_t a = PySeq [] ->
     exists msg, Transmitter_init a = Raise (IndexError msg)) /\
  (arg_f a = PySeq [] -> arg_t a <> PySeq [] ->
     exists msg,
       Transmitter_init a = Raise (ValueError msg) /\
       msg <> "Lengths of `f` and `t` should be the same"%string).
Proof.
  intros Hrf. unfold Transmitter_init. rewrite Hrf. simpl.
  unfold init_waveform_prop. split.
  - intros ->. simpl. eauto.
  - intros -> Ht. destruct (arg_t a) as [x|[|t0 r]]; [|contradiction|];
      simpl; (eexists; split; [reflexivity | discriminate]).
Qed.

(** X12: a pulse count below one constructs no transmitter.  With a
    frequency and a time given as numbers and the other arguments at their
    defaults, a negative count raises the [ValueError] of [np.zeros] and the
    count zero raises the [IndexError] of [prp[0]]. *)
Theorem nonpositive_pulses_rejected (a : init_args) (f t : float) :
  (arg_pulses a < 1)%Z ->
  (exists e, Transmitter_init a = Raise e) /\
  Transmitter_init
    (with_pulses (args_of (PyNum f) (PyNum t)) (arg_pulses a) None) =
    Raise (if (arg_pulses a <? 0)%Z
           then ValueError "negative dimensions are not allowed"
           else IndexError "index 0 is out of bounds for axis 0 with size 0").
Proof.
  intros Hp. split.
  - destruct (Transmitter_init a) as [tx|e] eqn:H; [exfalso | eauto].
    apply Transmitter_init_Ok in H as (_ & Hwp & Hval & _).
    apply init_waveform_prop_Ok in Hwp as (Hpulses & (p0 & rest & Hprp) & _).
    apply validate_waveform_prop_inv in Hval as (_ & _ & Hlen & _).
    rewrite Hprp in Hlen. simpl in Hlen. lia.
  - unfold Transmitter_init. simpl validate_rf_prop. cbv beta iota.
    simpl bind at 1. unfold init_waveform_prop.
    simpl arg_f. simpl arg_t. simpl arg_pulses.
    simpl arg_f_offset. simpl arg_prp. unfold np.zeros.
    destruct (Z.ltb_spec (arg_pulses a) 0) as [Hneg|Hnn]; [reflexivity|].
    replace (arg_pulses a) with 0%Z by lia. reflexivity.
Qed.

End WaveformArguments.

#[local] Close Scope float_scope.

(** ** The result of the waveform modulation *)

Section WaveformModulationResult.

Context {numpy_complex : Complex128}.

(** X13: what [process_waveform_modulation] returns.  The modulation is
    enabled exactly when a time axis and one of [amp] and [phs] are given;
    a disabled result has neither [var] nor [t]; an enabled one has the
    time axis as [t] and a [var] of the same length. *)
Theorem waveform_modulation_result (mod_t amp phs : option pyval)
  (wm : waveform_mod) :
  process_waveform_modulation mod_t amp phs = Ok wm ->
  (wm_enabled wm = true <->
     mod_t <> None /\ (amp <> None \/ phs <> None)) /\
  (wm_enabled wm = false -> wm_var wm = None /\ wm_t wm = None) /\
  (wm_enabled wm = true ->
     exists m mod_var,
       mod_t = Some m /\
       wm_t wm = Some (array_or_from_zero m) /\
       wm_var wm = Some mod_var /\
       length mod_var = length (array_or_from_zero m)).
Proof.
  unfold process_waveform_modulation.
  destruct amp as [[a|la]|], phs as [[p|lp]|], mod_t as [m|]; simpl;
    intros H; try discriminate;
    repeat match type of H with
      | (if negb ?b then _ else _) = Ok _ =>
          let E := fresh "E" in
          destruct b eqn:E; simpl in H; [|discriminate]
      end;
    injection H as <-; simpl;
    (split; [|split]);
    try (split;
         [intros Ht;
          first [discriminate Ht
                | split; [discriminate
                         | first [left; discriminate | right; discriminate]]]
         | intros [Hm Hap];
           first [reflexivity
                 | exfalso; first [congruence | destruct Hap; congruence]]]);
    try (intros Hf; first [discriminate Hf | split; reflexivity]);
    try (intros Ht;
         first [discriminate Ht
               | eexists; eexists;
                 repeat (split; [reflexivity|]);
                 match goal with
                 | E : (_ =? _)%nat = true |- _ =>
                     apply Nat.eqb_eq in E; simpl in E; simpl; congruence
                 end]).
Qed.

(** C6: [phs] given alone as a number does not get the amplitude of all
    ones, nor [amp] given alone the phase of all zeros.  With a time axis
    the call raises a [TypeError]: [np.ones_like] and [np.zeros_like] of a
    number make an array of dimension zero, which has no [len] (lines
    315, 317 and 337); without a time axis the modulation is disabled.
    Numbers are inputs the method provides for (lines 324 to 335): given
    both, as [x] and [y] with a time [t], they make the two-sample
    modulation [[x * exp(1j * y / 180 * pi)] * 2] over [[0, t]]. *)
Theorem lone_scalar_modulation_raises (mod_t : pyval) (x : float) :
  process_waveform_modulation (Some mod_t) (Some (PyNum x)) None =
    Raise (TypeError "len() of unsized object") /\
  process_waveform_modulation (Some mod_t) None (Some (PyNum x)) =
    Raise (TypeError "len() of unsized object") /\
  process_waveform_modulation None (Some (PyNum x)) None =
    Ok waveform_mod_disabled /\
  process_waveform_modulation None None (Some (PyNum x)) =
    Ok waveform_mod_disabled /\
  forall y t,
    process_waveform_modulation (Some (PyNum t)) (Some (PyNum x))
      (Some (PyNum y)) =
      Ok {| wm_enabled := true;
            wm_var := Some [waveform_mod_var x y; waveform_mod_var x y];
            wm_t := Some [0%float; t] |}.
Proof. repeat split; reflexivity. Qed.

(** X15: with a time axis, [amp] and [phs] all given,
    [process_waveform_modulation] raises the [ValueError] that names [amp]
    and [phs] when their lengths differ (a number counts as two samples),
    the one that names [mod_t] when their common length is not that of the
    time axis, and otherwise returns the enabled record with
    [var[i] = amp[i] * exp(1j * phs[i] / 180 * pi)]. *)
Theorem waveform_modulation_checked_and_elementwise (mod_t amp phs : pyval)
  (la lp : list float) :
  array_or_pair (Plain amp) = Arr1 la ->
  array_or_pair (Plain phs) = Arr1 lp ->
  (length la <> length lp ->
     process_waveform_modulation (Some mod_t) (Some amp) (Some phs) =
       Raise (ValueError "Lengths of `amp` and `phs` should be the same")) /\
  (length la = length lp ->
   length (array_or_from_zero mod_t) <> length la ->
     process_waveform_modulation (Some mod_t) (Some amp) (Some phs) =
       Raise (ValueError
                "Lengths of `mod_t`, `amp`, and `phs` should be the same")) /\
  (length la = length lp ->
   length (array_or_from_zero mod_t) = length la ->
     exists mod_var,
       process_waveform_modulation (Some mod_t) (Some amp) (Some phs) =
         Ok {| wm_enabled := true;
               wm_var := Some mod_var;
               wm_t := Some (array_or_from_zero mod_t) |} /\
       length mod_var = length la /\
       forall i, i < length la ->
         nth i mod_var (of_real 0%float) =
           c_mul (of_real (nth i la 0%float))
             (c_exp (c_mul (c_div (c_mul j (of_real (nth i lp 0%float)))
                              (of_real 180%float))
                       (of_real np.pi)))).
Proof.
  intros Ha Hp. unfold process_waveform_modulation.
  change (default_amp_phs (Some amp) (Some phs))
    with (Some (Plain amp), Some (Plain phs)).
  cbv iota beta. rewrite Ha, Hp. split; [|split].
  - intros Hne. apply Nat.eqb_neq in Hne. now rewrite Hne.
  - intros Hap Ht. rewrite Hap, Nat.eqb_refl. simpl.
    rewrite zip_with_length by exact Hap.
    apply Nat.eqb_neq in Ht. now rewrite Ht.
  - intros Hap Ht. exists (zip_with waveform_mod_var la lp).
    split; [|split].
    + rewrite Hap, Nat.eqb_refl. simpl.
      rewrite zip_with_length by exact Hap.
      rewrite Ht, Nat.eqb_refl. reflexivity.
    + now apply zip_with_length.
    + intros i Hi.
      now rewrite (zip_with_nth _ 0%float 0%float) by assumption.
Qed.

End WaveformModulationResult.

(** ** Every channel on its own *)

Lemma setitem_in_range {A : Type} (a : list A) :
  forall i v, i < length a -> exists a', setitem a i v = Ok a'.
Proof.
  induction a as [|x a IH]; intros i v Hi; simpl in Hi; [lia|].
  destruct i as [|i]; simpl; [eauto|].
  destruct (IH i v) as [a' Ha']; [lia|]. rewrite Ha'. simpl. eauto.
Qed.

Lemma Forall2_of_nth_error {A B : Type} (V : A -> B -> Prop) (l : list A) :
  forall l', length l' = length l ->
  (forall n c, nth_error l n = Some c ->
     exists x, V c x /\ nth_error l' n = Some x) ->
  Forall2 V l l'.
Proof.
  induction l as [|c l IH]; intros [|x l'] Hlen H; simpl in Hlen;
    try discriminate; constructor.
  - destruct (H 0 c eq_refl) as (y & Hy & E). injection E as <-. exact Hy.
  - apply IH; [lia|]. intros n c' Hn. exact (H (S n) c' Hn).
Qed.

Lemma Forall2_nth_error_l {A B : Type} (V : A -> B -> Prop)
  (l : list A) (l' : list B) :
  Forall2 V l l' ->
  forall n c, nth_error l n = Some c ->
  exists x, V c x /\ nth_error l' n = Some x.
Proof.
  induction 1 as [|c x l l' Hx _ IH]; intros [|n] c' Hn; simpl in *;
    try discriminate.
  - injection Hn as <-. eauto.
  - exact (IH n c' Hn).
Qed.

Lemma Forall2_In_r {A B : Type} (V : A -> B -> Prop)
  (l : list A) (l' : list B) :
  Forall2 V l l' -> forall x, In x l' -> exists c, In c l /\ V c x.
Proof.
  induction 1 as [|c y l l' Hy _ IH]; intros x Hin; simpl in *; [contradiction|].
  destruct Hin as [<-|Hin]; [eauto|].
  destruct (IH x Hin) as (c' & Hc' & Hv). eauto.
Qed.

Lemma Forall2_eq_map {A B : Type} (g : A -> B) (l : list A) (l' : list B) :
  Forall2 (fun c x => x = g c) l l' -> l' = map g l.
Proof.
  induction 1 as [|c x l l' Hx _ IH]; simpl; [reflexivity|]. now subst.
Qed.

Lemma broadcast3_Ok {A : Type} (v row : list A) :
  broadcast3 v = Ok row ->
  (length v = 1 \/ length v = 3) /\ length row = 3.
Proof.
  destruct v as [|x [|y [|z [|w r]]]]; simpl; try discriminate;
    intros H; injection H as <-; auto.
Qed.

Lemma broadcast3_succeeds {A : Type} (v : list A) :
  length v = 1 \/ length v = 3 -> exists row, broadcast3 v = Ok row.
Proof.
  destruct v as [|x [|y [|z [|w r]]]]; simpl; intros [H|H];
    try discriminate; eauto.
Qed.

Lemma location_row_Ok (c : channel) (row : list float) :
  location_row c = Ok row ->
  length row = 3 /\
  (ch_location c = None -> row = [nan; nan; nan]%float) /\
  (forall location, ch_location c = Some location ->
     (exists x, location = [x] /\ row = [x; x; x]) \/
     (length location = 3 /\ row = location)).
Proof.
  unfold location_row. destruct (ch_location c) as [v|].
  - intros H. split; [now apply broadcast3_Ok in H|].
    split; [discriminate|].
    intros location E. injection E as <-.
    destruct v as [|x [|y [|z [|w r]]]]; simpl in H; try discriminate;
      injection H as <-; eauto.
  - intros H. injection H as <-.
    split; [reflexivity|]. split; [reflexivity | discriminate].
Qed.

Lemma location_row_succeeds (c : channel) :
  (forall location, ch_location c = Some location ->
     length location = 1 \/ length location = 3) ->
  exists row, location_row c = Ok row.
Proof.
  unfold location_row. destruct (ch_location c) as [v|]; [|eauto].
  intros H. apply broadcast3_succeeds. now apply H.
Qed.

Lemma np_max_nonempty (a : list float) :
  a <> [] -> exists m, np.max a = Ok m.
Proof. destruct a; [contradiction | simpl; eauto]. Qed.

Lemma np_max_Ok_nonempty (a : list float) (m : float) :
  np.max a = Ok m -> a <> [].
Proof. destruct a; [discriminate | discriminate]. Qed.

Section ChannelEntries.

Context {numpy_complex : Complex128}.

Lemma process_pulse_modulation_inv (wp : waveform_prop)
  (pulse_amp pulse_phs : list float) (pm : list complex) :
  process_pulse_modulation wp pulse_amp pulse_phs = Ok pm ->
  Z.of_nat (length pulse_amp) = wf_pulses wp /\
  Z.of_nat (length pulse_phs) = wf_pulses wp /\
  pm = zip_with pulse_mod_var pulse_amp pulse_phs.
Proof.
  unfold process_pulse_modulation. intros H.
  apply bind_Ok in H as (u1 & H1 & H).
  apply bind_Ok in H as (u2 & H2 & H).
  apply guard_Ok, negb_false_iff, Z.eqb_eq in H1.
  apply guard_Ok, negb_false_iff, Z.eqb_eq in H2.
  now injection H as <-.
Qed.

Variable wp : waveform_prop.

Lemma process_txchannel_prop_array_all {A : Type}
  (F : txchannel_prop -> list A) (V : channel -> A -> Prop) :
  (forall i c st st', txchannel_body wp i c st = Ok st' ->
     exists x, V c x /\ setitem (F st) i x = Ok (F st')) ->
  (forall size st0, txch_prop_init wp size = Ok st0 -> length (F st0) = size) ->
  forall channels tx, process_txchannel_prop wp channels = Ok tx ->
  Forall2 V channels (F tx).
Proof.
  intros Hbody Hinit channels tx H. apply Forall2_of_nth_error.
  - exact (process_txchannel_prop_array_length wp F V Hbody Hinit _ _ H).
  - exact (process_txchannel_prop_array wp F V Hbody _ _ H).
Qed.

Lemma process_txchannel_prop_append_all {A : Type}
  (F : txchannel_prop -> list A) (V : channel -> A -> Prop) :
  (forall i c st st', txchannel_body wp i c st = Ok st' ->
     exists x, V c x /\ F st' = F st ++ [x]) ->
  (forall size st0, txch_prop_init wp size = Ok st0 -> F st0 = []) ->
  forall channels tx, process_txchannel_prop wp channels = Ok tx ->
  Forall2 V channels (F tx).
Proof.
  intros Hbody Hinit channels tx H. unfold process_txchannel_prop in H.
  apply bind_Ok in H as (st0 & Hst0 & H).
  destruct (txchannel_loop_append wp F V Hbody _ _ _ _ H) as (xs & Hxs & Hall).
  rewrite (Hinit _ _ Hst0) in Hxs. simpl in Hxs. now rewrite Hxs.
Qed.

(** What a processed channel list has stored, field by field. *)
Lemma process_txchannel_prop_entries (channels : list channel)
  (tx : txchannel_prop) :
  process_txchannel_prop wp channels = Ok tx ->
  Forall2 (fun c x => x = get (ch_delay c) 0%float) channels (tx_delay tx) /\
  Forall2 (fun c x => x = get (ch_grid c) 1%float) channels (tx_grid tx) /\
  Forall2 (fun c row => location_row c = Ok row)
    channels (tx_locations tx) /\
  Forall2 (fun c row =>
             broadcast3 (map cast_float64 (polarization_of c)) = Ok row)
    channels (tx_polarization tx) /\
  Forall2 (fun c wm =>
             process_waveform_modulation (ch_mod_t c) (ch_amp c) (ch_phs c)
             = Ok wm)
    channels (tx_waveform_mod tx) /\
  Forall2 (fun c pm =>
             process_pulse_modulation wp (pulse_amp_of wp c)
               (pulse_phs_of wp c) = Ok pm)
    channels (tx_pulse_mod tx) /\
  Forall2 (fun c x => np.max (az_pattern_of c) = Ok x)
    channels (tx_antenna_gains tx) /\
  Forall2 (fun c x => exists peak,
             np.max (az_pattern_of c) = Ok peak /\
             x = map (fun y => (y - peak)%float) (az_pattern_of c))
    channels (tx_az_patterns tx) /\
  Forall2 (fun c x => x = az_angle_of c /\
                      length (az_angle_of c) = length (az_pattern_of c))
    channels (tx_az_angles tx) /\
  Forall2 (fun c x => exists peak,
             np.max (el_pattern_of c) = Ok peak /\
             x = map (fun y => (y - peak)%float) (el_pattern_of c))
    channels (tx_el_patterns tx) /\
  Forall2 (fun c x => x = el_angle_of c /\
                      length (el_angle_of c) = length (el_pattern_of c))
    channels (tx_el_angles tx).
Proof.
  intros H.
  assert (Hbody : forall i c st st', txchannel_body wp i c st = Ok st' ->
            exists location polarization_row wm pm az_peak el_peak,
              tx_size st' = tx_size st /\
              setitem (tx_delay st) i (get (ch_delay c) 0%float)
                = Ok (tx_delay st') /\
              setitem (tx_grid st) i (get (ch_grid c) 1%float)
                = Ok (tx_grid st') /\
              location_row c = Ok location /\
              setitem (tx_locations st) i location
                = Ok (tx_locations st') /\
              broadcast3 (map cast_float64 (polarization_of c))
                = Ok polarization_row /\
              setitem (tx_polarization st) i polarization_row =
                Ok (tx_polarization st') /\
              process_waveform_modulation (ch_mod_t c) (ch_amp c) (ch_phs c)
                = Ok wm /\
              tx_waveform_mod st' = tx_waveform_mod st ++ [wm] /\
              (0 <= wf_pulses wp)%Z /\
              process_pulse_modulation wp (pulse_amp_of wp c)
                (pulse_phs_of wp c) = Ok pm /\
              setitem (tx_pulse_mod st) i pm = Ok (tx_pulse_mod st') /\
              length (az_angle_of c) = length (az_pattern_of c) /\
              np.max (az_pattern_of c) = Ok az_peak /\
              setitem (tx_antenna_gains st) i az_peak
                = Ok (tx_antenna_gains st') /\
              tx_az_patterns st' =
                tx_az_patterns st ++
                [map (fun x => (x - az_peak)%float) (az_pattern_of c)] /\
              tx_az_angles st' = tx_az_angles st ++ [az_angle_of c] /\
              length (el_angle_of c) = length (el_pattern_of c) /\
              np.max (el_pattern_of c) = Ok el_peak /\
              tx_el_patterns st' =
                tx_el_patterns st ++
                [map (fun x => (x - el_peak)%float) (el_pattern_of c)] /\
              tx_el_angles st' = tx_el_angles st ++ [el_angle_of c])
    by (intros i c st st'; apply txchannel_body_Ok).
  repeat split.
  - apply (process_txchannel_prop_array_all tx_delay) with (3 := H).
    + intros i c st st' Hb.
      destruct (Hbody _ _ _ _ Hb) as (? & ? & ? & ? & ? & ? & Hc). eexists.
      split; [reflexivity | tauto].
    + intros size st0 Hst0. apply txch_prop_init_Ok in Hst0 as [_ ->].
      apply repeat_length.
  - apply (process_txchannel_prop_array_all tx_grid) with (3 := H).
    + intros i c st st' Hb.
      destruct (Hbody _ _ _ _ Hb) as (? & ? & ? & ? & ? & ? & Hc). eexists.
      split; [reflexivity | tauto].
    + intros size st0 Hst0. apply txch_prop_init_Ok in Hst0 as [_ ->].
      apply repeat_length.
  - apply (process_txchannel_prop_array_all tx_locations) with (3 := H).
    + intros i c st st' Hb.
      destruct (Hbody _ _ _ _ Hb)
        as (row & ? & ? & ? & ? & ? & _ & _ & _ & Hl & Hs & _).
      exists row. split; [exact Hl | exact Hs].
    + intros size st0 Hst0. apply txch_prop_init_Ok in Hst0 as [_ ->].
      apply repeat_length.
  - apply (process_txchannel_prop_array_all tx_polarization) with (3 := H).
    + intros i c st st' Hb.
      destruct (Hbody _ _ _ _ Hb) as (? & row & ? & ? & ? & ? & Hc).
      exists row. tauto.
    + intros size st0 Hst0. apply txch_prop_init_Ok in Hst0 as [_ ->].
      apply repeat_length.
  - apply (process_txchannel_prop_append_all tx_waveform_mod) with (3 := H).
    + intros i c st st' Hb.
      destruct (Hbody _ _ _ _ Hb) as (? & ? & wm & ? & ? & ? & Hc).
      exists wm. tauto.
    + intros size st0 Hst0. now apply txch_prop_init_Ok in Hst0 as [_ ->].
  - apply (process_txchannel_prop_array_all tx_pulse_mod) with (3 := H).
    + intros i c st st' Hb.
      destruct (Hbody _ _ _ _ Hb) as (? & ? & ? & pm & ? & ? & Hc).
      exists pm. tauto.
    + intros size st0 Hst0. apply txch_prop_init_Ok in Hst0 as [_ ->].
      apply repeat_length.
  - apply (process_txchannel_prop_array_all tx_antenna_gains) with (3 := H).
    + intros i c st st' Hb.
      destruct (Hbody _ _ _ _ Hb) as (? & ? & ? & ? & pk & ? & Hc).
      exists pk. tauto.
    + intros size st0 Hst0. apply txch_prop_init_Ok in Hst0 as [_ ->].
      apply repeat_length.
  - apply (process_txchannel_prop_append_all tx_az_patterns) with (3 := H).
    + intros i c st st' Hb.
      destruct (Hbody _ _ _ _ Hb) as (? & ? & ? & ? & pk & ? & Hc).
      eexists. split; [exists pk; split; [tauto | reflexivity] | tauto].
    + intros size st0 Hst0. now apply txch_prop_init_Ok in Hst0 as [_ ->].
  - apply (process_txchannel_prop_append_all tx_az_angles) with (3 := H).
    + intros i c st st' Hb.
      destruct (Hbody _ _ _ _ Hb) as (? & ? & ? & ? & ? & ? & Hc).
      eexists. split; [split; [reflexivity | tauto] | tauto].
    + intros size st0 Hst0. now apply txch_prop_init_Ok in Hst0 as [_ ->].
  - apply (process_txchannel_prop_append_all tx_el_patterns) with (3 := H).
    + intros i c st st' Hb.
      destruct (Hbody _ _ _ _ Hb) as (? & ? & ? & ? & ? & pk & Hc).
      eexists. split; [exists pk; split; [tauto | reflexivity] | tauto].
    + intros size st0 Hst0. now apply txch_prop_init_Ok in Hst0 as [_ ->].
  - apply (process_txchannel_prop_append_all tx_el_angles) with (3 := H).
    + intros i c st st' Hb.
      destruct (Hbody _ _ _ _ Hb) as (? & ? & ? & ? & ? & ? & Hc).
      eexists. split; [split; [reflexivity | tauto] | tauto].
    + intros size st0 Hst0. now apply txch_prop_init_Ok in Hst0 as [_ ->].
Qed.

End ChannelEntries.

Section ProcessedChannels.

Context {numpy_complex : Complex128}.

Variable wp : waveform_prop.

#[local] Open Scope float_scope.

(** X16: every array of a processed channel list has one entry per
    channel; a row of [locations] and of [polarization] has three
    entries, a row of [pulse_mod] one per pulse; the angles and the
    pattern of a channel, in azimuth and in elevation, have one length and
    are not empty. *)
Theorem channel_arrays_have_one_entry_per_channel (channels : list channel)
  (tx : txchannel_prop) :
  process_txchannel_prop wp channels = Ok tx ->
  (tx_size tx = length channels /\
   length (tx_delay tx) = length channels /\
   length (tx_grid tx) = length channels /\
   length (tx_locations tx) = length channels /\
   length (tx_polarization tx) = length channels /\
   length (tx_waveform_mod tx) = length channels /\
   length (tx_pulse_mod tx) = length channels /\
   length (tx_antenna_gains tx) = length channels /\
   length (tx_az_patterns tx) = length channels /\
   length (tx_az_angles tx) = length channels /\
   length (tx_el_patterns tx) = length channels /\
   length (tx_el_angles tx) = length channels) /\
  (forall row, In row (tx_locations tx) -> length row = 3%nat) /\
  (forall row, In row (tx_polarization tx) -> length row = 3%nat) /\
  (forall row, In row (tx_pulse_mod tx) ->
     Z.of_nat (length row) = wf_pulses wp) /\
  (forall n angles pattern,
     nth_error (tx_az_angles tx) n = Some angles ->
     nth_error (tx_az_patterns tx) n = Some pattern ->
     length angles = length pattern /\ pattern <> []) /\
  (forall n angles pattern,
     nth_error (tx_el_angles tx) n = Some angles ->
     nth_error (tx_el_patterns tx) n = Some pattern ->
     length angles = length pattern /\ pattern <> []).
Proof.
  intros H.
  pose proof (process_txchannel_prop_size _ _ _ H) as Hsize.
  destruct (process_txchannel_prop_entries wp _ _ H)
    as (Hd & Hg & Hl & Hp & Hw & Hpm & Hgain & Hazp & Haza & Help & Hela).
  split; [|split; [|split; [|split; [|split]]]].
  - repeat split; try exact Hsize; symmetry;
      eapply Forall2_length; eassumption.
  - intros row Hin.
    destruct (Forall2_In_r _ _ _ Hl row Hin) as (c & _ & Hb).
    now apply location_row_Ok in Hb.
  - intros row Hin.
    destruct (Forall2_In_r _ _ _ Hp row Hin) as (c & _ & Hb).
    now apply broadcast3_Ok in Hb.
  - intros row Hin.
    destruct (Forall2_In_r _ _ _ Hpm row Hin) as (c & _ & Hb).
    apply process_pulse_modulation_inv in Hb as (Ha & Hph & ->).
    rewrite zip_with_length; [exact Ha | lia].
  - intros n angles pattern Ha Hpat.
    assert (Hn : (n < length channels)%nat).
    { rewrite (Forall2_length Haza). apply nth_error_Some. congruence. }
    destruct (nth_error channels n) as [c|] eqn:Hc;
      [|apply nth_error_None in Hc; lia].
    destruct (Forall2_nth_error_l _ _ _ Haza n c Hc) as (x & [-> Hlen] & Ex).
    destruct (Forall2_nth_error_l _ _ _ Hazp n c Hc)
      as (y & (pk & Hpk & ->) & Ey).
    rewrite Ex in Ha. rewrite Ey in Hpat.
    injection Ha as <-. injection Hpat as <-.
    rewrite length_map. split; [exact Hlen|].
    apply np_max_Ok_nonempty in Hpk.
    destruct (az_pattern_of c); [contradiction | discriminate].
  - intros n angles pattern Ha Hpat.
    assert (Hn : (n < length channels)%nat).
    { rewrite (Forall2_length Hela). apply nth_error_Some. congruence. }
    destruct (nth_error channels n) as [c|] eqn:Hc;
      [|apply nth_error_None in Hc; lia].
    destruct (Forall2_nth_error_l _ _ _ Hela n c Hc) as (x & [-> Hlen] & Ex).
    destruct (Forall2_nth_error_l _ _ _ Help n c Hc)
      as (y & (pk & Hpk & ->) & Ey).
    rewrite Ex in Ha. rewrite Ey in Hpat.
    injection Ha as <-. injection Hpat as <-.
    rewrite length_map. split; [exact Hlen|].
    apply np_max_Ok_nonempty in Hpk.
    destruct (el_pattern_of c); [contradiction | discriminate].
Qed.

(** X17: the delays, the grids and the angles are stored in the order of
    the channels, with the defaults 0, 1 and [[-90, 90]] for a channel
    that does not give them; the row of [locations] of a channel is its
    location, a single coordinate being repeated three times, and three
    NaN for a channel without location; and its entry of [waveform_mod] is
    what [process_waveform_modulation] returns on its [mod_t], [amp] and
    [phs]. *)
Theorem channel_values_stored_in_order (channels : list channel)
  (tx : txchannel_prop) :
  process_txchannel_prop wp channels = Ok tx ->
  tx_delay tx = map (fun c => get (ch_delay c) 0) channels /\
  tx_grid tx = map (fun c => get (ch_grid c) 1) channels /\
  tx_az_angles tx =
    map (fun c => get (ch_azimuth_angle c) [-90; 90]) channels /\
  tx_el_angles tx =
    map (fun c => get (ch_elevation_angle c) [-90; 90]) channels /\
  Forall2 (fun c row =>
             (ch_location c = None -> row = [nan; nan; nan]) /\
             (forall location, ch_location c = Some location ->
                (exists x, location = [x] /\ row = [x; x; x]) \/
                (length location = 3%nat /\ row = location)))
    channels (tx_locations tx) /\
  Forall2 (fun c wm =>
             process_waveform_modulation (ch_mod_t c) (ch_amp c) (ch_phs c)
             = Ok wm)
    channels (tx_waveform_mod tx).
Proof.
  intros H.
  destruct (process_txchannel_prop_entries wp _ _ H)
    as (Hd & Hg & Hl & _ & Hw & _ & _ & _ & Haza & _ & Hela).
  split; [now apply Forall2_eq_map|]. split; [now apply Forall2_eq_map|].
  split; [|split; [|split; [|exact Hw]]].
  - apply (Forall2_eq_map az_angle_of).
    eapply Forall2_impl; [|exact Haza]. now intros c x [-> _].
  - apply (Forall2_eq_map el_angle_of).
    eapply Forall2_impl; [|exact Hela]. now intros c x [-> _].
  - eapply Forall2_impl; [|exact Hl].
    intros c row Hrow. now apply location_row_Ok in Hrow.
Qed.

End ProcessedChannels.

#[local] Close Scope float_scope.

Section ChannelAcceptance.

Context {numpy_complex : Complex128}.

Variable wp : waveform_prop.

#[local] Open Scope float_scope.

(** A channel that the loop body has processed is an accepted one. *)
Lemma txchannel_body_accepted (i : nat) (c : channel)
  (st st' : txchannel_prop) :
  txchannel_body wp i c st = Ok st' -> channel_accepted wp c.
Proof.
  intros H.
  destruct (txchannel_body_Ok _ _ _ _ _ H)
    as (row & polrow & wm & pm & az_peak & el_peak & _ & _ & _ & Hrow
        & _ & Hpol & _ & Hwm & _ & _ & Hpm & _ & Haz & Hazp
        & _ & _ & _ & Hel & Help & _).
  apply broadcast3_Ok in Hpol as [Hpol _]. rewrite length_map in Hpol.
  apply process_pulse_modulation_inv in Hpm as (Ha & Hp & _).
  apply np_max_Ok_nonempty in Hazp. apply np_max_Ok_nonempty in Help.
  unfold channel_accepted. repeat split; eauto.
  intros location Hloc. unfold location_row in Hrow. rewrite Hloc in Hrow.
  now apply broadcast3_Ok in Hrow.
Qed.

(** The loop body keeps the sizes of the arrays it writes by index. *)
Lemma txchannel_body_preallocated (i n : nat) (c : channel)
  (st st' : txchannel_prop) :
  txchannel_body wp i c st = Ok st' ->
  preallocated st n -> preallocated st' n.
Proof.
  intros H (H1 & H2 & H3 & H4 & H5 & H6).
  destruct (txchannel_body_Ok _ _ _ _ _ H)
    as (row & polrow & wm & pm & az_peak & el_peak & _ & Hd & Hg & _
        & Hl & _ & Hp & _ & _ & _ & _ & Hpm & _ & _ & Hgain & _).
  apply setitem_Ok in Hd as (_ & Hd & _). apply setitem_Ok in Hg as (_ & Hg & _).
  apply setitem_Ok in Hl as (_ & Hl & _). apply setitem_Ok in Hp as (_ & Hp & _).
  apply setitem_Ok in Hpm as (_ & Hpm & _).
  apply setitem_Ok in Hgain as (_ & Hgain & _).
  unfold preallocated. rewrite Hd, Hg, Hl, Hp, Hpm, Hgain.
  repeat split; assumption.
Qed.

(** On arrays that have a row [i], the loop body takes every accepted
    channel. *)
Lemma txchannel_body_succeeds (i : nat) (c : channel) (st : txchannel_prop) :
  (0 <= wf_pulses wp)%Z ->
  channel_accepted wp c ->
  preallocated st (S i) ->
  exists st', txchannel_body wp i c st = Ok st'.
Proof.
  intros Hpulses
    (Hloc & Hpol & (wm & Hwm) & Ha & Hp & Haz & Hazp & Hel & Help)
    (H1 & H2 & H3 & H4 & H5 & H6).
  unfold txchannel_body.
  destruct (setitem_in_range (tx_delay st) i (get (ch_delay c) 0)) as [d Hd];
    [lia|]. rewrite Hd, bind_Ok_l.
  destruct (setitem_in_range (tx_grid st) i (get (ch_grid c) 1)) as [g Hg];
    [lia|]. rewrite Hg, bind_Ok_l.
  change (match ch_location c with
          | Some v => broadcast3 v
          | None => Ok [nan; nan; nan]
          end) with (location_row c).
  destruct (location_row_succeeds c Hloc) as [row Hrow].
  rewrite Hrow, bind_Ok_l.
  destruct (setitem_in_range (tx_locations st) i row) as [ls Hls]; [lia|].
  rewrite Hls, bind_Ok_l.
  change (get (ch_polarization c) _) with (polarization_of c).
  destruct (broadcast3_succeeds (map cast_float64 (polarization_of c)))
    as [prow Hprow]; [now rewrite length_map|].
  rewrite Hprow, bind_Ok_l.
  destruct (setitem_in_range (tx_polarization st) i prow) as [ps Hps]; [lia|].
  rewrite Hps, bind_Ok_l, Hwm, bind_Ok_l.
  rewrite (ones_nonneg _ Hpulses), bind_Ok_l.
  rewrite (zeros_nonneg _ Hpulses), bind_Ok_l.
  change (get (ch_pulse_amp c) _) with (pulse_amp_of wp c).
  change (get (ch_pulse_phs c) _) with (pulse_phs_of wp c).
  rewrite (process_pulse_modulation_Ok wp _ _ Ha Hp), bind_Ok_l.
  destruct (setitem_in_range (tx_pulse_mod st) i
              (zip_with pulse_mod_var (pulse_amp_of wp c) (pulse_phs_of wp c)))
    as [pms Hpms]; [lia|].
  rewrite Hpms, bind_Ok_l. cbv zeta.
  change (get (ch_azimuth_angle c) _) with (az_angle_of c).
  change (get (ch_azimuth_pattern c) _) with (az_pattern_of c).
  change (get (ch_elevation_angle c) _) with (el_angle_of c).
  change (get (ch_elevation_pattern c) _) with (el_pattern_of c).
  rewrite Haz, Hel, !Nat.eqb_refl. cbn [negb]. rewrite bind_Ok_l.
  destruct (np_max_nonempty _ Hazp) as [az_peak Haz_peak].
  rewrite Haz_peak, bind_Ok_l.
  destruct (setitem_in_range (tx_antenna_gains st) i az_peak) as [gs Hgs];
    [lia|].
  rewrite Hgs, !bind_Ok_l.
  destruct (np_max_nonempty _ Help) as [el_peak Hel_peak].
  rewrite Hel_peak, bind_Ok_l. eauto.
Qed.

Lemma txchannel_loop_succeeds (n : nat) (rest : list channel) :
  forall k st,
  (0 <= wf_pulses wp)%Z ->
  Forall (channel_accepted wp) rest ->
  (k + length rest <= n)%nat ->
  preallocated st n ->
  exists st', txchannel_loop wp k rest st = Ok st' /\ preallocated st' n.
Proof.
  induction rest as [|c rest IH]; intros k st Hp Hall Hk Hst; simpl.
  - eauto.
  - inversion Hall as [|c0 r0 Hc Hrest]; subst. simpl in Hk.
    destruct (txchannel_body_succeeds k c st Hp Hc) as [st1 Hst1].
    { unfold preallocated in *. intuition lia. }
    rewrite Hst1, bind_Ok_l.
    apply (IH (S k) st1 Hp Hrest); [lia|].
    exact (txchannel_body_preallocated _ _ _ _ _ Hst1 Hst).
Qed.

Lemma txchannel_loop_accepted (rest : list channel) :
  forall k st st', txchannel_loop wp k rest st = Ok st' ->
  Forall (channel_accepted wp) rest.
Proof.
  induction rest as [|c rest IH]; intros k st st' H; simpl in H;
    [constructor|].
  apply bind_Ok in H as (st1 & Hst1 & H). constructor.
  - exact (txchannel_body_accepted _ _ _ _ Hst1).
  - exact (IH _ _ _ H).
Qed.

Lemma txchannel_loop_app (pre post : list channel) :
  forall k st,
  txchannel_loop wp k (pre ++ post) st =
    (st1 <- txchannel_loop wp k pre st ;;
     txchannel_loop wp (k + length pre) post st1).
Proof.
  induction pre as [|c pre IH]; intros k st; simpl.
  - now rewrite Nat.add_0_r.
  - destruct (txchannel_body wp k c st) as [st1|e]; simpl; [|reflexivity].
    rewrite IH. now rewrite Nat.add_succ_r.
Qed.

Lemma txch_prop_init_succeeds (size : nat) :
  (0 <= wf_pulses wp)%Z ->
  exists st0, txch_prop_init wp size = Ok st0 /\ preallocated st0 size.
Proof.
  intros Hp. unfold txch_prop_init.
  rewrite zeros_of_nat, (ones_nonneg _ Hp). simpl.
  eexists. split; [reflexivity|].
  unfold preallocated. simpl. rewrite !repeat_length. auto 10.
Qed.

Lemma process_txchannel_prop_succeeds (channels : list channel) :
  (0 <= wf_pulses wp)%Z ->
  Forall (channel_accepted wp) channels ->
  exists tx, process_txchannel_prop wp channels = Ok tx.
Proof.
  intros Hp Hall. unfold process_txchannel_prop.
  destruct (txch_prop_init_succeeds (length channels) Hp) as (st0 & -> & Hst0).
  rewrite bind_Ok_l.
  destruct (txchannel_loop_succeeds (length channels) channels 0 st0
              Hp Hall (Nat.le_refl _) Hst0)
    as (tx & Htx & _).
  eauto.
Qed.

Lemma channel_at_accepted (x y z : float) :
  (0 <= wf_pulses wp)%Z -> channel_accepted wp (channel_at [x; y; z]).
Proof.
  intros Hp. unfold channel_accepted.
  split; [intros location E; injection E as <-; auto|].
  unfold channel_at, polarization_of,
    pulse_amp_of, pulse_phs_of, az_angle_of, az_pattern_of, el_angle_of,
    el_pattern_of. simpl.
  rewrite !repeat_length.
  repeat split; eauto; try lia; try discriminate.
  eexists. reflexivity.
Qed.

(** A processed channel list has a non-negative pulse count and accepted
    channels only. *)
Lemma process_txchannel_prop_accepted (channels : list channel)
  (tx : txchannel_prop) :
  process_txchannel_prop wp channels = Ok tx ->
  (0 <= wf_pulses wp)%Z /\ Forall (channel_accepted wp) channels.
Proof.
  intros H. unfold process_txchannel_prop in H.
  apply bind_Ok in H as (st0 & Hst0 & H).
  apply txch_prop_init_Ok in Hst0 as [Hp _].
  split; [exact Hp | exact (txchannel_loop_accepted _ _ _ _ H)].
Qed.

(** X18: a channel list is processed without an exception exactly when the
    pulse count is not negative and every channel is acceptable on its
    own: the state the loop carries from one channel to the next never
    makes it fail. *)
Theorem channels_accepted_one_by_one (channels : list channel) :
  (exists tx, process_txchannel_prop wp channels = Ok tx) <->
  (0 <= wf_pulses wp)%Z /\ Forall (channel_accepted wp) channels.
Proof.
  split.
  - intros [tx H]. unfold process_txchannel_prop in H.
    apply bind_Ok in H as (st0 & Hst0 & H).
    apply txch_prop_init_Ok in Hst0 as [Hp _].
    split; [exact Hp | exact (txchannel_loop_accepted _ _ _ _ H)].
  - intros [Hp Hall]. now apply process_txchannel_prop_succeeds.
Qed.

(** X19: no key of a channel is mandatory, not its location.  A channel
    without [location] in a processed list has the row of three NaN in
    [locations], and it is processed as well after any list of accepted
    channels. *)
Theorem location_is_optional (channels : list channel)
  (tx : txchannel_prop) (n : nat) (c : channel) :
  process_txchannel_prop wp channels = Ok tx ->
  nth_error channels n = Some c ->
  ch_location c = None ->
  nth_error (tx_locations tx) n = Some [nan; nan; nan] /\
  (forall pre,
     Forall (channel_accepted wp) pre ->
     exists tx',
       process_txchannel_prop wp (pre ++ [c]) = Ok tx' /\
       nth_error (tx_locations tx') (length pre) = Some [nan; nan; nan]).
Proof.
  intros H Hc Hloc.
  assert (Hrow : forall channels' tx' k,
            process_txchannel_prop wp channels' = Ok tx' ->
            nth_error channels' k = Some c ->
            nth_error (tx_locations tx') k = Some [nan; nan; nan]).
  { intros channels' tx' k H' Hk.
    destruct (process_txchannel_prop_array wp tx_locations
                (fun c row => location_row c = Ok row))
      with (channels := channels') (tx := tx') (n := k) (c := c)
      as (row & Hr & Hn); try assumption.
    - intros i c0 st st' Hbody.
      destruct (txchannel_body_Ok _ _ _ _ _ Hbody)
        as (row & ? & ? & ? & ? & ? & _ & _ & _ & Hl & Hs & _).
      exists row. split; [exact Hl | exact Hs].
    - unfold location_row in Hr. rewrite Hloc in Hr.
      injection Hr as <-. exact Hn. }
  split; [exact (Hrow _ _ _ H Hc)|].
  intros pre Hpre.
  destruct (process_txchannel_prop_accepted _ _ H) as [Hp Hall].
  assert (Hacc : channel_accepted wp c).
  { rewrite Forall_forall in Hall. apply Hall.
    eapply nth_error_In. exact Hc. }
  destruct (process_txchannel_prop_succeeds (pre ++ [c]) Hp) as [tx' H'].
  { apply Forall_app. split; [exact Hpre | constructor; [exact Hacc|constructor]]. }
  exists tx'. split; [exact H'|].
  apply (Hrow _ _ _ H').
  rewrite nth_error_app2, Nat.sub_diag by lia. reflexivity.
Qed.

End ChannelAcceptance.

#[local] Close Scope float_scope.

(** ** Channels do not interact *)

Lemma Forall2_functional {A B : Type} (V : A -> B -> Prop)
  (l : list A) (a b : list B) :
  (forall c x y, V c x -> V c y -> x = y) ->
  Forall2 V l a -> Forall2 V l b -> a = b.
Proof.
  intros Hfun Ha. revert b.
  induction Ha as [|c x l a Hx _ IH]; intros b Hb; inversion Hb; subst;
    [reflexivity|].
  f_equal; [eapply Hfun; eassumption | now apply IH].
Qed.

Section ChannelsDoNotInteract.

Context {numpy_complex : Complex128}.

#[local] Open Scope float_scope.

Lemma process_pulse_modulation_pulses (wp wp' : waveform_prop)
  (c : channel) :
  wf_pulses wp = wf_pulses wp' ->
  process_pulse_modulation wp (pulse_amp_of wp c) (pulse_phs_of wp c) =
  process_pulse_modulation wp' (pulse_amp_of wp' c) (pulse_phs_of wp' c).
Proof.
  intros E. unfold process_pulse_modulation, pulse_amp_of, pulse_phs_of.
  now rewrite E.
Qed.

(** The entries of two processed channel lists at two places that hold the
    same channel. *)
Ltac same_entry HF HF' n n' c Hc Hc' :=
  let x := fresh "x" in
  let x' := fresh "x" in
  let Vx := fresh "Vx" in
  let Vx' := fresh "Vx" in
  let Ex := fresh "Ex" in
  let Ex' := fresh "Ex" in
  destruct (Forall2_nth_error_l _ _ _ HF n c Hc) as (x & Vx & Ex);
  destruct (Forall2_nth_error_l _ _ _ HF' n' c Hc') as (x' & Vx' & Ex');
  rewrite Ex, Ex'; f_equal;
  repeat match goal with
    | H : exists _, _ |- _ => destruct H
    | H : _ /\ _ |- _ => destruct H
    end;
  subst; try congruence.

(** X20: what a processed channel list stores for a channel depends on
    that channel and the pulse count only: not on its place in the list,
    not on the other channels, not on the rest of the waveform. *)
Theorem channel_entries_depend_on_channel_and_pulses
  (wp wp' : waveform_prop) (channels channels' : list channel)
  (tx tx' : txchannel_prop) (n n' : nat) (c : channel) :
  wf_pulses wp = wf_pulses wp' ->
  process_txchannel_prop wp channels = Ok tx ->
  process_txchannel_prop wp' channels' = Ok tx' ->
  nth_error channels n = Some c ->
  nth_error channels' n' = Some c ->
  nth_error (tx_delay tx) n = nth_error (tx_delay tx') n' /\
  nth_error (tx_grid tx) n = nth_error (tx_grid tx') n' /\
  nth_error (tx_locations tx) n = nth_error (tx_locations tx') n' /\
  nth_error (tx_polarization tx) n = nth_error (tx_polarization tx') n' /\
  nth_error (tx_waveform_mod tx) n = nth_error (tx_waveform_mod tx') n' /\
  nth_error (tx_pulse_mod tx) n = nth_error (tx_pulse_mod tx') n' /\
  nth_error (tx_antenna_gains tx) n = nth_error (tx_antenna_gains tx') n' /\
  nth_error (tx_az_patterns tx) n = nth_error (tx_az_patterns tx') n' /\
  nth_error (tx_az_angles tx) n = nth_error (tx_az_angles tx') n' /\
  nth_error (tx_el_patterns tx) n = nth_error (tx_el_patterns tx') n' /\
  nth_error (tx_el_angles tx) n = nth_error (tx_el_angles tx') n'.
Proof.
  intros Hpulses H H' Hc Hc'.
  destruct (process_txchannel_prop_entries wp _ _ H)
    as (Hd & Hg & Hl & Hp & Hw & Hpm & Hgain & Hazp & Haza & Help & Hela).
  destruct (process_txchannel_prop_entries wp' _ _ H')
    as (Hd' & Hg' & Hl' & Hp' & Hw' & Hpm' & Hgain' & Hazp' & Haza' & Help'
        & Hela').
  repeat split.
  - same_entry Hd Hd' n n' c Hc Hc'.
  - same_entry Hg Hg' n n' c Hc Hc'.
  - same_entry Hl Hl' n n' c Hc Hc'.
  - same_entry Hp Hp' n n' c Hc Hc'.
  - same_entry Hw Hw' n n' c Hc Hc'.
  - same_entry Hpm Hpm' n n' c Hc Hc'.
    rewrite (process_pulse_modulation_pulses wp wp' c Hpulses) in *.
    congruence.
  - same_entry Hgain Hgain' n n' c Hc Hc'.
  - same_entry Hazp Hazp' n n' c Hc Hc'.
    match goal with
    | H1 : np.max _ = Ok ?p, H2 : np.max _ = Ok ?q |- _ =>
        assert (p = q) by congruence; subst; reflexivity
    end.
  - same_entry Haza Haza' n n' c Hc Hc'.
  - same_entry Help Help' n n' c Hc Hc'.
    match goal with
    | H1 : np.max _ = Ok ?p, H2 : np.max _ = Ok ?q |- _ =>
        assert (p = q) by congruence; subst; reflexivity
    end.
  - same_entry Hela Hela' n n' c Hc Hc'.
Qed.

(** X21: processing distributes over the concatenation of channel lists.
    When [channels1 ++ channels2] is processed, so are [channels1] and
    [channels2] on their own, and every array of the whole is the array of
    the first followed by that of the second. *)
Theorem channel_lists_compose (wp : waveform_prop)
  (channels1 channels2 : list channel) (tx : txchannel_prop) :
  process_txchannel_prop wp (channels1 ++ channels2) = Ok tx ->
  exists tx1 tx2,
    process_txchannel_prop wp channels1 = Ok tx1 /\
    process_txchannel_prop wp channels2 = Ok tx2 /\
    tx_size tx = (tx_size tx1 + tx_size tx2)%nat /\
    tx_delay tx = tx_delay tx1 ++ tx_delay tx2 /\
    tx_grid tx = tx_grid tx1 ++ tx_grid tx2 /\
    tx_locations tx = tx_locations tx1 ++ tx_locations tx2 /\
    tx_polarization tx = tx_polarization tx1 ++ tx_polarization tx2 /\
    tx_waveform_mod tx = tx_waveform_mod tx1 ++ tx_waveform_mod tx2 /\
    tx_pulse_mod tx = tx_pulse_mod tx1 ++ tx_pulse_mod tx2 /\
    tx_antenna_gains tx = tx_antenna_gains tx1 ++ tx_antenna_gains tx2 /\
    tx_az_patterns tx = tx_az_patterns tx1 ++ tx_az_patterns tx2 /\
    tx_az_angles tx = tx_az_angles tx1 ++ tx_az_angles tx2 /\
    tx_el_patterns tx = tx_el_patterns tx1 ++ tx_el_patterns tx2 /\
    tx_el_angles tx = tx_el_angles tx1 ++ tx_el_angles tx2.
Proof.
  intros H.
  destruct (process_txchannel_prop_accepted _ _ _ H) as [Hp Hall].
  apply Forall_app in Hall as [Hall1 Hall2].
  destruct (process_txchannel_prop_succeeds wp channels1 Hp Hall1)
    as [tx1 H1].
  destruct (process_txchannel_prop_succeeds wp channels2 Hp Hall2)
    as [tx2 H2].
  exists tx1, tx2. split; [exact H1|]. split; [exact H2|].
  split.
  { rewrite (process_txchannel_prop_size _ _ _ H),
      (process_txchannel_prop_size _ _ _ H1),
      (process_txchannel_prop_size _ _ _ H2). apply length_app. }
  destruct (process_txchannel_prop_entries wp _ _ H)
    as (Hd & Hg & Hl & Hpo & Hw & Hpm & Hgain & Hazp & Haza & Help & Hela).
  destruct (process_txchannel_prop_entries wp _ _ H1)
    as (Hd1 & Hg1 & Hl1 & Hpo1 & Hw1 & Hpm1 & Hgain1 & Hazp1 & Haza1 & Help1
        & Hela1).
  destruct (process_txchannel_prop_entries wp _ _ H2)
    as (Hd2 & Hg2 & Hl2 & Hpo2 & Hw2 & Hpm2 & Hgain2 & Hazp2 & Haza2 & Help2
        & Hela2).
  assert (Hfun : forall (p : list float) (x y : list float),
            (exists peak, np.max p = Ok peak /\
                          x = map (fun s => s - peak) p) ->
            (exists peak, np.max p = Ok peak /\
                          y = map (fun s => s - peak) p) -> x = y).
  { intros p x y (pk & Hpk & ->) (pk' & Hpk' & ->).
    assert (pk = pk') by congruence. now subst. }
  repeat split.
  - eapply Forall2_functional; [|exact Hd | apply Forall2_app; eassumption].
    intros c x y -> ->. reflexivity.
  - eapply Forall2_functional; [|exact Hg | apply Forall2_app; eassumption].
    intros c x y -> ->. reflexivity.
  - eapply Forall2_functional; [|exact Hl | apply Forall2_app; eassumption].
    intros c x y Hx Hy. congruence.
  - eapply Forall2_functional; [|exact Hpo | apply Forall2_app; eassumption].
    intros c x y Hx Hy. congruence.
  - eapply Forall2_functional; [|exact Hw | apply Forall2_app; eassumption].
    intros c x y Hx Hy. congruence.
  - eapply Forall2_functional; [|exact Hpm | apply Forall2_app; eassumption].
    intros c x y Hx Hy. congruence.
  - eapply Forall2_functional; [|exact Hgain | apply Forall2_app; eassumption].
    intros c x y Hx Hy. congruence.
  - eapply Forall2_functional; [|exact Hazp | apply Forall2_app; eassumption].
    intros c x y. apply Hfun.
  - eapply Forall2_functional; [|exact Haza | apply Forall2_app; eassumption].
    intros c x y [-> _] [-> _]. reflexivity.
  - eapply Forall2_functional; [|exact Help | apply Forall2_app; eassumption].
    intros c x y. apply Hfun.
  - eapply Forall2_functional; [|exact Hela | apply Forall2_app; eassumption].
    intros c x y [-> _] [-> _]. reflexivity.
Qed.

(** X22: a transmitter constructed without [channels] has the one default
    channel: at the origin, polarized along z, with no delay, grid 1, a
    flat pattern over [[-90, 90]] degrees in azimuth and in elevation, gain
    zero, no waveform modulation, and the pulse modulation
    [1 * exp(1j * (0 / 180 * pi))] for every pulse. *)
Theorem default_channel_is_isotropic (a : init_args) (tx : Transmitter) :
  arg_channels a = None ->
  Transmitter_init a = Ok tx ->
  txchannel tx =
    {| tx_size := 1;
       tx_delay := [0];
       tx_grid := [1];
       tx_locations := [[0; 0; 0]];
       tx_polarization := [[0; 0; 1]];
       tx_waveform_mod := [waveform_mod_disabled];
       tx_pulse_mod :=
         [repeat (pulse_mod_var 1 0) (Z.to_nat (arg_pulses a))];
       tx_az_patterns := [[0; 0]];
       tx_az_angles := [[-90; 90]];
       tx_el_patterns := [[0; 0]];
       tx_el_angles := [[-90; 90]];
       tx_antenna_gains := [0] |}.
Proof.
  intros Hnone H. apply Transmitter_init_Ok in H as (_ & Hwp & _ & H & _).
  apply init_waveform_prop_Ok in Hwp as (Hpulses & _).
  unfold channels_of in H. rewrite Hnone in H.
  pose proof (process_txchannel_prop_pulses _ _ _ H) as Hp.
  revert H.
  unfold process_txchannel_prop, txch_prop_init, default_channels.
  rewrite (ones_nonneg _ Hp). simpl.
  unfold txchannel_body. simpl.
  rewrite (ones_nonneg _ Hp), (zeros_nonneg _ Hp). simpl.
  rewrite process_pulse_modulation_Ok; [| rewrite repeat_length; lia ..].
  simpl. intros H. injection H as <-.
  now rewrite zip_with_repeat, Hpulses.
Qed.

End ChannelsDoNotInteract.

#[local] Close Scope float_scope.

Section RejectedChannels.

Context {numpy_complex : Complex128}.

Variable wp : waveform_prop.

#[local] Open Scope float_scope.

(** One statement of the loop body, run on two states. *)
Ltac on_both_runs t :=
  destruct t; [rewrite !bind_Ok_l | exact (fun H => H)].

(** The exception the loop body raises on a channel is the same at every
    index and on every state whose arrays have a row at that index. *)
Lemma txchannel_body_error_local (i i' : nat) (c : channel)
  (st st' : txchannel_prop) (e : exn) :
  preallocated st (S i) -> preallocated st' (S i') ->
  txchannel_body wp i c st = Raise e ->
  txchannel_body wp i' c st' = Raise e.
Proof.
  intros (H1 & H2 & H3 & H4 & H5 & H6) (G1 & G2 & G3 & G4 & G5 & G6).
  unfold txchannel_body.
  destruct (setitem_in_range (tx_delay st) i (get (ch_delay c) 0)) as [d Hd];
    [lia|].
  destruct (setitem_in_range (tx_delay st') i' (get (ch_delay c) 0))
    as [d' Hd']; [lia|].
  rewrite Hd, Hd', !bind_Ok_l.
  destruct (setitem_in_range (tx_grid st) i (get (ch_grid c) 1)) as [g Hg];
    [lia|].
  destruct (setitem_in_range (tx_grid st') i' (get (ch_grid c) 1))
    as [g' Hg']; [lia|].
  rewrite Hg, Hg', !bind_Ok_l.
  change (match ch_location c with
          | Some v => broadcast3 v
          | None => Ok [nan; nan; nan]
          end) with (location_row c).
  destruct (location_row c) as [row|e1]; [|exact (fun H => H)].
  rewrite !bind_Ok_l.
  destruct (setitem_in_range (tx_locations st) i row) as [l Hl]; [lia|].
  destruct (setitem_in_range (tx_locations st') i' row) as [l' Hl']; [lia|].
  rewrite Hl, Hl', !bind_Ok_l.
  destruct (broadcast3
              (map cast_float64
                 (get (ch_polarization c)
                    [of_real 0; of_real 0; of_real 1]))) as [prow|e1];
    [|exact (fun H => H)].
  rewrite !bind_Ok_l.
  destruct (setitem_in_range (tx_polarization st) i prow) as [p Hp]; [lia|].
  destruct (setitem_in_range (tx_polarization st') i' prow) as [p' Hp'];
    [lia|].
  rewrite Hp, Hp', !bind_Ok_l.
  on_both_runs
    (process_waveform_modulation (ch_mod_t c) (ch_amp c) (ch_phs c)).
  on_both_runs (np.ones (wf_pulses wp)).
  on_both_runs (np.zeros (wf_pulses wp)).
  match goal with
  | |- context [process_pulse_modulation wp ?a ?b] =>
      destruct (process_pulse_modulation wp a b) as [pm|e1];
        [|exact (fun H => H)]
  end.
  rewrite !bind_Ok_l.
  destruct (setitem_in_range (tx_pulse_mod st) i pm) as [q Hq]; [lia|].
  destruct (setitem_in_range (tx_pulse_mod st') i' pm) as [q' Hq']; [lia|].
  rewrite Hq, Hq', !bind_Ok_l. cbv zeta.
  match goal with
  | |- context [if negb ?b then _ else _] =>
      destruct b; cbn [negb]; [|exact (fun H => H)]
  end.
  rewrite !bind_Ok_l.
  match goal with
  | |- context [np.max ?a] =>
      destruct (np.max a) as [az_peak|e1]; [|exact (fun H => H)]
  end.
  rewrite !bind_Ok_l.
  destruct (setitem_in_range (tx_antenna_gains st) i az_peak) as [r Hr];
    [lia|].
  destruct (setitem_in_range (tx_antenna_gains st') i' az_peak) as [r' Hr'];
    [lia|].
  rewrite Hr, Hr', !bind_Ok_l.
  match goal with
  | |- context [if negb ?b then _ else _] =>
      destruct b; cbn [negb]; [|exact (fun H => H)]
  end.
  rewrite !bind_Ok_l.
  match goal with
  | |- context [np.max ?a] =>
      destruct (np.max a) as [el_peak|e1]; [|exact (fun H => H)]
  end.
  rewrite !bind_Ok_l. discriminate.
Qed.

(** X23: the exception of a channel list is that of its first channel that
    is not accepted: after accepted channels, a channel that makes
    [process_txchannel_prop] raise when it is processed alone makes it
    raise the same exception, whatever follows. *)
Theorem first_rejected_channel_decides_the_error (pre post : list channel)
  (c : channel) (e : exn) :
  Forall (channel_accepted wp) pre ->
  process_txchannel_prop wp [c] = Raise e ->
  process_txchannel_prop wp (pre ++ c :: post) = Raise e.
Proof.
  intros Hpre H. unfold process_txchannel_prop in *.
  destruct (Z.ltb_spec (wf_pulses wp) 0) as [Hneg|Hp].
  - revert H. unfold txch_prop_init. rewrite !zeros_of_nat, !bind_Ok_l.
    change (np.zeros 3) with (Ok (repeat 0 3)). rewrite !bind_Ok_l.
    unfold np.ones.
    destruct (Z.ltb_spec (wf_pulses wp) 0) as [_|Hnn]; [|lia].
    exact (fun H => H).
  - destruct (txch_prop_init_succeeds wp 1 Hp) as (s0 & E0 & Hs0).
    change (length [c]) with 1%nat in H.
    rewrite E0, bind_Ok_l in H. simpl in H.
    destruct (txchannel_body wp 0 c s0) as [s1|e1] eqn:Hb; [discriminate|].
    simpl in H. injection H as ->.
    destruct (txch_prop_init_succeeds wp (length (pre ++ c :: post)) Hp)
      as (st0 & -> & Hst0).
    rewrite bind_Ok_l, txchannel_loop_app.
    rewrite length_app in Hst0. simpl in Hst0.
    destruct (txchannel_loop_succeeds wp (length pre + S (length post)) pre 0
                st0 Hp Hpre ltac:(simpl; lia) Hst0) as (st1 & -> & Hst1).
    rewrite bind_Ok_l. simpl txchannel_loop.
    rewrite (txchannel_body_error_local 0 (length pre) c s0 st1 e Hs0);
      [reflexivity | | exact Hb].
    unfold preallocated in *. intuition lia.
Qed.

(** X24: the row of [polarization] of a channel holds real numbers: the
    default [[0, 0, 1]] when the channel gives no polarization, the real
    parts of the three components it gives, or the real part of its single
    component three times. *)
Theorem polarization_row_is_real_part (channels : list channel)
  (tx : txchannel_prop) (n : nat) (c : channel) :
  process_txchannel_prop wp channels = Ok tx ->
  nth_error channels n = Some c ->
  exists row,
    nth_error (tx_polarization tx) n = Some row /\
    (ch_polarization c = None -> row = [0; 0; 1]) /\
    (forall p, ch_polarization c = Some p ->
       (exists z, p = [z] /\ row = [real z; real z; real z]) \/
       (length p = 3%nat /\ row = map real p)).
Proof.
  intros H Hc.
  destruct (polarization_stored_real_part wp _ _ _ _ H Hc) as (row & Hrow & Hn).
  exists row. split; [exact Hn|]. unfold polarization_of in Hrow. split.
  - intros E. rewrite E in Hrow. simpl in Hrow. now injection Hrow as <-.
  - intros p E. rewrite E in Hrow. simpl in Hrow.
    destruct p as [|x [|y [|z [|w r]]]]; simpl in Hrow; try discriminate;
      injection Hrow as <-; eauto.
Qed.

End RejectedChannels.

#[local] Close Scope float_scope.

(** ** The further properties on concrete inputs *)

#[local] Open Scope float_scope.

Lemma constructed_waveform_shapes_witness :
  exists tx,
    Transmitter_init (numpy_complex := textbook128) args_two_pulses = Ok tx /\
    (1 <= wf_pulses (waveform tx))%Z /\
    Z.of_nat (length (wf_pulse_start_time (waveform tx))) =
      wf_pulses (waveform tx).
Proof.
  eexists. split; [reflexivity|].
  destruct (constructed_waveform_shapes (numpy_complex := textbook128)
              args_two_pulses _ eq_refl)
    as (_ & Hp & _ & _ & _ & _ & Hpst).
  split; [exact Hp | exact Hpst].
Defined.

Lemma prp_not_below_pulse_length_witness :
  exists tx,
    Transmitter_init (numpy_complex := textbook128) args_nonuniform_prp
      = Ok tx /\
    (forall p, In p (wf_prp (waveform tx)) -> is_nan p = false) /\
    (3 <? wf_pulse_length (waveform tx)) = false.
Proof.
  eexists. split; [reflexivity|].
  assert (Hn : forall p, In p [1; 2; 3] -> is_nan p = false)
    by (intros p [<-|[<-|[<-|[]]]]; reflexivity).
  split; [exact Hn|].
  apply (prp_not_below_pulse_length (numpy_complex := textbook128)
           args_nonuniform_prp _ eq_refl Hn 3).
  simpl. auto.
Defined.

Lemma nan_prp_passes_validation_witness :
  In nan (wf_prp waveform_nan_prp) /\
  is_nan nan = true /\
  validate_waveform_prop waveform_nan_prp = Ok tt.
Proof.
  assert (Hin : In nan (wf_prp waveform_nan_prp)) by (left; reflexivity).
  split; [exact Hin|]. split; [reflexivity|].
  exact (nan_prp_passes_validation waveform_nan_prp nan
           eq_refl eq_refl eq_refl Hin eq_refl).
Defined.

Lemma scalar_frequency_is_flat_witness :
  exists tx,
    Transmitter_init (numpy_complex := textbook128)
      (args_of (PyNum 1) (PyNum 1)) = Ok tx /\
    wf_f (waveform tx) = [1; 1] /\
    wf_bandwidth (waveform tx) = 0.
Proof.
  eexists. split; [reflexivity|].
  destruct (scalar_frequency_is_flat (numpy_complex := textbook128)
              (args_of (PyNum 1) (PyNum 1)) _ 1 eq_refl eq_refl)
    as (Hf & _ & Hbw).
  split; [exact Hf | exact (Hbw eq_refl)].
Defined.

Lemma bandwidth_is_spread_of_f_witness :
  exists tx,
    Transmitter_init (numpy_complex := textbook128) args_two_pulses = Ok tx /\
    (forall x, In x (wf_f (waveform tx)) -> in_exact_range x = true) /\
    (0 <=? wf_bandwidth (waveform tx)) = true.
Proof.
  eexists. split; [reflexivity|].
  assert (Hf : forall x, In x [0; 1e9] -> in_exact_range x = true)
    by (intros x [<-|[<-|[]]]; reflexivity).
  split; [exact Hf|].
  destruct (bandwidth_is_spread_of_f (numpy_complex := textbook128)
              args_two_pulses _ eq_refl Hf)
    as (lo & hi & _ & _ & _ & _ & Hbw).
  exact Hbw.
Defined.

Lemma time_axis_starts_at_zero_witness :
  exists tx,
    Transmitter_init (numpy_complex := textbook128) args_offset_time
      = Ok tx /\
    (forall x, In x [1; 2; 3] -> in_exact_range x = true) /\
    exists t0,
      hd_error [1; 2; 3] = Some t0 /\
      wf_t (waveform tx) = map (fun x => x - t0) [1; 2; 3] /\
      wf_pulse_length (waveform tx) = last [1; 2; 3] t0 - t0.
Proof.
  eexists. split; [reflexivity|].
  assert (Hr : forall x, In x [1; 2; 3] -> in_exact_range x = true)
    by (intros x [<-|[<-|[<-|[]]]]; reflexivity).
  split; [exact Hr|].
  destruct (time_axis_starts_at_zero (numpy_complex := textbook128)
              args_offset_time _ eq_refl) as [_ Hseq].
  destruct (Hseq [1; 2; 3] eq_refl Hr) as (t0 & Hhd & Ht & Hpl & _).
  exists t0. split; [exact Hhd | split; [exact Ht | exact Hpl]].
Defined.

Lemma stored_waveform_reconstructs_witness :
  exists tx,
    Transmitter_init (numpy_complex := textbook128) args_offset_time
      = Ok tx /\
    Transmitter_init (numpy_complex := textbook128)
      (with_waveform args_offset_time (waveform tx)) = Ok tx.
Proof.
  eexists. split; [reflexivity|].
  apply (stored_waveform_reconstructs (numpy_complex := textbook128)
           args_offset_time _ eq_refl).
  intros l E. injection E as <-. reflexivity.
Defined.

Lemma f_offset_one_entry_per_pulse_witness :
  exists tx,
    Transmitter_init (numpy_complex := textbook128) args_two_pulses = Ok tx /\
    wf_f_offset (waveform tx) = repeat 0 (Z.to_nat 2).
Proof.
  eexists. split; [reflexivity|].
  destruct (f_offset_one_entry_per_pulse (numpy_complex := textbook128)
              args_two_pulses _ eq_refl) as (Hnone & _).
  exact (Hnone eq_refl).
Defined.

Lemma scalar_prp_is_uniform_witness :
  exists tx,
    Transmitter_init (numpy_complex := textbook128) args_two_pulses = Ok tx /\
    (2e-6 <? wf_pulse_length (waveform tx)) = false.
Proof.
  eexists. split; [reflexivity|].
  apply (scalar_prp_is_uniform (numpy_complex := textbook128)
           args_two_pulses _ 2e-6 eq_refl eq_refl).
Defined.

Lemma empty_f_or_t_raises_before_validation_witness :
  exists msg,
    Transmitter_init (numpy_complex := textbook128)
      (args_of (PySeq []) (PySeq [])) = Raise (IndexError msg).
Proof.
  apply (empty_f_or_t_raises_before_validation (numpy_complex := textbook128)
           (args_of (PySeq []) (PySeq [])) eq_refl).
  reflexivity.
Defined.

Lemma nonpositive_pulses_rejected_witness :
  exists e,
    Transmitter_init (numpy_complex := textbook128)
      (with_pulses (args_of (PyNum 1) (PyNum 1)) 0 None) = Raise e.
Proof.
  apply (nonpositive_pulses_rejected (numpy_complex := textbook128)
           (with_pulses (args_of (PyNum 1) (PyNum 1)) 0 None) 1 1).
  simpl. lia.
Defined.

Lemma waveform_modulation_result_witness :
  exists wm,
    process_waveform_modulation (numpy_complex := textbook128)
      (Some (PyNum 1)) (Some (PyNum 1)) (Some (PyNum 0)) = Ok wm /\
    exists m mod_var,
      wm_t wm = Some (array_or_from_zero m) /\
      wm_var wm = Some mod_var /\
      length mod_var = length (array_or_from_zero m).
Proof.
  eexists. split; [reflexivity|].
  destruct (waveform_modulation_result (numpy_complex := textbook128)
              (Some (PyNum 1)) (Some (PyNum 1)) (Some (PyNum 0)) _ eq_refl)
    as (_ & _ & Hen).
  destruct (Hen eq_refl) as (m & mod_var & _ & Ht & Hvar & Hlen).
  exists m, mod_var. split; [exact Ht | split; [exact Hvar | exact Hlen]].
Defined.

Lemma waveform_modulation_checked_and_elementwise_witness :
  array_or_pair (Plain (PyNum 1)) = Arr1 [1; 1] /\
  array_or_pair (Plain (PySeq [0; 90])) = Arr1 [0; 90] /\
  exists mod_var,
    process_waveform_modulation (numpy_complex := textbook128)
      (Some (PyNum 1)) (Some (PyNum 1)) (Some (PySeq [0; 90])) =
      Ok {| wm_enabled := true;
            wm_var := Some mod_var;
            wm_t := Some [0; 1] |} /\
    length mod_var = 2%nat.
Proof.
  split; [reflexivity|]. split; [reflexivity|].
  destruct (waveform_modulation_checked_and_elementwise
              (numpy_complex := textbook128)
              (PyNum 1) (PyNum 1) (PySeq [0; 90]) [1; 1] [0; 90]
              eq_refl eq_refl) as (_ & _ & Hok).
  destruct (Hok eq_refl eq_refl) as (mod_var & H & Hlen & _).
  exists mod_var. split; [exact H | exact Hlen].
Defined.

Lemma channel_arrays_have_one_entry_per_channel_witness :
  exists tx,
    process_txchannel_prop (numpy_complex := textbook128) waveform_one_pulse
      [channel_with_pattern] = Ok tx /\
    length (tx_az_patterns tx) = 1%nat /\
    (forall row, In row (tx_locations tx) -> length row = 3%nat).
Proof.
  eexists. split; [reflexivity|].
  destruct (channel_arrays_have_one_entry_per_channel
              (numpy_complex := textbook128) waveform_one_pulse
              [channel_with_pattern] _ eq_refl)
    as ((_ & _ & _ & _ & _ & _ & _ & _ & Hazp & _) & Hloc & _).
  split; [exact Hazp | exact Hloc].
Defined.

Lemma channel_values_stored_in_order_witness :
  exists tx,
    process_txchannel_prop (numpy_complex := textbook128) waveform_one_pulse
      [channel_with_pattern; channel_at [1; 2; 3]] = Ok tx /\
    tx_grid tx =
      map (fun c => get (ch_grid c) 1)
        [channel_with_pattern; channel_at [1; 2; 3]].
Proof.
  eexists. split; [reflexivity|].
  destruct (channel_values_stored_in_order (numpy_complex := textbook128)
              waveform_one_pulse
              [channel_with_pattern; channel_at [1; 2; 3]] _ eq_refl)
    as (_ & Hgrid & _).
  exact Hgrid.
Defined.

Lemma location_is_optional_witness :
  exists tx,
    process_txchannel_prop (numpy_complex := textbook128) waveform_one_pulse
      [channel_at [1; 2; 3]; channel_without_location] = Ok tx /\
    nth_error (tx_locations tx) 1 = Some [nan; nan; nan].
Proof.
  eexists. split; [reflexivity|].
  apply (location_is_optional (numpy_complex := textbook128)
           waveform_one_pulse
           [channel_at [1; 2; 3]; channel_without_location] _ 1
           channel_without_location eq_refl eq_refl eq_refl).
Defined.

Lemma channel_entries_depend_on_channel_and_pulses_witness :
  exists tx tx',
    process_txchannel_prop (numpy_complex := textbook128) waveform_one_pulse
      [channel_with_pattern] = Ok tx /\
    process_txchannel_prop (numpy_complex := textbook128) waveform_one_pulse
      [channel_at [1; 2; 3]; channel_with_pattern] = Ok tx' /\
    nth_error (tx_antenna_gains tx) 0 = nth_error (tx_antenna_gains tx') 1.
Proof.
  eexists. eexists. split; [reflexivity|]. split; [reflexivity|].
  destruct (channel_entries_depend_on_channel_and_pulses
              (numpy_complex := textbook128)
              waveform_one_pulse waveform_one_pulse
              [channel_with_pattern]
              [channel_at [1; 2; 3]; channel_with_pattern] _ _ 0 1
              channel_with_pattern eq_refl eq_refl eq_refl eq_refl eq_refl)
    as (_ & _ & _ & _ & _ & _ & Hgain & _).
  exact Hgain.
Defined.

Lemma channel_lists_compose_witness :
  exists tx tx1 tx2,
    process_txchannel_prop (numpy_complex := textbook128) waveform_one_pulse
      ([channel_at [1; 2; 3]] ++ [channel_with_pattern]) = Ok tx /\
    process_txchannel_prop (numpy_complex := textbook128) waveform_one_pulse
      [channel_at [1; 2; 3]] = Ok tx1 /\
    process_txchannel_prop (numpy_complex := textbook128) waveform_one_pulse
      [channel_with_pattern] = Ok tx2 /\
    tx_locations tx = tx_locations tx1 ++ tx_locations tx2.
Proof.
  eexists.
  destruct (channel_lists_compose (numpy_complex := textbook128)
              waveform_one_pulse [channel_at [1; 2; 3]]
              [channel_with_pattern] _ eq_refl)
    as (tx1 & tx2 & H1 & H2 & _ & _ & _ & Hloc & _).
  exists tx1, tx2.
  split; [reflexivity | split; [exact H1 | split; [exact H2 | exact Hloc]]].
Defined.

Lemma default_channel_is_isotropic_witness :
  exists tx,
    Transmitter_init (numpy_complex := textbook128)
      (args_of (PyNum 1) (PyNum 1)) = Ok tx /\
    tx_antenna_gains (txchannel tx) = [0] /\
    tx_az_patterns (txchannel tx) = [[0; 0]].
Proof.
  eexists. split; [reflexivity|].
  pose proof (default_channel_is_isotropic (numpy_complex := textbook128)
                (args_of (PyNum 1) (PyNum 1)) _ eq_refl eq_refl) as H.
  split; [exact (f_equal tx_antenna_gains H) | exact (f_equal tx_az_patterns H)].
Defined.

Lemma first_rejected_channel_decides_the_error_witness :
  exists e,
    process_txchannel_prop (numpy_complex := textbook128) waveform_one_pulse
      [channel_at [0; 0]] = Raise e /\
    process_txchannel_prop (numpy_complex := textbook128) waveform_one_pulse
      ([] ++ channel_at [0; 0] :: [channel_with_pattern]) = Raise e.
Proof.
  eexists. split; [reflexivity|].
  exact (first_rejected_channel_decides_the_error
           (numpy_complex := textbook128) waveform_one_pulse []
           [channel_with_pattern] (channel_at [0; 0]) _
           (Forall_nil _) eq_refl).
Defined.

Lemma polarization_row_is_real_part_witness :
  exists tx row,
    process_txchannel_prop (numpy_complex := textbook128) waveform_one_pulse
      [with_polarization (channel_at [0; 0; 0]) [of_real 0; of_real 1; j]]
      = Ok tx /\
    nth_error (tx_polarization tx) 0 = Some row /\
    row = map real [of_real 0; of_real 1; j].
Proof.
  eexists.
  destruct (polarization_row_is_real_part (numpy_complex := textbook128)
              waveform_one_pulse
              [with_polarization (channel_at [0; 0; 0])
                 [of_real 0; of_real 1; j]] _ 0 _ eq_refl eq_refl)
    as (row & Hrow & _ & Hsome).
  exists row. split; [reflexivity|]. split; [exact Hrow|].
  destruct (Hsome _ eq_refl) as [(z & Hz & _)|[_ Hr]];
    [discriminate Hz | exact Hr].
Defined.

#[local] Close Scope float_scope.
